(** * gomobile bind (Android): packaging pipeline of cmd/gomobile/bind_androidapp.go

    A shallow embedding of the functions of [bind_androidapp.go]
    ([goAndroidBind], [buildSrcJar], [buildAAR], [buildJar], [writeJar],
    [androidAPIPath]) and of [bind.GenerateJavaSupport], together with the
    parts of the Go standard library they call ([strings], [strconv],
    [path/filepath], [os], [archive/zip]), followed by the properties of the
    packaging pipeline.

    Conventions.
    - A Go [string] is a byte sequence: it is a Rocq [string]; file contents
      are strings too.
    - A Go [int] is 64 bits wide: it is a [Z], and [Atoi] rejects what does
      not fit.
    - A Go function returning [error] is a computation [M S A]: it takes the
      state it can change and returns a [result] with the state it leaves.
      A run-time panic (index or slice out of range) is the third outcome.
    - What the operating system and the tools outside this file answer is read
      from an environment record [Env]. *)

From Stdlib Require Import String Ascii ZArith List Lia Bool.
From Stdlib Require Import DecimalString DecimalZ.
From stdpp Require Import base gmap strings list.

(** ** Errors and results *)

(** The error numbers of the operating system the program can meet. *)
Inductive Errno := ENOENT | EACCES | ENOTDIR | EISDIR | ENOSPC | EIO.

(** A Go [error] value: an [os.PathError], an [os.SyscallError], or an error
    made from a message ([errors.New], [fmt.Errorf]). *)
Inductive error :=
| PathError (op path : string) (errno : Errno)
| SyscallError (syscall : string) (errno : Errno)
| ErrorString (msg : string).

Definition errnoText (e : Errno) : string :=
  match e with
  | ENOENT => "no such file or directory"
  | EACCES => "permission denied"
  | ENOTDIR => "not a directory"
  | EISDIR => "is a directory"
  | ENOSPC => "no space left on device"
  | EIO => "input/output error"
  end.

(** [err.Error()], which is also what the verb [%v] prints. *)
Definition Error (e : error) : string :=
  match e with
  | PathError op path errno => op +:+ " " +:+ path +:+ ": " +:+ errnoText errno
  | SyscallError syscall errno => syscall +:+ ": " +:+ errnoText errno
  | ErrorString msg => msg
  end.

(** [os.IsNotExist]. *)
Definition IsNotExist (e : error) : bool :=
  match e with
  | PathError _ _ ENOENT | SyscallError _ ENOENT => true
  | _ => false
  end.

(** [fmt.Errorf] once its format has been filled in. *)
Definition Errorf (msg : string) : error := ErrorString msg.

Inductive result (A : Type) :=
| Ok (a : A)
| Err (e : error)
| Panic (why : string).
Arguments Ok {A} a.
Arguments Err {A} e.
Arguments Panic {A} why.

(** ** The monad of fallible, state-changing computations *)

Definition M (S A : Type) : Type := S -> result A * S.

Definition ret {S A} (a : A) : M S A := fun s => (Ok a, s).
Definition fail {S A} (e : error) : M S A := fun s => (Err e, s).
Definition panic {S A} (why : string) : M S A := fun s => (Panic why, s).

Definition bind {S A B} (m : M S A) (k : A -> M S B) : M S B :=
  fun s =>
    match m s with
    | (Ok a, s') => k a s'
    | (Err e, s') => (Err e, s')
    | (Panic why, s') => (Panic why, s')
    end.

Notation "x <- m ;; k" := (bind m (fun x => k))
  (at level 100, m at next level, right associativity).
Notation "m ;;; k" := (bind m (fun _ => k))
  (at level 100, right associativity).

Definition get {S} : M S S := fun s => (Ok s, s).
Definition modify {S} (f : S -> S) : M S unit := fun s => (Ok tt, f s).
Definition lift {S A} (r : result A) : M S A := fun s => (r, s).

(** [if err != nil { return err }] after a call that yields only an error. *)
Definition check {S} (o : option error) : M S unit :=
  match o with
  | Some e => fail e
  | None => ret tt
  end.

(** [err := f()]: the error of a call as a value, for the caller to look at
    or not. *)
Definition attempt {S} (m : M S unit) : M S (option error) :=
  fun s =>
    match m s with
    | (Ok _, s') => (Ok None, s')
    | (Err e, s') => (Ok (Some e), s')
    | (Panic why, s') => (Panic why, s')
    end.

(** A call whose error the caller does not look at. *)
Definition ignoreErr {S} (m : M S unit) : M S unit := attempt m ;;; ret tt.

(** An error of a callee returned under a new message. *)
Definition wrap {S A} (label : string) (m : M S A) : M S A :=
  fun s =>
    match m s with
    | (Err err, s') => (Err (Errorf (label +:+ Error err)), s')
    | other => other
    end.

(** An error of a callee answered by another error. *)
Definition instead {S A} (e : error) (m : M S A) : M S A :=
  fun s =>
    match m s with
    | (Err _, s') => (Err e, s')
    | other => other
    end.

(** [for _, x := range l { if err := f(x); err != nil { return err } }]. *)
Fixpoint forM_ {S A} (f : A -> M S unit) (l : list A) : M S unit :=
  match l with
  | [] => ret tt
  | x :: l' => f x ;;; forM_ f l'
  end.

(** ** package strings *)

Module Strings.

Definition HasPrefix (s prefix : string) : bool := String.prefix prefix s.

Definition HasSuffix (s suffix : string) : bool :=
  (String.length suffix <=? String.length s)%nat
  && String.eqb (substring (String.length s - String.length suffix)
                           (String.length suffix) s) suffix.

(** [strings.Contains]. *)
Fixpoint Contains (s substr : string) : bool :=
  String.prefix substr s
  || match s with
     | EmptyString => false
     | String _ s' => Contains s' substr
     end.

(** [strings.Split(s, sep)] for a separator of one byte. The result is never
    empty: a string without the separator, the empty string too, is returned
    as the only element. *)
Fixpoint Split (s : string) (sep : ascii) : list string :=
  match s with
  | EmptyString => [EmptyString]
  | String c s' =>
      if Ascii.eqb c sep then EmptyString :: Split s' sep
      else match Split s' sep with
           | [] => [String c EmptyString]
           | h :: t => String c h :: t
           end
  end.

(** [s[n:]]; [None] where Go panics (slice bounds out of range). *)
Fixpoint sliceFrom (n : nat) (s : string) : option string :=
  match n, s with
  | O, _ => Some s
  | S n', String _ s' => sliceFrom n' s'
  | S _, EmptyString => None
  end.

(** [s[:n]] for [n <= len(s)]. *)
Definition sliceTo (n : nat) (s : string) : string := substring 0 n s.

Definition rev (s : string) : string :=
  string_of_list_ascii (List.rev (list_ascii_of_string s)).

End Strings.

(** ** package strconv *)

Module Strconv.

Definition maxInt : Z := 2 ^ 63 - 1.
Definition minInt : Z := - 2 ^ 63.

Definition isDigit (c : ascii) : bool :=
  let n := nat_of_ascii c in (48 <=? n)%nat && (n <=? 57)%nat.

Fixpoint digits (s : string) (acc : Z) : option Z :=
  match s with
  | EmptyString => Some acc
  | String c s' =>
      if isDigit c
      then digits s' (10 * acc + Z.of_nat (nat_of_ascii c - 48))
      else None
  end.

(** [strconv.Atoi]: an optional sign, then one decimal digit or more, and a
    value that fits an [int]. [None] stands for [err != nil]. *)
Definition Atoi (s : string) : option Z :=
  let '(neg, body) :=
    match s with
    | String "-" s' => (true, s')
    | String "+" s' => (false, s')
    | _ => (false, s)
    end in
  match body with
  | EmptyString => None
  | _ =>
      match digits body 0 with
      | None => None
      | Some n =>
          let v := if neg then (- n)%Z else n in
          if (minInt <=? v)%Z && (v <=? maxInt)%Z then Some v else None
      end
  end.

(** The verb [%d] on an [int]. *)
Definition Itoa (z : Z) : string := NilZero.string_of_int (Z.to_int z).

End Strconv.

(** ** package path/filepath, on a system whose separator is the slash *)

Module Filepath.

Fixpoint cleanStack (rooted : bool) (elems stack : list string) : list string :=
  match elems with
  | [] => List.rev stack
  | c :: elems' =>
      if String.eqb c "" || String.eqb c "." then cleanStack rooted elems' stack
      else if String.eqb c ".." then
        match stack with
        | top :: below =>
            if String.eqb top ".."
            then cleanStack rooted elems' (".." :: stack)
            else cleanStack rooted elems' below
        | [] => cleanStack rooted elems' (if rooted then [] else [".."])
        end
      else cleanStack rooted elems' (c :: stack)
  end.

(** [filepath.Clean]: the shortest path equivalent by purely lexical
    processing (no doubled separator, no [.] element, no inner [..]). *)
Definition Clean (path : string) : string :=
  let rooted := Strings.HasPrefix path "/" in
  let out := String.concat "/" (cleanStack rooted (Strings.Split path "/") []) in
  let out := if rooted then "/" +:+ out else out in
  if String.eqb out "" then "." else out.

(** [filepath.Join]: empty elements are ignored, the rest is cleaned. *)
Fixpoint Join (elem : list string) : string :=
  match elem with
  | [] => ""
  | e :: rest => if String.eqb e "" then Join rest else Clean (String.concat "/" elem)
  end.

Fixpoint dropSlashes (s : string) : string :=
  match s with
  | String "/" s' => dropSlashes s'
  | _ => s
  end.

Fixpoint untilSlash (s : string) : string :=
  match s with
  | EmptyString => EmptyString
  | String "/" _ => EmptyString
  | String c s' => String c (untilSlash s')
  end.

(** [filepath.Base]: the last element of the path. *)
Definition Base (path : string) : string :=
  if String.eqb path "" then "."
  else
    let last := Strings.rev (untilSlash (dropSlashes (Strings.rev path))) in
    if String.eqb last "" then "/" else last.

(** The scan of [filepath.Ext] from the last byte backwards: [r] is what is
    left of the reversed path, [acc] the bytes already passed. *)
Fixpoint extScan (r acc : string) : string :=
  match r with
  | EmptyString => EmptyString
  | String "/" _ => EmptyString
  | String "." _ => String "." acc
  | String c r' => extScan r' (String c acc)
  end.

(** [filepath.Ext]: the suffix that begins at the last dot of the last
    element, empty when there is no dot. *)
Definition Ext (path : string) : string := extScan (Strings.rev path) EmptyString.

(** [filepath.ToSlash]: the separator is the slash already. *)
Definition ToSlash (path : string) : string := path.

End Filepath.

(** ** go/build *)

Module Build.

(** The fields of [build.Package] this file reads. *)
Record Package := {
  Name : string;
  ImportPath : string;
  Dir : string;
}.

End Build.

(** ** The file system the program reads *)

(** What is found at a path. A directory lists its entries in the order the
    enumerating call yields them: sorted by name for [filepath.Walk] and
    [ioutil.ReadDir], directory order for the [Readdir] method of [os.File].
    The failing kinds carry the error number of the system call that fails:
    opening a file, opening a directory, listing a directory, and looking at
    the path at all ([ENOENT] when nothing is there). A symbolic link
    carries what it points to: [os.Stat] and [os.Open] follow the link;
    [os.Lstat], the entries that [Readdir] lists and the visits of
    [filepath.Walk] do not, and see a file that is not a directory. *)
#[local] Unset Elimination Schemes.
Inductive node :=
| File (data : string)
| FileErr (errno : Errno)
| Dir (entries : list (string * node))
| DirOpenErr (errno : Errno)
| DirReadErr (errno : Errno)
| StatErr (errno : Errno)
| Symlink (target : node).
#[local] Set Elimination Schemes.

(** [info.IsDir()] of the [os.FileInfo] that [os.Lstat], [Readdir] or
    [filepath.Walk] gives of a node: a symbolic link is not a directory. *)
Definition IsDir (n : node) : bool :=
  match n with
  | Dir _ | DirOpenErr _ | DirReadErr _ => true
  | _ => false
  end.

(** What the calls that follow symbolic links find: the end of the chain
    of links. *)
Fixpoint resolve (n : node) : node :=
  match n with
  | Symlink target => resolve target
  | _ => n
  end.

(** The error of [os.Stat], if any; [op] is the name of the call in the
    message. [os.Stat] follows symbolic links. *)
Fixpoint statErr (op path : string) (n : node) : option error :=
  match n with
  | StatErr errno => Some (PathError op path errno)
  | Symlink target => statErr op path target
  | _ => None
  end.

(** The error of [os.Open], if any. [os.Open] follows symbolic links. *)
Fixpoint openErr (path : string) (n : node) : option error :=
  match n with
  | FileErr errno | DirOpenErr errno | StatErr errno => Some (PathError "open" path errno)
  | File _ | Dir _ | DirReadErr _ => None
  | Symlink target => openErr path target
  end.

(** The bytes [io.Copy] reads from an opened file. *)
Fixpoint readAll (path : string) (n : node) : result string :=
  match n with
  | File data => Ok data
  | Dir _ | DirReadErr _ | DirOpenErr _ => Err (PathError "read" path EISDIR)
  | FileErr errno | StatErr errno => Err (PathError "read" path errno)
  | Symlink target => readAll path target
  end.

(** [f.Readdir(-1)] and [f.Readdirnames(-1)] on an opened file. *)
Fixpoint Readdir (n : node) : result (list (string * node)) :=
  match n with
  | Dir entries => Ok entries
  | DirReadErr errno | DirOpenErr errno | FileErr errno | StatErr errno =>
      Err (SyscallError "readdirent" errno)
  | File _ => Err (SyscallError "readdirent" ENOTDIR)
  | Symlink target => Readdir target
  end.

(** [ioutil.ReadDir]: open, then list. *)
Definition ReadDir (path : string) (n : node) : result (list (string * node)) :=
  match openErr path n with
  | Some e => Err e
  | None => Readdir n
  end.

Fixpoint lookupEntry (name : string) (entries : list (string * node)) : option node :=
  match entries with
  | [] => None
  | (k, n) :: rest => if String.eqb k name then Some n else lookupEntry name rest
  end.

(** The error of [os.Stat(filepath.Join(p, name))], if any, where [dir] is
    what is found at [p]. *)
Fixpoint statIn (p : string) (dir : node) (name : string) : option error :=
  let path := Filepath.Join [p; name] in
  match dir with
  | Dir entries =>
      match lookupEntry name entries with
      | Some n => statErr "stat" path n
      | None => Some (PathError "stat" path ENOENT)
      end
  | File _ | FileErr _ => Some (PathError "stat" path ENOTDIR)
  | DirOpenErr errno | DirReadErr errno | StatErr errno => Some (PathError "stat" path errno)
  | Symlink target => statIn p target name
  end.

(** The calls [filepath.Walk] makes to its function, in order, when no call
    returns an error: [(path, what is there, err)]. The root is visited
    first; a directory is visited before its entries; an entry of the
    directory at [path] is visited as [path/name]; a directory that cannot be
    listed is visited a second time, with the error. [filepath.Walk] looks at
    the root and at every entry with [os.Lstat]: a symbolic link, the root
    too, is visited as a file that is not a directory, and is not entered. *)
Fixpoint visits (path : string) (n : node) : list (string * node * option error) :=
  match n with
  | StatErr errno => [(path, n, Some (PathError "lstat" path errno))]
  | File _ | FileErr _ | Symlink _ => [(path, n, None)]
  | DirOpenErr errno => [(path, n, None); (path, n, Some (PathError "open" path errno))]
  | DirReadErr errno => [(path, n, None); (path, n, Some (SyscallError "readdirent" errno))]
  | Dir entries =>
      (path, n, None)
        :: flat_map (fun entry => visits (path +:+ "/" +:+ fst entry) (snd entry)) entries
  end.

(** ** What the program changes *)

(** Where an [io.Writer] sends its bytes: [ioutil.Discard], a file made by
    [os.Create], or the entry of an enclosing archive. *)
Inductive sink :=
| Discard
| ToFile (path : string)
| ToEntry (name : string).

(** What an archive entry holds: bytes, or the archive written into it. *)
#[local] Unset Elimination Schemes.
Inductive content :=
| Bytes (data : string)
| Zip (entries : list (string * content)).
#[local] Set Elimination Schemes.

(** A [zip.Writer]: its destination and the entries made so far, oldest
    first; writes go to the last entry. *)
Record zipWriter := {
  zout : sink;
  zentries : list (string * content);
  zclosed : bool;
}.

Definition NewWriter (w : sink) : zipWriter :=
  {| zout := w; zentries := []; zclosed := false |}.

Definition addEntry (name : string) (zw : zipWriter) : zipWriter :=
  {| zout := zout zw; zentries := zentries zw ++ [(name, Bytes "")]; zclosed := zclosed zw |}.

Definition appendTo (data : string) (c : content) : content :=
  match c with
  | Bytes old => Bytes (old +:+ data)
  | Zip _ => c
  end.

Fixpoint mapLast {A} (f : A -> A) (l : list A) : list A :=
  match l with
  | [] => []
  | [x] => [f x]
  | x :: l' => x :: mapLast f l'
  end.

Definition writeEntry (data : string) (zw : zipWriter) : zipWriter :=
  {| zout := zout zw;
     zentries := mapLast (fun e => (fst e, appendTo data (snd e))) (zentries zw);
     zclosed := zclosed zw |}.

(** The archive written into the last entry becomes what the entry holds. *)
Definition embed (inner : option zipWriter) (zw : zipWriter) : zipWriter :=
  match inner with
  | None => zw
  | Some jw =>
      {| zout := zout zw;
         zentries := mapLast (fun e => (fst e, Zip (zentries jw))) (zentries zw);
         zclosed := zclosed zw |}
  end.

Definition closeWriter (zw : zipWriter) : zipWriter :=
  {| zout := zout zw; zentries := zentries zw; zclosed := true |}.

(** The package-level variables of the command that this file reads. *)
Record Config := {
  buildO : string;
  buildN : bool;
  buildV : bool;
  buildX : bool;
  bindClasspath : string;
  nativeLibs : string;
  tmpdir : string;
}.

(** What the functions of this file do to the outside, in order: a file
    made by [os.Create], bytes copied into such a file, a directory made by
    [os.MkdirAll], a command handed to [runCmd], a command line handed to
    [printcmd], a line printed on the standard error. What is written
    through an archive writer is kept in the writer. *)
Inductive event :=
| Created (path : string)
| Wrote (path data : string)
| MadeDir (path : string)
| RunCmd (dir : string) (argv : list string)
| Echoed (cmd : string)
| Printed (text : string).

Record State := {
  conf : Config;
  trace : list event;
}.

Definition emit (ev : event) (s : State) : State :=
  {| conf := conf s; trace := trace s ++ [ev] |}.

Definition setBuildO (o : string) (s : State) : State :=
  {| conf := {| buildO := o;
                buildN := buildN (conf s);
                buildV := buildV (conf s);
                buildX := buildX (conf s);
                bindClasspath := bindClasspath (conf s);
                nativeLibs := nativeLibs (conf s);
                tmpdir := tmpdir (conf s) |};
     trace := trace s |}.

(** The files [os.Create] made, oldest first. *)
Definition created (t : list event) : list string :=
  flat_map (fun ev => match ev with Created p => [p] | _ => [] end) t.

(** ** The environment *)

(** What the operating system, the Go library and the rest of the command
    answer.
    - [fs] is the file system as the program finds it when it looks: the
      writes of the program and of the tools it runs are not fed back into
      it, so the output directory of [javac] is what [fs] says it is.
    - [createErr], [mkdirAllErr] and [copyErr] say which calls of [os.Create],
      [os.MkdirAll] and [io.Copy] into a file fail.
    - [zipCreateErr], [zipWriteErr] and [zipCloseErr] say which calls of
      [Create], of a write to the current entry, and of [Close] fail on an
      archive writer in a given state; a failed call leaves the writer as it
      was.
    - The functions of the command that live in other files
      ([bootClasspath], [runCmd], [mkdir], [goInstall], the binder, ...) are
      taken as they answer: whether they fail and what they return; what
      they do to the outside is not traced, and the values they only hand to
      each other are left out. *)
Record Env := {
  Getenv : string -> string;
  fs : string -> node;
  createErr : string -> option error;
  mkdirAllErr : string -> option error;
  copyErr : string -> option error;
  zipCreateErr : zipWriter -> string -> option error;
  zipWriteErr : zipWriter -> string -> option error;
  zipCloseErr : zipWriter -> option error;
  (** the verb [%q]: [strconv.Quote] *)
  Quote : string -> string;
  (** [template.ParseFiles] and [ExecuteTemplate] *)
  parseFiles : list string -> option error;
  executeTemplate : string -> list string -> result string;
  (** constants and functions of the command declared in other files *)
  manifestHeader : string;
  bootClasspath : result string;
  runCmd : string -> list string -> option error;
  toolchainAbi : string -> string;
  libDir : string -> string;
  androidEnv : string -> list string;
  mkdir : string -> option error;
  writeFile : string -> string -> option error;
  GenClasses : list Build.Package -> string -> string -> option error;
  loadExportData : list Build.Package -> list string -> list string -> option error;
  parse : list Build.Package -> result (list string);
  newBinder : result (list string);
  GenGo : option string -> string -> option error;
  GenJava : option string -> option string -> string -> string -> option error;
  GenJavaSupport : string -> option error;
  GenGoSupport : string -> option error;
  goInstall : list string -> list string -> list string -> option error;
  goBuild : string -> list string -> list string -> option error;
  importBind : result string;
}.

Definition dq : string := String (ascii_of_nat 34) EmptyString.
Definition nl : string := String (ascii_of_nat 10) EmptyString.

(** [os.Create]. *)
Definition Create (E : Env) (path : string) : M State unit :=
  check (createErr E path) ;;; modify (emit (Created path)).

(** [os.MkdirAll]. *)
Definition MkdirAll (E : Env) (path : string) : M State unit :=
  check (mkdirAllErr E path) ;;; modify (emit (MadeDir path)).

(** [filepath.Walk]: the function is called on each visit until it returns
    an error, which [Walk] returns. No function of this file returns
    [filepath.SkipDir]. *)
Definition Walk {S} (E : Env) (root : string)
    (walkFn : string -> node -> option error -> M S unit) : M S unit :=
  forM_ (fun v => walkFn (fst (fst v)) (snd (fst v)) (snd v)) (visits root (fs E root)).

(** ** bind_androidapp.go *)

Definition javacTargetVer : string := "1.7".
Definition minAndroidAPI : Z := 15.

(** *** androidAPIPath *)

(** One turn of the loop over the entries of the platforms directory:
    [best] is [(apiPath, apiVer)]. *)
Definition pickPlatform (sdkDirName : string) (best : string * Z)
    (fi : string * node) : string * Z :=
  let name := fst fi in
  if negb (IsDir (snd fi)) || negb (Strings.HasPrefix name "android-") then best
  else
    match Strings.sliceFrom (String.length "android-") name with
    | None => best
    | Some digits =>
        match Strconv.Atoi digits with
        | None => best
        | Some n =>
            if (n <? minAndroidAPI)%Z then best
            else
              let p := Filepath.Join [sdkDirName; name] in
              match statIn p (snd fi) "android.jar" with
              | None => if (snd best <? n)%Z then (p, n) else best
              | Some _ => best
              end
        end
    end.

Definition androidAPIPath (E : Env) : result string :=
  let sdk := Getenv E "ANDROID_HOME" in
  if String.eqb sdk "" then Err (Errorf "ANDROID_HOME environment var is not set")
  else
    let sdkDirName := Filepath.Join [sdk; "platforms"] in
    let sdkDir := fs E sdkDirName in
    match openErr sdkDirName sdkDir with
    | Some err =>
        Err (Errorf ("failed to find android SDK platform: " +:+ Error err))
    | None =>
        match Readdir sdkDir with
        | Err err =>
            Err (Errorf ("failed to find android SDK platform (min API level: "
                         +:+ Strconv.Itoa minAndroidAPI +:+ "): " +:+ Error err))
        | Panic why => Panic why
        | Ok fis =>
            let best := fold_left (pickPlatform sdkDirName) fis ("", 0%Z) in
            if (snd best =? 0)%Z
            then Err (Errorf ("failed to find android SDK platform (min API level: "
                              +:+ Strconv.Itoa minAndroidAPI +:+ ") in " +:+ sdkDirName))
            else Ok (fst best)
        end
    end.

(** *** writeJar *)

(** The state of [writeJar] once its writer exists. *)
Record Jar := {
  jst : State;
  jarw : zipWriter;
}.

Definition jarEmit (ev : event) (j : Jar) : Jar :=
  {| jst := emit ev (jst j); jarw := jarw j |}.

(** The closure [jarwcreate]. *)
Definition jarwcreate (E : Env) (name : string) : M Jar unit :=
  fun j =>
    let j := if buildV (conf (jst j)) then jarEmit (Printed ("jar: " +:+ name +:+ nl)) j else j in
    match zipCreateErr E (jarw j) name with
    | Some err => (Err err, j)
    | None => (Ok tt, {| jst := jst j; jarw := addEntry name (jarw j) |})
    end.

(** A write to the current entry: [fmt.Fprintf] and [io.Copy]. *)
Definition jarWrite (E : Env) (data : string) : M Jar unit :=
  fun j =>
    match zipWriteErr E (jarw j) data with
    | Some err => (Err err, j)
    | None => (Ok tt, {| jst := jst j; jarw := writeEntry data (jarw j) |})
    end.

Definition jarClose (E : Env) : M Jar unit :=
  fun j =>
    match zipCloseErr E (jarw j) with
    | Some err => (Err err, j)
    | None => (Ok tt, {| jst := jst j; jarw := closeWriter (jarw j) |})
    end.

(** The function [writeJar] hands to [filepath.Walk]. *)
Definition writeJarWalkFn (E : Env) (dir : string)
    (path : string) (info : node) (err : option error) : M Jar unit :=
  match err with
  | Some e => fail e
  | None =>
      if IsDir info then ret tt
      else
        match Strings.sliceFrom (String.length dir + 1) path with
        | None => panic "slice bounds out of range"
        | Some rel =>
            jarwcreate E (Filepath.ToSlash rel) ;;;
            check (openErr path info) ;;;
            data <- lift (readAll path info) ;;
            jarWrite E data
        end
  end.

(** [writeJar] from [zip.NewWriter] on. The manifest header, a constant of
    another file, holds no formatting verb: [fmt.Fprintf] prints it as it
    is. *)
Definition writeJarBody (E : Env) (dir : string) : M Jar unit :=
  jarwcreate E "META-INF/MANIFEST.MF" ;;;
  ignoreErr (jarWrite E (manifestHeader E)) ;;;
  Walk E dir (writeJarWalkFn E dir) ;;;
  jarClose E.

(** [writeJar(w, dir)]: the result, the state it leaves, and the archive
    writer it made over [w], if it made one. *)
Definition writeJar (E : Env) (w : sink) (dir : string) (s : State)
    : result unit * State * option zipWriter :=
  if buildN (conf s) then (Ok tt, s, None)
  else
    let '(r, j) := writeJarBody E dir {| jst := s; jarw := NewWriter w |} in
    (r, jst j, Some (jarw j)).

(** What [buildJar], [buildSrcJar] and [buildAAR] give back: the result, the
    state they leave, and the archive writer they made, if they made one. *)
Definition Built : Type := result unit * State * option zipWriter.

(** A step that comes before the archive writer exists. *)
Definition before {A} (m : M State A) (k : A -> State -> Built) (s : State) : Built :=
  match m s with
  | (Ok a, s') => k a s'
  | (Err e, s') => (Err e, s', None)
  | (Panic why, s') => (Panic why, s', None)
  end.

(** *** buildJar *)

(** The function [buildJar] hands to [filepath.Walk]; the state is
    [srcFiles]. *)
Definition buildJarWalkFn (srcDir : string)
    (path : string) (info : node) (err : option error) : M (list string) unit :=
  match err with
  | Some e => fail e
  | None =>
      if String.eqb (Filepath.Ext path) ".java" then
        match Strings.sliceFrom (String.length srcDir) path with
        | None => panic "slice bounds out of range"
        | Some rel => modify (fun srcFiles => srcFiles ++ [Filepath.Join ["."; rel]])
        end
      else ret tt
  end.

Definition javaSources (E : Env) (srcDir : string) : M State (list string) :=
  fun s =>
    if buildN (conf s) then (Ok ["*.java"], s)
    else
      match Walk E srcDir (buildJarWalkFn srcDir) [] with
      | (Ok _, srcFiles) => (Ok srcFiles, s)
      | (Err e, _) => (Err e, s)
      | (Panic why, _) => (Panic why, s)
      end.

Definition javacArgs (dst bClspath classpath : string) (srcFiles : list string)
    : list string :=
  ["-d"; dst; "-source"; javacTargetVer; "-target"; javacTargetVer;
   "-bootclasspath"; bClspath]
  ++ (if String.eqb classpath "" then [] else ["-classpath"; classpath])
  ++ srcFiles.

Definition buildJar (E : Env) (w : sink) (srcDir : string) : State -> Built :=
  before
    (srcFiles <- javaSources E srcDir ;;
     s <- get ;;
     let dst := Filepath.Join [tmpdir (conf s); "javac-output"] in
     (if buildN (conf s) then ret tt else MkdirAll E dst) ;;;
     bClspath <- lift (bootClasspath E) ;;
     let args := javacArgs dst bClspath (bindClasspath (conf s)) srcFiles in
     modify (emit (RunCmd srcDir ("javac" :: args))) ;;;
     check (runCmd E srcDir ("javac" :: args)) ;;;
     (if buildX (conf s)
      then modify (emit (Echoed ("jar c -C " +:+ dst +:+ " .")))
      else ret tt) ;;;
     ret dst)
    (fun dst => writeJar E w dst).

(** *** buildSrcJar *)

Definition buildSrcJar (E : Env) (androidDir : string) : State -> Built :=
  before
    (s <- get ;;
     if buildN (conf s) then ret Discard
     else
       let o := buildO (conf s) in
       let ext := Filepath.Ext o in
       let name := Strings.sliceTo (String.length o - String.length ext) o
                   +:+ "-sources.jar" in
       Create E name ;;; ret (ToFile name))
    (fun out => writeJar E out (Filepath.Join [androidDir; "src/main/java"])).

(** *** buildAAR *)

(** The state of [buildAAR] once its writer exists: the archive writer and
    the map [files] from asset names to the import path of their package. *)
Record Aar := {
  ast : State;
  aarw : zipWriter;
  files : gmap string string;
}.

Definition aarEmit (ev : event) (a : Aar) : Aar :=
  {| ast := emit ev (ast a); aarw := aarw a; files := files a |}.

Definition setFiles (m : gmap string string) (a : Aar) : Aar :=
  {| ast := ast a; aarw := aarw a; files := m |}.

Definition setAarw (zw : zipWriter) (a : Aar) : Aar :=
  {| ast := ast a; aarw := zw; files := files a |}.

(** The closure [aarwcreate]. *)
Definition aarwcreate (E : Env) (name : string) : M Aar unit :=
  fun a =>
    let a := if buildV (conf (ast a)) then aarEmit (Printed ("aar: " +:+ name +:+ nl)) a else a in
    match zipCreateErr E (aarw a) name with
    | Some err => (Err err, a)
    | None => (Ok tt, setAarw (addEntry name (aarw a)) a)
    end.

Definition aarWrite (E : Env) (data : string) : M Aar unit :=
  fun a =>
    match zipWriteErr E (aarw a) data with
    | Some err => (Err err, a)
    | None => (Ok tt, setAarw (writeEntry data (aarw a)) a)
    end.

Definition aarClose (E : Env) : M Aar unit :=
  fun a =>
    match zipCloseErr E (aarw a) with
    | Some err => (Err err, a)
    | None => (Ok tt, setAarw (closeWriter (aarw a)) a)
    end.

Definition manifest (E : Env) (pkgName : string) : string :=
  "<manifest xmlns:android=" +:+ dq +:+ "http://schemas.android.com/apk/res/android"
  +:+ dq +:+ " package=" +:+ Quote E ("go." +:+ pkgName +:+ ".gojni") +:+ ">" +:+ nl
  +:+ "<uses-sdk android:minSdkVersion=" +:+ dq +:+ Strconv.Itoa minAndroidAPI
  +:+ dq +:+ "/></manifest>".

Definition conflictError (importPath name orig : string) : error :=
  Errorf ("package " +:+ importPath +:+ " asset name conflict: " +:+ name
          +:+ " already added from package " +:+ orig).

(** The function [buildAAR] hands to [filepath.Walk] for the assets of
    [pkg]. When [aarwcreate] fails it returns [nil]. *)
Definition assetWalkFn (E : Env) (pkg : Build.Package) (assetsDir : string)
    (path : string) (info : node) (err : option error) : M Aar unit :=
  match err with
  | Some e => fail e
  | None =>
      if IsDir info then ret tt
      else
        check (openErr path info) ;;;
        match Strings.sliceFrom (String.length assetsDir + 1) path with
        | None => panic "slice bounds out of range"
        | Some rel =>
            let name := "assets/" +:+ rel in
            a <- get ;;
            match files a !! name with
            | Some orig => fail (conflictError (Build.ImportPath pkg) name orig)
            | None =>
                modify (setFiles (<[name := Build.ImportPath pkg]> (files a))) ;;;
                err <- attempt (aarwcreate E name) ;;
                match err with
                | Some _ => ret tt
                | None => data <- lift (readAll path info) ;; aarWrite E data
                end
            end
        end
  end.

(** One turn of the loop over [pkgs]. [os.Stat] follows a symbolic link at
    the path of the assets, the [os.Lstat] of [filepath.Walk] does not: for
    a link to a directory the walk is started and visits the link alone, as
    a file that is not a directory. *)
Definition mergePackage (E : Env) (pkg : Build.Package) : M Aar unit :=
  let assetsDir := Filepath.Join [Build.Dir pkg; "assets"] in
  let found := fs E assetsDir in
  assetsDirExists <-
    match statErr "stat" assetsDir found with
    | None => ret (IsDir (resolve found))
    | Some err => if IsNotExist err then ret false else fail err
    end ;;
  if assetsDirExists : bool
  then Walk E assetsDir (assetWalkFn E pkg assetsDir)
  else ret tt.

(** The loop over [pkgs] that merges their assets into the archive. *)
Definition mergeAssets (E : Env) (pkgs : list Build.Package) : M Aar unit :=
  modify (setFiles ∅) ;;;
  forM_ (mergePackage E) pkgs.

(** One turn of the loop over the files of a library directory. *)
Definition addLib (E : Env) (abi libDir : string) (f : string * node) : M Aar unit :=
  let fname := fst f in
  let lib := Filepath.Join [abi; Filepath.Base fname] in
  aarwcreate E (Filepath.Join ["jni"; lib]) ;;;
  a <- get ;;
  if buildN (conf (ast a)) then ret tt
  else
    check (openErr (Filepath.Join [libDir; fname]) (snd f)) ;;;
    data <- lift (readAll (Filepath.Join [libDir; fname]) (snd f)) ;;
    aarWrite E data.

(** One turn of the loop over [androidArchs]. *)
Definition addArch (E : Env) (androidDir : string) (arch : string) : M Aar unit :=
  let abi := toolchainAbi E arch in
  let libDir := Filepath.Join [androidDir; "src/main/jniLibs"; abi] in
  libs <- lift (ReadDir libDir (fs E libDir)) ;;
  forM_ (addLib E abi libDir) libs.

(** [pkgs[0]]. *)
Definition first {S} (pkgs : list Build.Package) : M S Build.Package :=
  match pkgs with
  | p :: _ => ret p
  | [] => panic "index out of range"
  end.

(** [buildAAR] up to the writer: the output name gets its default and is
    checked, then the output file is made unless the run is dry. *)
Definition aarOutput (E : Env) (pkgs : list Build.Package) : M State sink :=
  s <- get ;;
  (if String.eqb (buildO (conf s)) ""
   then pkg0 <- first pkgs ;; modify (setBuildO (Build.Name pkg0 +:+ ".aar"))
   else ret tt) ;;;
  s <- get ;;
  if negb (Strings.HasSuffix (buildO (conf s)) ".aar")
  then fail (Errorf ("output file name " +:+ Quote E (buildO (conf s))
                     +:+ " does not end in '.aar'"))
  else if buildN (conf s) then ret Discard
  else Create E (buildO (conf s)) ;;; ret (ToFile (buildO (conf s))).

(** A callee writes an archive into the entry just made. *)
Definition inEntry (b : State -> Built) : M Aar unit :=
  fun a =>
    let '(r, s, jar) := b (ast a) in
    (r, {| ast := s; aarw := embed jar (aarw a); files := files a |}).

(** The entries before the assets: the manifest, the rules, the classes. *)
Definition aarHead (E : Env) (androidDir : string) (pkgs : list Build.Package)
    : M Aar unit :=
  aarwcreate E "AndroidManifest.xml" ;;;
  pkg0 <- first pkgs ;;
  ignoreErr (aarWrite E (manifest E (Build.Name pkg0))) ;;;
  aarwcreate E "proguard.txt" ;;;
  ignoreErr (aarWrite E ("-keep class go.** { *; }" +:+ nl)) ;;;
  aarwcreate E "classes.jar" ;;;
  inEntry (buildJar E (ToEntry "classes.jar")
             (Filepath.Join [androidDir; "src/main/java"])).

(** The entries after the assets: the libraries, then the two placeholders. *)
Definition aarTail (E : Env) (androidDir : string) (androidArchs : list string)
    : M Aar unit :=
  forM_ (addArch E androidDir) androidArchs ;;;
  aarwcreate E "R.txt" ;;;
  aarwcreate E "res/" ;;;
  aarClose E.

(** [buildAAR] from [zip.NewWriter] on. *)
Definition buildAARBody (E : Env) (androidDir : string)
    (pkgs : list Build.Package) (androidArchs : list string) : M Aar unit :=
  aarHead E androidDir pkgs ;;;
  mergeAssets E pkgs ;;;
  aarTail E androidDir androidArchs.

Definition buildAAR (E : Env) (androidDir : string)
    (pkgs : list Build.Package) (androidArchs : list string) : State -> Built :=
  before (aarOutput E pkgs)
    (fun out s =>
       let '(r, a) := buildAARBody E androidDir pkgs androidArchs
                        {| ast := s; aarw := NewWriter out; files := ∅ |} in
       (r, ast a, Some (aarw a))).

(** ** golang.org/x/mobile/bind *)

Module Bind.

Record NativeMeta := {
  Libs : list string;
}.

(** A write to an [io.Writer] that a [Writer] function returned. *)
Definition writeTo (w : sink) (data : string) : M State unit :=
  match w with
  | ToFile path => modify (emit (Wrote path data))
  | Discard | ToEntry _ => ret tt
  end.

(** [GenerateJavaSupport]; [mobilePkgDir] is [mobilePkg.Dir]. The deferred
    closers run when it returns and yield no error. *)
Definition GenerateJavaSupport (E : Env) (mobilePkgDir : string) (meta : NativeMeta)
    (dir : string) (writer : string -> M State sink) : M State unit :=
  let repo := Filepath.Clean (Filepath.Join [mobilePkgDir; ".."]) in
  let javaFiles := ["Seq.java"; "LoadJNI.java"] in
  let fullFiles := map (fun file => Filepath.Join [repo; "bind/java"; file]) javaFiles in
  check (parseFiles E fullFiles) ;;;
  forM_ (fun javaFile =>
           w <- writer (Filepath.Join [dir; javaFile]) ;;
           text <- lift (executeTemplate E javaFile (Libs meta)) ;;
           writeTo w text)
        javaFiles.

End Bind.

(** ** goAndroidBind *)

Definition androidMainFile : string :=
  nl +:+ "package main" +:+ nl +:+ nl
  +:+ "import (" +:+ nl
  +:+ "	_ " +:+ dq +:+ "golang.org/x/mobile/bind/java" +:+ dq +:+ nl
  +:+ "	_ " +:+ dq +:+ "../gomobile_bind" +:+ dq +:+ nl
  +:+ ")" +:+ nl +:+ nl
  +:+ "func main() {}" +:+ nl.

(** The closure [envFunc]; the list separator is the colon. *)
Definition envFunc (E : Env) (jpkgSrc : string) (arch : string) : list string :=
  androidEnv E arch ++ ["GOPATH=" +:+ jpkgSrc +:+ ":" +:+ Getenv E "GOPATH"].

(** One turn of the loop over [nativeMeta.Libs]: the library [lib] of the
    directory [dir] is copied into [jniDir]. *)
Definition copyLib (E : Env) (dir jniDir : string) (lib : string) : M State unit :=
  let libPath := "lib" +:+ lib +:+ ".so" in
  let src := Filepath.Join [dir; libPath] in
  let dst := Filepath.Join [jniDir; libPath] in
  check (openErr src (fs E src)) ;;;
  Create E dst ;;;
  data <- lift (readAll src (fs E src)) ;;
  check (copyErr E dst) ;;;
  modify (emit (Wrote dst data)).

(** One turn of the loop over [androidArchs]. *)
Definition bindArch (E : Env) (mainFile androidDir jpkgSrc : string)
    (paths androidArgs : list string) (nativeMeta : Bind.NativeMeta)
    (arch : string) : M State unit :=
  let env := envFunc E jpkgSrc arch in
  let abi := toolchainAbi E arch in
  check (goInstall E paths env androidArgs) ;;;
  let jniDir := Filepath.Join [androidDir; "src/main/jniLibs"; abi] in
  check (goBuild E mainFile env
           ["-buildmode=c-shared"; "-o=" +:+ Filepath.Join [jniDir; "libgojni.so"]]) ;;;
  forM_ (copyLib E (libDir E arch) jniDir) (Bind.Libs nativeMeta).

(** [l[i]]. *)
Definition index {S A} (l : list A) (i : nat) : M S A :=
  match l !! i with
  | Some x => ret x
  | None => panic "index out of range"
  end.

(** [for i, x := range l]. *)
Definition enumerate {A} (l : list A) : list (nat * A) :=
  combine (seq 0 (length l)) l.

(** The archive writers of a callee are local to it. *)
Definition built (b : State -> Built) : M State unit :=
  fun s => (fst (fst (b s)), snd (fst (b s))).

Definition goAndroidBind (E : Env) (pkgs : list Build.Package)
    (androidArchs : list string) : M State unit :=
  if String.eqb (Getenv E "ANDROID_HOME") ""
  then fail (Errorf "this command requires ANDROID_HOME environment variable (path to the Android SDK)")
  else
    let androidArgs := ["-gcflags=-shared"; "-ldflags=-shared"] in
    let paths := map Build.ImportPath pkgs in
    s <- get ;;
    let androidDir := Filepath.Join [tmpdir (conf s); "android"] in
    let mainFile := Filepath.Join [tmpdir (conf s); "androidlib/main.go"] in
    let jpkgSrc := Filepath.Join [tmpdir (conf s); "gen"] in
    let nativeMeta := {| Bind.Libs := Strings.Split (nativeLibs (conf s)) "," |} in
    let srcDir := Filepath.Join [tmpdir (conf s); "gomobile_bind"] in
    check (mkdir E srcDir) ;;;
    check (GenClasses E pkgs srcDir jpkgSrc) ;;;
    arch0 <- index androidArchs 0 ;;
    let env := envFunc E jpkgSrc arch0 in
    wrap "loadExportData failed: " (check (loadExportData E pkgs env androidArgs)) ;;;
    astPkgs <- wrap "parseAST failed: " (lift (parse E pkgs)) ;;
    binderPkgs <- lift (newBinder E) ;;
    forM_ (fun pkg => check (GenGo E (Some pkg) srcDir)) binderPkgs ;;;
    check (GenGo E None srcDir) ;;;
    wrap "failed to create the main package for android: "
         (check (writeFile E mainFile androidMainFile)) ;;;
    let jclsDir := Filepath.Join [androidDir; "src"; "main"; "java"] in
    forM_ (fun ip =>
             astPkg <- index astPkgs (fst ip) ;;
             check (GenJava E (Some (snd ip)) (Some astPkg) srcDir jclsDir))
          (enumerate binderPkgs) ;;;
    check (GenJava E None None srcDir jclsDir) ;;;
    check (GenJavaSupport E srcDir) ;;;
    check (GenGoSupport E srcDir) ;;;
    forM_ (bindArch E mainFile androidDir jpkgSrc paths androidArgs nativeMeta)
          androidArchs ;;;
    let javaDir := Filepath.Join [androidDir; "src/main/java/go"] in
    check (mkdir E javaDir) ;;;
    p <- instead (Errorf (dq +:+ "golang.org/x/mobile/bind" +:+ dq
                          +:+ " is not found; run go get golang.org/x/mobile/bind"))
                 (lift (importBind E)) ;;
    Bind.GenerateJavaSupport E p nativeMeta javaDir
      (fun fpath => Create E fpath ;;; ret (ToFile fpath)) ;;;
    built (buildAAR E androidDir pkgs androidArchs) ;;;
    built (buildSrcJar E androidDir).

(** ** Environments and inputs to run the functions on *)

Module Sample.

(** An environment in which no call fails beyond what the file system
    [tree], the environment variables [vars], the archive writer [zcreate]
    and the boot class path [boot] say. *)
Definition world (vars : string -> string) (tree : string -> node)
    (zcreate : zipWriter -> string -> option error) (boot : result string) : Env :=
  {| Getenv := vars;
     fs := tree;
     createErr := fun _ => None;
     mkdirAllErr := fun _ => None;
     copyErr := fun _ => None;
     zipCreateErr := zcreate;
     zipWriteErr := fun _ _ => None;
     zipCloseErr := fun _ => None;
     Quote := fun s => dq +:+ s +:+ dq; (* for names without bytes to escape *)
     parseFiles := fun _ => None;
     executeTemplate := fun name _ => Ok name;
     manifestHeader := "Manifest-Version: 1.0" +:+ nl +:+ "Created-By: 1.0 (Go)" +:+ nl +:+ nl;
     bootClasspath := boot;
     runCmd := fun _ _ => None;
     toolchainAbi := fun arch => if String.eqb arch "arm" then "armeabi-v7a" else arch;
     libDir := fun arch => "/prebuilt/" +:+ arch;
     androidEnv := fun _ => [];
     mkdir := fun _ => None;
     writeFile := fun _ _ => None;
     GenClasses := fun _ _ _ => None;
     loadExportData := fun _ _ _ => None;
     parse := fun pkgs => Ok (map Build.ImportPath pkgs);
     newBinder := Ok [];
     GenGo := fun _ _ => None;
     GenJava := fun _ _ _ _ => None;
     GenJavaSupport := fun _ => None;
     GenGoSupport := fun _ => None;
     goInstall := fun _ _ _ => None;
     goBuild := fun _ _ _ => None;
     importBind := Ok "/go/src/golang.org/x/mobile/bind" |}.

(** A file system given by the paths that exist; nothing else is there. *)
Fixpoint tree (paths : list (string * node)) (path : string) : node :=
  match paths with
  | [] => StatErr ENOENT
  | (p, n) :: rest => if String.eqb p path then n else tree rest path
  end.

Definition vars (sdk : string) (name : string) : string :=
  if String.eqb name "ANDROID_HOME" then sdk else "".

Definition never : zipWriter -> string -> option error := fun _ _ => None.

Definition config (o : string) (n : bool) : Config :=
  {| buildO := o; buildN := n; buildV := false; buildX := false;
     bindClasspath := ""; nativeLibs := ""; tmpdir := "/tmp/work" |}.

Definition start (o : string) (n : bool) : State :=
  {| conf := config o n; trace := [] |}.

Definition platform (name : string) : string * node :=
  (name, Dir [("android.jar", File "jar")]).

(** An SDK with the platforms 14, 19 and 21 installed. *)
Definition sdkThree : Env :=
  world (vars "/sdk")
    (tree [("/sdk/platforms",
            Dir [platform "android-14"; platform "android-21"; platform "android-19"])])
    never (Err (Errorf "unused")).

(** An SDK with the platform 10 only. *)
Definition sdkTen : Env :=
  world (vars "/sdk") (tree [("/sdk/platforms", Dir [platform "android-10"])])
    never (Err (Errorf "unused")).

(** An SDK whose platforms directory lists two names of version 21, the one
    with a leading zero first, and the platform 19. *)
Definition sdkTies : Env :=
  world (vars "/sdk")
    (tree [("/sdk/platforms",
            Dir [platform "android-19"; platform "android-021"; platform "android-21"])])
    never (Err (Errorf "unused")).

(** An SDK directory without a [platforms] directory. *)
Definition sdkBare : Env :=
  world (vars "/sdk") (tree []) never (Err (Errorf "unused")).

Definition pkgA : Build.Package :=
  {| Build.Name := "a"; Build.ImportPath := "example.com/a"; Build.Dir := "/src/a" |}.
Definition pkgB : Build.Package :=
  {| Build.Name := "b"; Build.ImportPath := "example.com/b"; Build.Dir := "/src/b" |}.

(** Two packages that both own [assets/icon.png]; one library for [arm];
    [zcreate] decides which entries the archive writer refuses. *)
Definition icons (zcreate : zipWriter -> string -> option error) : Env :=
  world (vars "/sdk")
    (tree [("/src/a/assets", Dir [("icon.png", File "PNG-A")]);
           ("/src/b/assets", Dir [("icon.png", File "PNG-B")]);
           ("/tmp/work/android/src/main/java", Dir [("go", Dir [("Seq.java", File "class Seq {}")])]);
           ("/tmp/work/javac-output", Dir [("go", Dir [("Seq.class", File "CAFE")])]);
           ("/tmp/work/android/src/main/jniLibs/armeabi-v7a", Dir [("libgojni.so", File "ELF")])])
    zcreate (Ok "/sdk/platforms/android-21/android.jar").

Definition twoIcons : Env := icons never.

(** Two packages with disjoint assets; [zcreate] decides which entries the
    archive writer refuses. *)
Definition disjoint (zcreate : zipWriter -> string -> option error) : Env :=
  world (vars "/sdk")
    (tree [("/src/a/assets", Dir [("a.txt", File "AAA"); ("img", Dir [("x.png", File "XXX")])]);
           ("/src/b/assets", Dir [("b.txt", File "BBB")]);
           ("/tmp/work/android/src/main/java", Dir [("go", Dir [("Seq.java", File "class Seq {}")])]);
           ("/tmp/work/javac-output", Dir [("go", Dir [("Seq.class", File "CAFE")])]);
           ("/tmp/work/android/src/main/jniLibs/armeabi-v7a", Dir [("libgojni.so", File "ELF")])])
    zcreate (Ok "/sdk/platforms/android-21/android.jar").

(** The file system of [disjoint] with the auxiliary libraries [foo] and
    [bar] built for [arm], and a run that asks for them. *)
Definition twoLibs : Env :=
  world (vars "/sdk")
    (tree [("/src/a/assets", Dir [("a.txt", File "AAA"); ("img", Dir [("x.png", File "XXX")])]);
           ("/src/b/assets", Dir [("b.txt", File "BBB")]);
           ("/tmp/work/android/src/main/java", Dir [("go", Dir [("Seq.java", File "class Seq {}")])]);
           ("/tmp/work/javac-output", Dir [("go", Dir [("Seq.class", File "CAFE")])]);
           ("/tmp/work/android/src/main/jniLibs/armeabi-v7a", Dir [("libgojni.so", File "ELF")]);
           ("/prebuilt/arm/libfoo.so", File "FOO");
           ("/prebuilt/arm/libbar.so", File "BAR")])
    never (Ok "/sdk/platforms/android-21/android.jar").

Definition startLibs : State :=
  {| conf := {| buildO := "out.aar"; buildN := false; buildV := false; buildX := false;
                bindClasspath := ""; nativeLibs := "foo,bar"; tmpdir := "/tmp/work" |};
     trace := [] |}.

(** [buildAAR] on [twoIcons] with the output path unset: the state when the
    archive writer is made, and the state when the merge of the assets
    starts. *)
Definition twoIconsStart : Aar :=
  {| ast := emit (Created "a.aar") (setBuildO "a.aar" (start "" false));
     aarw := NewWriter (ToFile "a.aar");
     files := ∅ |}.

Definition twoIconsHead : Aar :=
  snd (aarHead twoIcons "/tmp/work/android" [pkgA; pkgB] twoIconsStart).


(** The archive that [buildAAR] makes on [disjoint] when the archive writer
    takes every entry. *)
Definition disjointArchive : zipWriter :=
  match snd (buildAAR (disjoint never) "/tmp/work/android" [pkgA; pkgB] ["arm"]
               (start "out.aar" false)) with
  | Some zw => zw
  | None => NewWriter Discard
  end.

(** A run with [-v] that is not dry, and the archive that [buildAAR] makes
    in it on [disjoint]. *)
Definition startVerbose : State :=
  {| conf := {| buildO := "out.aar"; buildN := false; buildV := true; buildX := false;
                bindClasspath := ""; nativeLibs := ""; tmpdir := "/tmp/work" |};
     trace := [] |}.

Definition verboseArchive : zipWriter :=
  match snd (buildAAR (disjoint never) "/tmp/work/android" [pkgA; pkgB] ["arm"]
               startVerbose) with
  | Some zw => zw
  | None => NewWriter Discard
  end.

(** The file system of [disjoint], but the [assets] of the second package
    are a symbolic link to a directory. *)
Definition linked : Env :=
  world (vars "/sdk")
    (tree [("/src/a/assets", Dir [("a.txt", File "AAA"); ("img", Dir [("x.png", File "XXX")])]);
           ("/src/b/assets", Symlink (Dir [("b.txt", File "BBB")]));
           ("/tmp/work/android/src/main/java", Dir [("go", Dir [("Seq.java", File "class Seq {}")])]);
           ("/tmp/work/javac-output", Dir [("go", Dir [("Seq.class", File "CAFE")])]);
           ("/tmp/work/android/src/main/jniLibs/armeabi-v7a", Dir [("libgojni.so", File "ELF")])])
    never (Ok "/sdk/platforms/android-21/android.jar").

(** A dry run that asks for the auxiliary libraries [foo] and [bar]. *)
Definition dryLibs : State :=
  {| conf := {| buildO := "out.aar"; buildN := true; buildV := false; buildX := false;
                bindClasspath := ""; nativeLibs := "foo,bar"; tmpdir := "/tmp/work" |};
     trace := [] |}.

(** The archive writer refuses the entry [assets/a.txt] and no other. *)
Definition refuseA : zipWriter -> string -> option error :=
  fun _ name =>
    if String.eqb name "assets/a.txt"
    then Some (ErrorString "zip: entry refused") else None.

(** The disk is full once the archive holds its first three entries: from
    then on the writer refuses every entry, with the same error. *)
Definition diskFull : zipWriter -> string -> option error :=
  fun zw _ =>
    if (3 <=? length (zentries zw))%nat
    then Some (PathError "write" "a.aar" ENOSPC) else None.

End Sample.

(** ** Vocabulary of the properties *)

(** The version of a platform directory that qualifies, in the words of the
    contract of the resolver: it is a directory, its name is [android-]
    followed by an integer that is at least the minimum, and it holds the
    marker file [android.jar]. *)
Definition qualifying (sdkDirName : string) (fi : string * node) : option Z :=
  if IsDir (snd fi) && Strings.HasPrefix (fst fi) "android-" then
    match Strings.sliceFrom (String.length "android-") (fst fi) with
    | Some digits =>
        match Strconv.Atoi digits with
        | Some n =>
            if (minAndroidAPI <=? n)%Z
               && bool_decide (statIn (Filepath.Join [sdkDirName; fst fi]) (snd fi)
                                 "android.jar" = None)
            then Some n else None
        | None => None
        end
    | None => None
    end
  else None.

(** What the loop has found after the entries [seen]: nothing, or the first
    entry of the highest version that qualifies. *)
Definition bestOf (d : string) (seen : list (string * node)) (best : string * Z) : Prop :=
  (best = ("", 0%Z) /\ forall fi, In fi seen -> qualifying d fi = None)
  \/ (exists fi, In fi seen /\ qualifying d fi = Some (snd best)
                 /\ fst best = Filepath.Join [d; fst fi]
                 /\ forall fi' n', In fi' seen -> qualifying d fi' = Some n' -> (n' <= snd best)%Z).


(** An event by which this file does nothing to the file system: a command
    handed to [runCmd], and a line on one of the two output streams. What
    [runCmd], a function of another file, does with the command, in a dry
    run or not, is not part of the event. *)
Definition quiet (ev : event) : bool :=
  match ev with
  | RunCmd _ _ | Echoed _ | Printed _ => true
  | Created _ | Wrote _ _ | MadeDir _ => false
  end.

(** The events that change the file system. *)
Definition touched (t : list event) : list event :=
  List.filter (fun ev => negb (quiet ev)) t.

(** A computation relates what is seen of the state before it to what is
    seen after it, whatever its outcome. *)
Definition stableAt {S V A} (view : S -> V) (R : V -> V -> Prop)
    (m : M S A) (s : S) : Prop :=
  R (view s) (view (snd (m s))).

Definition stable {S V A} (view : S -> V) (R : V -> V -> Prop) (m : M S A) : Prop :=
  forall s, stableAt view R m s.

Definition stableB (R : State -> State -> Prop) (b : State -> Built) : Prop :=
  forall s, R s (snd (fst (b s))).

(** The relations that the functions of the packaging keep: those that hold
    across an event when the event is quiet or the run is not dry. *)
Class Frame (R : State -> State -> Prop) : Prop := {
  frame_pre :: PreOrder R;
  frame_emit : forall s ev,
    quiet ev = true \/ buildN (conf s) = false -> R s (emit ev s);
}.

(** Those that hold across the defaulting of an output name that is not
    set. *)
Class Defaulting (R : State -> State -> Prop) : Prop :=
  frame_default : forall s o, buildO (conf s) = "" -> R s (setBuildO o s).

(** Those that hold across every event. *)
Class Loose (R : State -> State -> Prop) : Prop :=
  frame_loose : forall s ev, R s (emit ev s).

(** The configuration after is the configuration before, but for an output
    path that was not set. *)
Definition keepsConfig (s s' : State) : Prop :=
  buildN (conf s') = buildN (conf s)
  /\ buildV (conf s') = buildV (conf s)
  /\ buildX (conf s') = buildX (conf s)
  /\ bindClasspath (conf s') = bindClasspath (conf s)
  /\ nativeLibs (conf s') = nativeLibs (conf s)
  /\ tmpdir (conf s') = tmpdir (conf s)
  /\ (buildO (conf s) <> "" -> buildO (conf s') = buildO (conf s)).

(** The configuration after is the configuration before. *)
Definition sameConfig (s s' : State) : Prop := conf s' = conf s.

(** The destination of the archive writer of [buildAAR]. *)
Definition aarSink (a : Aar) : sink := zout (aarw a).

(** A dry run stays dry and changes nothing of the file system. *)
Definition staysDry (s s' : State) : Prop :=
  buildN (conf s) = true ->
  buildN (conf s') = true /\ touched (trace s') = touched (trace s).

(** A plain tree that can be read throughout: directories that list,
    files that open, and no symbolic link. *)
Fixpoint readable (n : node) : bool :=
  match n with
  | File _ => true
  | Dir entries => forallb (fun entry => readable (snd entry)) entries
  | FileErr _ | DirOpenErr _ | DirReadErr _ | StatErr _ | Symlink _ => false
  end.

(** The regular files at and below a node that is found at the relative
    path [rel], each with its relative path and what it holds, in the order
    of the walk. *)
Fixpoint filesAt (rel : string) (n : node) : list (string * string) :=
  match n with
  | File data => [(rel, data)]
  | Dir entries =>
      flat_map (fun entry => filesAt (rel +:+ "/" +:+ fst entry) (snd entry)) entries
  | FileErr _ | DirOpenErr _ | DirReadErr _ | StatErr _ | Symlink _ => []
  end.

(** The regular files below the entries of a root directory, with their
    paths relative to the root. *)
Definition filesUnder (entries : list (string * node)) : list (string * string) :=
  flat_map (fun entry => filesAt (fst entry) (snd entry)) entries.


(** Induction on trees: a property of every entry of a directory gives the
    property of the directory. *)
Fixpoint node_induction (P : node -> Prop)
    (HFile : forall data, P (File data))
    (HFileErr : forall errno, P (FileErr errno))
    (HDir : forall entries, Forall (fun entry => P (snd entry)) entries -> P (Dir entries))
    (HDirOpenErr : forall errno, P (DirOpenErr errno))
    (HDirReadErr : forall errno, P (DirReadErr errno))
    (HStatErr : forall errno, P (StatErr errno))
    (HSymlink : forall target, P target -> P (Symlink target))
    (n : node) : P n :=
  match n with
  | File data => HFile data
  | FileErr errno => HFileErr errno
  | Dir entries =>
      HDir entries
        ((fix all (l : list (string * node)) : Forall (fun entry => P (snd entry)) l :=
            match l with
            | [] => @List.Forall_nil _ _
            | entry :: l' =>
                @List.Forall_cons _ _ entry l'
                  (node_induction P HFile HFileErr HDir HDirOpenErr HDirReadErr
                     HStatErr HSymlink (snd entry))
                  (all l')
            end) entries)
  | DirOpenErr errno => HDirOpenErr errno
  | DirReadErr errno => HDirReadErr errno
  | StatErr errno => HStatErr errno
  | Symlink target =>
      HSymlink target
        (node_induction P HFile HFileErr HDir HDirOpenErr HDirReadErr HStatErr HSymlink
           target)
  end.

(** The entries that [writeJar] adds for the regular files [fs]. *)
Definition fileEntries (fs : list (string * string)) : list (string * content) :=
  map (fun f => (Filepath.ToSlash (fst f), Bytes (snd f))) fs.

Definition withEntries (es : list (string * content)) (zw : zipWriter) : zipWriter :=
  {| zout := zout zw; zentries := zentries zw ++ es; zclosed := zclosed zw |}.

(** An asset: the import path of the package that owns it, its name in the
    archive, and its bytes. *)
Record Asset := {
  owner : string;
  entryName : string;
  bytes : string;
}.

(** The asset that a regular file of a package is. *)
Definition assetOf (pkg : Build.Package) (f : string * string) : Asset :=
  {| owner := Build.ImportPath pkg; entryName := "assets/" +:+ fst f; bytes := snd f |}.

(** The assets of a package: the regular files below its [assets]
    directory, in the order of the walk. *)
Definition assetsOf (E : Env) (pkg : Build.Package) : list Asset :=
  match fs E (Filepath.Join [Build.Dir pkg; "assets"]) with
  | Dir entries => map (assetOf pkg) (filesUnder entries)
  | File _ | FileErr _ | DirOpenErr _ | DirReadErr _ | StatErr _ | Symlink _ => []
  end.

Definition allAssets (E : Env) (pkgs : list Build.Package) : list Asset :=
  flat_map (assetsOf E) pkgs.


(** A package whose assets are plain and can be read: at the path of its
    [assets] directory there is a readable tree without symbolic links, or
    a file, or nothing; the path itself is not a symbolic link. *)
Definition healthy (E : Env) (pkg : Build.Package) : bool :=
  match fs E (Filepath.Join [Build.Dir pkg; "assets"]) with
  | Dir entries => readable (Dir entries)
  | File _ | FileErr _ | StatErr ENOENT => true
  | DirOpenErr _ | DirReadErr _ | StatErr _ | Symlink _ => false
  end.

(** An asset whose name is free is claimed and copied. *)
Definition addAsset (x : Asset) (a : Aar) : Aar :=
  {| ast := if buildV (conf (ast a))
            then emit (Printed ("aar: " +:+ entryName x +:+ nl)) (ast a)
            else ast a;
     aarw := withEntries [(entryName x, Bytes (bytes x))] (aarw a);
     files := <[entryName x := owner x]> (files a) |}.

(** The merge in the words of its contract, as one pass over the assets:
    each asset is checked against the names claimed so far; a name that is
    claimed ends the pass with the conflict, a name that is free is claimed
    and the asset is copied. *)
Fixpoint place (assets : list Asset) (a : Aar) : result unit * Aar :=
  match assets with
  | [] => (Ok tt, a)
  | x :: rest =>
      match files a !! entryName x with
      | Some orig => (Err (conflictError (owner x) (entryName x) orig), a)
      | None => place rest (addAsset x a)
      end
  end.

Definition addAll (assets : list Asset) (a : Aar) : Aar :=
  fold_left (fun a' x => addAsset x a') assets a.

Definition assetEntry (x : Asset) : string * content := (entryName x, Bytes (bytes x)).

(** A byte that can stand in a file name extension after its dot: neither a
    dot nor a slash. *)
Definition extByte (c : ascii) : bool :=
  negb (Ascii.eqb c "." || Ascii.eqb c "/").

(** An extension without its dot: bytes that are neither dots nor
    slashes. *)
Definition extBytes (x : string) : bool :=
  forallb extByte (list_ascii_of_string x).

(** The names of the entries of an archive, in the order they were made. *)
Definition entryNames (zw : zipWriter) : list string := map fst (zentries zw).

Definition aarNames (a : Aar) : list string := entryNames (aarw a).
Definition aarClosed (a : Aar) : bool := zclosed (aarw a).
Definition jarClosed (j : Jar) : bool := zclosed (jarw j).

(** The list of names has grown, at its end, by names that [P] holds of. *)
Definition growsBy (P : string -> Prop) (names names' : list string) : Prop :=
  exists more, names' = names ++ more /\ Forall P more.

(** The name of an entry below [assets/]. *)
Definition isAsset (name : string) : Prop := Strings.HasPrefix name "assets/" = true.

(** The name that the entry of a file of a library directory gets. *)
Definition libEntry (abi : string) (f : string * node) : string :=
  Filepath.Join ["jni"; Filepath.Join [abi; Filepath.Base (fst f)]].

(** The library directory of an architecture in the Android project. *)
Definition jniLibs (E : Env) (androidDir arch : string) : string :=
  Filepath.Join [androidDir; "src/main/jniLibs"; toolchainAbi E arch].

(** The names of the entries for the libraries of an architecture: one for
    each file of its library directory, in the order [ioutil.ReadDir] lists
    them. *)
Definition libEntries (E : Env) (androidDir arch : string) : list string :=
  match ReadDir (jniLibs E androidDir arch) (fs E (jniLibs E androidDir arch)) with
  | Ok libs => map (libEntry (toolchainAbi E arch)) libs
  | Err _ | Panic _ => []
  end.

(** A computation that ends with the closing of its archive: started on an
    open archive, it succeeds exactly when it leaves the archive closed. *)
Definition closesOnOk {S} (closed : S -> bool) (m : M S unit) : Prop :=
  forall s, closed s = false -> (fst (m s) = Ok tt <-> closed (snd (m s)) = true).

(** A name without a comma. *)
Definition commaFree (name : string) : bool :=
  forallb (fun c => negb (Ascii.eqb c ",")) (list_ascii_of_string name).

(** Nothing is taken back from what was done to the outside: the trace
    after begins with the trace before. *)
Definition traceGrows (s s' : State) : Prop :=
  exists more, trace s' = trace s ++ more.

(** The [Writer] that [goAndroidBind] hands to [GenerateJavaSupport]: it
    makes the file with [os.Create]. *)
Definition fileWriter (E : Env) (fpath : string) : M State sink :=
  Create E fpath ;;; ret (ToFile fpath).

(** The templates [GenerateJavaSupport] parses for the package directory
    [mobilePkgDir]. *)
Definition supportTemplates (mobilePkgDir : string) : list string :=
  map (fun file =>
         Filepath.Join [Filepath.Clean (Filepath.Join [mobilePkgDir; ".."]);
                        "bind/java"; file])
      ["Seq.java"; "LoadJNI.java"].

(** The entry for a file of a library directory, with the bytes of the
    file. *)
Definition libContent (libDir abi : string) (f : string * node) : string * content :=
  (libEntry abi f,
   Bytes match readAll (Filepath.Join [libDir; fst f]) (snd f) with
         | Ok data => data
         | Err _ | Panic _ => ""
         end).

(** The entries for the libraries of an architecture, with their bytes. *)
Definition libContents (E : Env) (androidDir arch : string) : list (string * content) :=
  match ReadDir (jniLibs E androidDir arch) (fs E (jniLibs E androidDir arch)) with
  | Ok libs => map (libContent (jniLibs E androidDir arch) (toolchainAbi E arch)) libs
  | Err _ | Panic _ => []
  end.

(** The entries of the archive of classes made from the entries [classes]
    of the output directory of the compiler. *)
Definition classEntries (E : Env) (classes : list (string * node))
    : list (string * content) :=
  ("META-INF/MANIFEST.MF", Bytes (manifestHeader E)) :: fileEntries (filesUnder classes).

(** The lines printed on the standard error, and the command lines handed
    to [printcmd], oldest first. *)
Definition printedLines (t : list event) : list string :=
  flat_map (fun ev => match ev with Printed text => [text] | _ => [] end) t.

Definition echoedCmds (t : list event) : list string :=
  flat_map (fun ev => match ev with Echoed cmd => [cmd] | _ => [] end) t.

(** The flags [-v] and [-x] stay as they are, and a run without [-v] prints
    no line, a run without [-x] echoes no command. *)
Definition quietRun (s s' : State) : Prop :=
  buildV (conf s') = buildV (conf s)
  /\ buildX (conf s') = buildX (conf s)
  /\ (buildV (conf s) = false -> printedLines (trace s') = printedLines (trace s))
  /\ (buildX (conf s) = false -> echoedCmds (trace s') = echoedCmds (trace s)).

(** The line that announces an entry of the archive of [buildAAR]. *)
Definition aarLine (name : string) : event := Printed ("aar: " +:+ name +:+ nl).

(** What is seen of the state of [buildAAR]: the names of the entries and
    the state of the command. *)
Definition aarLog (a : Aar) : list string * State := (aarNames a, ast a).

(** The flag [-v] stays as it is, names are added at the end, events are
    added at the end, and with [-v] every name added was announced by an
    event added. *)
Definition announced (v v' : list string * State) : Prop :=
  buildV (conf (snd v')) = buildV (conf (snd v))
  /\ exists names events,
       fst v' = fst v ++ names
       /\ trace (snd v') = trace (snd v) ++ events
       /\ (buildV (conf (snd v)) = true ->
           forall name, In name names -> In (aarLine name) events).

(** ** Lemmas on strings *)

Lemma append_empty (s : string) : "" +:+ s = s.
Proof. reflexivity. Qed.

Lemma append_cons (c : ascii) (s t : string) : String c s +:+ t = String c (s +:+ t).
Proof. reflexivity. Qed.

Lemma append_nil_r (s : string) : s +:+ "" = s.
Proof.
  induction s as [|c s IH]; [reflexivity |]. now rewrite append_cons, IH.
Qed.

Lemma append_assoc (a b c : string) : (a +:+ b) +:+ c = a +:+ (b +:+ c).
Proof.
  induction a as [|x a IH]; [reflexivity |]. now rewrite !append_cons, IH.
Qed.

Lemma length_append (a b : string) :
  String.length (a +:+ b) = (String.length a + String.length b)%nat.
Proof.
  induction a as [|x a IH]; [reflexivity |]. rewrite append_cons. simpl. now rewrite IH.
Qed.

Lemma prefix_append (a b : string) : String.prefix a (a +:+ b) = true.
Proof.
  induction a as [|x a IH].
  - now destruct b.
  - rewrite append_cons. simpl.
    destruct (ascii_dec x x) as [_|ne]; [exact IH | now destruct ne].
Qed.

Lemma Contains_unfold (s x : string) :
  Strings.Contains s x =
  String.prefix x s
  || match s with
     | EmptyString => false
     | String _ s' => Strings.Contains s' x
     end.
Proof. destruct s; reflexivity. Qed.

Lemma Contains_prefix (a b : string) : Strings.Contains (a +:+ b) a = true.
Proof. rewrite Contains_unfold, prefix_append. reflexivity. Qed.

Lemma Contains_append_l (a s x : string) :
  Strings.Contains s x = true -> Strings.Contains (a +:+ s) x = true.
Proof.
  intros H. induction a as [|c a IH]; [exact H |].
  rewrite append_cons. simpl. rewrite IH. apply orb_true_r.
Qed.

(** A message holds each piece it was assembled from. *)
Lemma Contains_middle (a x b : string) : Strings.Contains (a +:+ x +:+ b) x = true.
Proof. apply Contains_append_l, Contains_prefix. Qed.


Lemma sliceFrom_append (a b : string) :
  Strings.sliceFrom (String.length a) (a +:+ b) = Some b.
Proof.
  induction a as [|x a IH]; [now destruct b |]. rewrite append_cons. exact IH.
Qed.

Lemma sliceFrom_child (dir rel : string) :
  Strings.sliceFrom (String.length dir + 1) (dir +:+ "/" +:+ rel) = Some rel.
Proof.
  replace (String.length dir + 1)%nat with (String.length (dir +:+ "/")).
  - rewrite <- append_assoc. apply sliceFrom_append.
  - rewrite length_append. reflexivity.
Qed.

Lemma substring_all (s : string) : substring 0 (String.length s) s = s.
Proof. induction s as [|c s IH]; simpl; [reflexivity | now rewrite IH]. Qed.

Lemma substring_skip (a b : string) (n : nat) :
  substring (String.length a) n (a +:+ b) = substring 0 n b.
Proof.
  induction a as [|x a IH]; [reflexivity |]. rewrite append_cons. exact IH.
Qed.

Lemma HasSuffix_append (a b : string) : Strings.HasSuffix (a +:+ b) b = true.
Proof.
  unfold Strings.HasSuffix. rewrite length_append.
  replace (String.length a + String.length b - String.length b)%nat
    with (String.length a) by lia.
  rewrite substring_skip, substring_all, String.eqb_refl, andb_true_r.
  apply Nat.leb_le. lia.
Qed.

Lemma append_not_empty (a b : string) : b <> "" -> a +:+ b <> "".
Proof.
  intros Hb H. destruct a; [now apply Hb | rewrite append_cons in H; discriminate].
Qed.

(** ** Lemmas on the monad *)

Lemma bind_Ok {S A B} (m : M S A) (k : A -> M S B) s a s1 :
  m s = (Ok a, s1) -> bind m k s = k a s1.
Proof. intros H. unfold bind. now rewrite H. Qed.

Lemma bind_Err {S A B} (m : M S A) (k : A -> M S B) s e s1 :
  m s = (Err e, s1) -> bind m k s = (Err e, s1).
Proof. intros H. unfold bind. now rewrite H. Qed.

Lemma bind_inv_Ok {S A B} (m : M S A) (k : A -> M S B) s b s' :
  bind m k s = (Ok b, s') -> exists a s1, m s = (Ok a, s1) /\ k a s1 = (Ok b, s').
Proof.
  unfold bind. destruct (m s) as [[a|e|why] s1]; intros H; try discriminate.
  now exists a, s1.
Qed.

Lemma check_inv_Ok {S} (o : option error) (s s' : S) :
  check o s = (Ok tt, s') -> o = None /\ s' = s.
Proof. destruct o; simpl; unfold fail, ret; intros H; inversion H; auto. Qed.

Lemma forM_app {S A} (f : A -> M S unit) (l1 l2 : list A) (s : S) :
  forM_ f (l1 ++ l2) s =
  match forM_ f l1 s with
  | (Ok _, s1) => forM_ f l2 s1
  | other => other
  end.
Proof.
  revert s. induction l1 as [|x l1 IH]; intros s; simpl; [reflexivity |].
  unfold bind. destruct (f x s) as [[[]|e|why] s1]; [apply IH | reflexivity | reflexivity].
Qed.


Lemma forM_inv_Ok {S A} (f : A -> M S unit) (l : list A) (s s' : S) :
  forM_ f l s = (Ok tt, s') ->
  forall x, In x l -> exists s1 s2, f x s1 = (Ok tt, s2).
Proof.
  revert s. induction l as [|y l IH]; intros s H x Hin; [destruct Hin |].
  simpl in H. apply bind_inv_Ok in H as ([] & s1 & Hy & Hrest).
  destruct Hin as [<-|Hin]; [now exists s, s1 | now apply (IH s1)].
Qed.

(** ** Lemmas on the file system *)


(** ** The platform resolver: androidAPIPath *)

Lemma pickPlatform_qualifying (d : string) (best : string * Z) (fi : string * node) :
  pickPlatform d best fi =
  match qualifying d fi with
  | Some n => if (snd best <? n)%Z then (Filepath.Join [d; fst fi], n) else best
  | None => best
  end.
Proof.
  unfold pickPlatform, qualifying.
  destruct (IsDir (snd fi)); cbn [negb orb andb]; [| reflexivity].
  destruct (Strings.HasPrefix (fst fi) "android-"); cbn [negb]; [| reflexivity].
  destruct (Strings.sliceFrom _ (fst fi)) as [digits|]; [| reflexivity].
  destruct (Strconv.Atoi digits) as [n|]; [| reflexivity].
  rewrite Z.leb_antisym.
  destruct (n <? minAndroidAPI)%Z; cbn [negb andb]; [reflexivity |].
  destruct (statIn _ _ _);
    [rewrite bool_decide_false by discriminate
    | rewrite bool_decide_true by reflexivity]; reflexivity.
Qed.

Lemma qualifying_min (d : string) (fi : string * node) (n : Z) :
  qualifying d fi = Some n -> (minAndroidAPI <= n)%Z.
Proof.
  unfold qualifying.
  destruct (_ && _); [| discriminate].
  destruct (Strings.sliceFrom _ _); [| discriminate].
  destruct (Strconv.Atoi _) as [m|]; [| discriminate].
  destruct (minAndroidAPI <=? m)%Z eqn:Hm; simpl; [| discriminate].
  destruct (bool_decide _); [| discriminate].
  intros [= <-]. now apply Z.leb_le.
Qed.

Lemma bestOf_step (d : string) seen best fi :
  bestOf d seen best -> bestOf d (seen ++ [fi]) (pickPlatform d best fi).
Proof.
  intros Hbest. rewrite pickPlatform_qualifying.
  destruct (qualifying d fi) as [n|] eqn:Hq.
  - pose proof (qualifying_min _ _ _ Hq) as Hmin. unfold minAndroidAPI in Hmin.
    destruct (snd best <? n)%Z eqn:Hlt.
    + apply Z.ltb_lt in Hlt. right. exists fi. simpl.
      split; [apply in_or_app; right; now left |]. split; [exact Hq |].
      split; [reflexivity |]. intros fi' n' Hin Hq'.
      apply in_app_or in Hin as [Hin|[<-|[]]].
      * destruct Hbest as [[-> Hnone]|(fj & _ & _ & _ & Hmax)].
        -- rewrite (Hnone _ Hin) in Hq'. discriminate.
        -- specialize (Hmax _ _ Hin Hq'). lia.
      * rewrite Hq in Hq'. injection Hq' as <-. lia.
    + apply Z.ltb_ge in Hlt.
      destruct Hbest as [[-> Hnone]|(fj & Hin & Hqj & Hp & Hmax)]; [simpl in Hlt; lia |].
      right. exists fj. split; [apply in_or_app; now left |].
      split; [exact Hqj |]. split; [exact Hp |]. intros fi' n' Hin' Hq'.
      apply in_app_or in Hin' as [Hin'|[<-|[]]]; [now apply (Hmax fi') |].
      rewrite Hq in Hq'. injection Hq' as <-. exact Hlt.
  - destruct Hbest as [[-> Hnone]|(fj & Hin & Hqj & Hp & Hmax)].
    + left. split; [reflexivity |]. intros fi' Hin.
      apply in_app_or in Hin as [Hin|[<-|[]]]; [now apply Hnone | exact Hq].
    + right. exists fj. split; [apply in_or_app; now left |].
      split; [exact Hqj |]. split; [exact Hp |]. intros fi' n' Hin' Hq'.
      apply in_app_or in Hin' as [Hin'|[<-|[]]]; [now apply (Hmax fi') |].
      rewrite Hq in Hq'. discriminate.
Qed.

Lemma bestOf_fold (d : string) (fis seen : list (string * node)) best :
  bestOf d seen best -> bestOf d (seen ++ fis) (fold_left (pickPlatform d) fis best).
Proof.
  revert seen best. induction fis as [|fi fis IH]; intros seen best H; simpl.
  - now rewrite app_nil_r.
  - replace (seen ++ fi :: fis) with ((seen ++ [fi]) ++ fis)
      by (now rewrite <- app_assoc).
    apply IH, bestOf_step, H.
Qed.

Lemma bestOf_all (d : string) (fis : list (string * node)) :
  bestOf d fis (fold_left (pickPlatform d) fis ("", 0%Z)).
Proof.
  apply (bestOf_fold d fis []). left. split; [reflexivity |]. intros fi [].
Qed.

(** C4. When the platforms directory can be listed, [androidAPIPath]
    returns the directory of an entry that qualifies (a directory named
    [android-N] with [N] at least the minimum that holds [android.jar]) whose
    version no qualifying entry exceeds; it returns one whenever an entry
    qualifies, and fails, naming the minimum, when none does. With the
    platforms 14, 19 and 21 it returns the directory of 21; with the platform
    10 only it fails. *)
Theorem androidAPIPath_highest (E : Env) (fis : list (string * node)) :
  let d := Filepath.Join [Getenv E "ANDROID_HOME"; "platforms"] in
  Getenv E "ANDROID_HOME" <> "" ->
  openErr d (fs E d) = None ->
  Readdir (fs E d) = Ok fis ->
  (forall p, androidAPIPath E = Ok p ->
     exists fi n, In fi fis /\ qualifying d fi = Some n
       /\ p = Filepath.Join [d; fst fi]
       /\ forall fi' n', In fi' fis -> qualifying d fi' = Some n' -> (n' <= n)%Z)
  /\ ((exists fi n, In fi fis /\ qualifying d fi = Some n) ->
      exists p, androidAPIPath E = Ok p)
  /\ ((forall fi, In fi fis -> qualifying d fi = None) ->
      androidAPIPath E =
      Err (Errorf ("failed to find android SDK platform (min API level: 15) in " +:+ d)))
  /\ androidAPIPath Sample.sdkThree = Ok "/sdk/platforms/android-21"
  /\ androidAPIPath Sample.sdkTen =
     Err (Errorf "failed to find android SDK platform (min API level: 15) in /sdk/platforms").
Proof.
  intros d Hsdk Hopen Hread.
  assert (Hrun : androidAPIPath E =
                 let best := fold_left (pickPlatform d) fis ("", 0%Z) in
                 if (snd best =? 0)%Z
                 then Err (Errorf ("failed to find android SDK platform (min API level: 15) in " +:+ d))
                 else Ok (fst best)).
  { unfold androidAPIPath. apply String.eqb_neq in Hsdk. rewrite Hsdk.
    fold d. rewrite Hopen, Hread. reflexivity. }
  cbv zeta in Hrun. pose proof (bestOf_all d fis) as Hbest.
  destruct (fold_left (pickPlatform d) fis ("", 0%Z)) as [p n].
  destruct Hbest as [[[= -> ->] Hnone]|(fi & Hin & Hq & Hp & Hmax)]; simpl in *.
  - repeat split; try reflexivity.
    + intros p' Hp'. rewrite Hrun in Hp'. discriminate.
    + intros (fi & m & Hin & Hq). rewrite (Hnone _ Hin) in Hq. discriminate.
    + intros _. exact Hrun.
  - pose proof (qualifying_min _ _ _ Hq) as Hmin. unfold minAndroidAPI in Hmin.
    assert (Hn : (n =? 0)%Z = false) by (apply Z.eqb_neq; lia).
    rewrite Hn in Hrun. repeat split; try reflexivity.
    + intros p' Hp'. rewrite Hrun in Hp'. injection Hp' as <-.
      exists fi, n. auto.
    + intros _. now exists p.
    + intros Hnone. rewrite (Hnone _ Hin) in Hq. discriminate.
Qed.

Lemma androidAPIPath_highest_witness :
  exists p, androidAPIPath Sample.sdkThree = Ok p.
Proof.
  apply (androidAPIPath_highest Sample.sdkThree
           [Sample.platform "android-14"; Sample.platform "android-21";
            Sample.platform "android-19"]).
  - discriminate.
  - reflexivity.
  - reflexivity.
  - exists (Sample.platform "android-19"), 19%Z. split; [simpl; auto | reflexivity].
Defined.

(** C3, amended. An error of [androidAPIPath] is one of three: the variable
    [ANDROID_HOME] is not set; the platforms directory cannot be opened, and
    the message is the fixed text followed by the text of the error of
    [os.Open]; or the directory was opened, and the message names the
    minimum API level, 15. *)
Theorem androidAPIPath_error (E : Env) (e : error) :
  androidAPIPath E = Err e ->
  let sdk := Getenv E "ANDROID_HOME" in
  let d := Filepath.Join [sdk; "platforms"] in
  (sdk = "" /\ e = Errorf "ANDROID_HOME environment var is not set")
  \/ (sdk <> "" /\ exists err, openErr d (fs E d) = Some err
        /\ e = Errorf ("failed to find android SDK platform: " +:+ Error err))
  \/ (sdk <> "" /\ openErr d (fs E d) = None
        /\ Strconv.Itoa minAndroidAPI = "15"
        /\ Strings.Contains (Error e)
             ("(min API level: " +:+ Strconv.Itoa minAndroidAPI +:+ ")") = true).
Proof.
  intros H sdk d. unfold androidAPIPath in H. fold sdk in H.
  destruct (String.eqb_spec sdk "") as [Hsdk|Hsdk].
  - left. injection H as <-. auto.
  - right. fold d in H. destruct (openErr d (fs E d)) as [err|] eqn:Hopen.
    + left. injection H as <-. split; [exact Hsdk |]. now exists err.
    + right. split; [exact Hsdk |]. split; [reflexivity |]. split; [reflexivity |].
      destruct (Readdir (fs E d)) as [fis|err|why]; [| | discriminate].
      * destruct (snd _ =? 0)%Z; [| discriminate]. injection H as <-.
        change (Strings.Contains
                  ("failed to find android SDK platform " +:+ "(min API level: 15)"
                   +:+ " in " +:+ d) "(min API level: 15)" = true).
        apply Contains_middle.
      * injection H as <-.
        change (Strings.Contains
                  ("failed to find android SDK platform " +:+ "(min API level: 15)"
                   +:+ ": " +:+ Error err) "(min API level: 15)" = true).
        apply Contains_middle.
Qed.

Lemma androidAPIPath_error_witness :
  Strings.Contains
    "failed to find android SDK platform (min API level: 15) in /sdk/platforms"
    "(min API level: 15)" = true.
Proof.
  destruct (androidAPIPath_error Sample.sdkTen _ eq_refl)
    as [[H _]|[(_ & err & H & _)|(_ & _ & _ & H)]].
  - discriminate H.
  - discriminate H.
  - exact H.
Defined.

(** C3 as stated fails: without a [platforms] directory the error of
    [androidAPIPath] is the text of the failed [open], and the minimum
    version does not occur in it. *)
Lemma androidAPIPath_open_error_omits_minimum :
  androidAPIPath Sample.sdkBare =
    Err (Errorf "failed to find android SDK platform: open /sdk/platforms: no such file or directory")
  /\ Strings.Contains
       "failed to find android SDK platform: open /sdk/platforms: no such file or directory"
       (Strconv.Itoa minAndroidAPI) = false.
Proof. split; reflexivity. Qed.

(** ** The output name of buildAAR *)

Lemma aarOutput_bad_suffix (E : Env) (pkgs : list Build.Package) (s : State) :
  buildO (conf s) <> "" ->
  Strings.HasSuffix (buildO (conf s)) ".aar" = false ->
  aarOutput E pkgs s =
  (Err (Errorf ("output file name " +:+ Quote E (buildO (conf s))
                +:+ " does not end in '.aar'")), s).
Proof.
  intros Hset Hsuffix. apply String.eqb_neq in Hset.
  unfold aarOutput, bind, get. rewrite Hset. unfold ret. rewrite Hsuffix.
  reflexivity.
Qed.

Lemma aarOutput_default (E : Env) (p : Build.Package) (rest : list Build.Package)
    (s : State) :
  buildO (conf s) = "" ->
  aarOutput E (p :: rest) s =
  aarOutput E (p :: rest) (setBuildO (Build.Name p +:+ ".aar") s).
Proof.
  intros Hunset.
  assert (Hset : String.eqb (Build.Name p +:+ ".aar") "" = false).
  { apply String.eqb_neq, append_not_empty. discriminate. }
  unfold aarOutput, bind, get. rewrite Hunset.
  change (buildO (conf (setBuildO (Build.Name p +:+ ".aar") s)))
    with (Build.Name p +:+ ".aar").
  rewrite Hset. reflexivity.
Qed.

Lemma aarOutput_creates (E : Env) (pkgs : list Build.Package) (s : State) :
  buildO (conf s) <> "" ->
  Strings.HasSuffix (buildO (conf s)) ".aar" = true ->
  buildN (conf s) = false ->
  createErr E (buildO (conf s)) = None ->
  aarOutput E pkgs s =
  (Ok (ToFile (buildO (conf s))), emit (Created (buildO (conf s))) s).
Proof.
  intros Hset Hsuffix Hwet Hcreate. apply String.eqb_neq in Hset.
  unfold aarOutput, bind, get. rewrite Hset. unfold ret. rewrite Hsuffix, Hwet.
  unfold Create, bind. rewrite Hcreate. reflexivity.
Qed.

Lemma buildAAR_default (E : Env) (androidDir : string) (p : Build.Package)
    (rest : list Build.Package) (androidArchs : list string) (s : State) :
  buildO (conf s) = "" ->
  buildAAR E androidDir (p :: rest) androidArchs s =
  buildAAR E androidDir (p :: rest) androidArchs (setBuildO (Build.Name p +:+ ".aar") s).
Proof.
  intros Hunset. unfold buildAAR, before. now rewrite aarOutput_default.
Qed.

(** C7. [buildAAR] checks the output name before it writes: a name that
    does not end in [.aar] makes it fail with the state untouched (no file
    made, nothing traced) and no archive writer; an output name that is not
    set makes it run as with the name of the first package followed by
    [.aar], which passes the check; and the file it then makes, unless the
    run is dry, has the checked name. *)
Theorem buildAAR_checks_output_name (E : Env) (androidDir : string)
    (pkgs : list Build.Package) (androidArchs : list string) (s : State) :
  (buildO (conf s) <> "" ->
   Strings.HasSuffix (buildO (conf s)) ".aar" = false ->
   buildAAR E androidDir pkgs androidArchs s =
   (Err (Errorf ("output file name " +:+ Quote E (buildO (conf s))
                 +:+ " does not end in '.aar'")), s, None))
  /\ (forall p rest,
        buildO (conf s) = "" -> pkgs = p :: rest ->
        Strings.HasSuffix (Build.Name p +:+ ".aar") ".aar" = true
        /\ buildAAR E androidDir pkgs androidArchs s =
           buildAAR E androidDir pkgs androidArchs
             (setBuildO (Build.Name p +:+ ".aar") s))
  /\ (buildO (conf s) <> "" ->
      Strings.HasSuffix (buildO (conf s)) ".aar" = true ->
      buildN (conf s) = false ->
      createErr E (buildO (conf s)) = None ->
      aarOutput E pkgs s =
      (Ok (ToFile (buildO (conf s))), emit (Created (buildO (conf s))) s)).
Proof.
  split; [| split].
  - intros Hset Hsuffix. unfold buildAAR, before.
    now rewrite aarOutput_bad_suffix.
  - intros p rest Hunset ->. split; [apply HasSuffix_append |].
    now apply buildAAR_default.
  - apply aarOutput_creates.
Qed.

Lemma buildAAR_checks_output_name_witness :
  buildAAR (Sample.disjoint Sample.never) "/tmp/work/android"
    [Sample.pkgA; Sample.pkgB] ["arm"] (Sample.start "lib.zip" false) =
  (Err (Errorf ("output file name " +:+ dq +:+ "lib.zip" +:+ dq
                +:+ " does not end in '.aar'")),
   Sample.start "lib.zip" false, None).
Proof.
  apply (proj1 (buildAAR_checks_output_name (Sample.disjoint Sample.never)
                  "/tmp/work/android" [Sample.pkgA; Sample.pkgB] ["arm"]
                  (Sample.start "lib.zip" false))).
  - discriminate.
  - reflexivity.
Defined.

(** ** Errors of the archive writer during the merge of the assets *)

(** C1 (the code departs from it). When [aarwcreate] fails for an asset the
    function handed to [filepath.Walk] returns [nil]: the name is claimed in
    [files], nothing is copied, and the walk goes on. With an archive writer
    that refuses the entry [assets/a.txt] and no other, [buildAAR] returns
    success and the archive it closed has no such entry. With a disk that is
    full from the first asset on, so that the writer refuses every entry
    from then on, and a second package that owns the same asset name as the
    first, [buildAAR] returns the conflict and not the error of the
    writer. *)
Theorem buildAAR_swallows_create_error :
  (forall (E : Env) (pkg : Build.Package) (assetsDir rel : string) (info : node)
          (a : Aar) (e : error),
     IsDir info = false ->
     openErr (assetsDir +:+ "/" +:+ rel) info = None ->
     buildV (conf (ast a)) = false ->
     files a !! ("assets/" +:+ rel) = None ->
     zipCreateErr E (aarw a) ("assets/" +:+ rel) = Some e ->
     assetWalkFn E pkg assetsDir (assetsDir +:+ "/" +:+ rel) info None a =
     (Ok tt, setFiles (<["assets/" +:+ rel := Build.ImportPath pkg]> (files a)) a))
  /\ (exists s zw,
        buildAAR (Sample.disjoint Sample.refuseA) "/tmp/work/android"
          [Sample.pkgA; Sample.pkgB] ["arm"] (Sample.start "out.aar" false) =
        (Ok tt, s, Some zw)
        /\ zout zw = ToFile "out.aar"
        /\ zclosed zw = true
        /\ map fst (zentries zw) =
           ["AndroidManifest.xml"; "proguard.txt"; "classes.jar";
            "assets/img/x.png"; "assets/b.txt"; "jni/armeabi-v7a/libgojni.so";
            "R.txt"; "res/"])
  /\ (exists s zw,
        zipCreateErr (Sample.icons Sample.diskFull) Sample.twoIconsHead.(aarw)
          "assets/icon.png" = Some (PathError "write" "a.aar" ENOSPC)
        /\ buildAAR (Sample.icons Sample.diskFull) "/tmp/work/android"
             [Sample.pkgA; Sample.pkgB] ["arm"] (Sample.start "" false) =
           (Err (conflictError "example.com/b" "assets/icon.png" "example.com/a"),
            s, Some zw)
        /\ map fst (zentries zw) =
           ["AndroidManifest.xml"; "proguard.txt"; "classes.jar"]).
Proof.
  split; [| split].
  - intros E pkg assetsDir rel info a e Hfile Hopen Hquiet Hnew Hcreate.
    unfold assetWalkFn. rewrite Hfile, Hopen, sliceFrom_child.
    unfold check, bind, ret, get, modify. rewrite Hnew.
    unfold attempt, aarwcreate. cbn [ast aarw files setFiles]. rewrite Hquiet.
    cbn [aarw setFiles]. rewrite Hcreate.
    reflexivity.
  - vm_compute. do 2 eexists. split; [reflexivity |]. repeat split.
  - vm_compute. do 2 eexists. split; [reflexivity |]. split; reflexivity.
Qed.

(** C2 as stated fails: two packages own [assets/icon.png]; [buildAAR]
    returns the conflict found in the second package, and the archive it was
    writing to the output file already holds the icon of the first. *)
Lemma buildAAR_conflict_after_copy :
  exists s zw,
    buildAAR Sample.twoIcons "/tmp/work/android"
      [Sample.pkgA; Sample.pkgB] ["arm"] (Sample.start "" false) =
    (Err (conflictError "example.com/b" "assets/icon.png" "example.com/a"), s, Some zw)
    /\ created (trace s) = ["a.aar"]
    /\ zout zw = ToFile "a.aar"
    /\ In ("assets/icon.png", Bytes "PNG-A") (zentries zw).
Proof.
  vm_compute. do 2 eexists. split; [reflexivity |]. repeat split. auto 10.
Qed.

(** C6 as stated fails: [buildAAR] called with the output path unset leaves
    it set. *)
Lemma buildAAR_sets_buildO :
  buildO (conf (Sample.start "" true)) = ""
  /\ buildO (conf (snd (fst (buildAAR (Sample.disjoint Sample.never) "/tmp/work/android"
                               [Sample.pkgA; Sample.pkgB] ["arm"]
                               (Sample.start "" true))))) = "a.aar".
Proof. split; vm_compute; reflexivity. Qed.

(** ** What a computation keeps *)

Section Combinators.
Context {S V : Type} (view : S -> V) (R : V -> V -> Prop) `{!PreOrder R}.

Lemma stable_ret {A} (a : A) : stable view R (ret a).
Proof. intros s. unfold stableAt. simpl. reflexivity. Qed.

Lemma stable_fail {A} (e : error) : stable view R (@fail S A e).
Proof. intros s. unfold stableAt. simpl. reflexivity. Qed.

Lemma stable_panic {A} (why : string) : stable view R (@panic S A why).
Proof. intros s. unfold stableAt. simpl. reflexivity. Qed.

Lemma stable_lift {A} (r : result A) : stable view R (@lift S A r).
Proof. intros s. unfold stableAt. simpl. reflexivity. Qed.

Lemma stable_check (o : option error) : stable view R (@check S o).
Proof. destruct o; [apply stable_fail | apply stable_ret]. Qed.

Lemma stable_get : stable view R (@get S).
Proof. intros s. unfold stableAt. simpl. reflexivity. Qed.

Lemma stable_modify (f : S -> S) :
  (forall s, R (view s) (view (f s))) -> stable view R (modify f).
Proof. intros H s. apply H. Qed.

Lemma stableAt_bind {A B} (m : M S A) (k : A -> M S B) (s : S) :
  stableAt view R m s -> (forall a, stable view R (k a)) ->
  stableAt view R (bind m k) s.
Proof.
  unfold stable, stableAt, bind. intros Hm Hk.
  destruct (m s) as [[a|e|why] s1]; simpl in *; [| exact Hm | exact Hm].
  etransitivity; [exact Hm | apply Hk].
Qed.

Lemma stable_bind {A B} (m : M S A) (k : A -> M S B) :
  stable view R m -> (forall a, stable view R (k a)) -> stable view R (bind m k).
Proof. intros Hm Hk s. apply stableAt_bind; auto. Qed.

Lemma stableAt_get_bind {B} (k : S -> M S B) (s : S) :
  stableAt view R (k s) s -> stableAt view R (bind get k) s.
Proof. intros H. exact H. Qed.

Lemma stable_attempt (m : M S unit) : stable view R m -> stable view R (attempt m).
Proof.
  intros Hm s. specialize (Hm s). unfold stableAt, attempt in *.
  destruct (m s) as [[a|e|why] s1]; exact Hm.
Qed.

Lemma stable_ignoreErr (m : M S unit) : stable view R m -> stable view R (ignoreErr m).
Proof.
  intros Hm. apply stable_bind; [now apply stable_attempt | intros _; apply stable_ret].
Qed.

Lemma stable_wrap {A} (label : string) (m : M S A) :
  stable view R m -> stable view R (wrap label m).
Proof.
  intros Hm s. specialize (Hm s). unfold stableAt, wrap in *.
  destruct (m s) as [[a|e|why] s1]; exact Hm.
Qed.

Lemma stable_instead {A} (e : error) (m : M S A) :
  stable view R m -> stable view R (instead e m).
Proof.
  intros Hm s. specialize (Hm s). unfold stableAt, instead in *.
  destruct (m s) as [[a|e'|why] s1]; exact Hm.
Qed.

Lemma stable_forM_ {A} (f : A -> M S unit) (l : list A) :
  (forall x, stable view R (f x)) -> stable view R (forM_ f l).
Proof.
  intros Hf. induction l as [|x l IH]; simpl; [apply stable_ret |].
  apply stable_bind; [apply Hf | intros _; exact IH].
Qed.

Lemma stable_Walk (E : Env) (root : string)
    (walkFn : string -> node -> option error -> M S unit) :
  (forall path info err, stable view R (walkFn path info err)) ->
  stable view R (Walk E root walkFn).
Proof. intros H. apply stable_forM_. intros x. apply H. Qed.

End Combinators.

Create HintDb stable.
(** A lemma on combinators is applied and the order it asks for is found
    among the instances. *)
Tactic Notation "use" open_constr(lem) := apply lem; try (apply _).

#[local] Hint Extern 1 (stableAt _ _ (ret _) _) => use stable_ret : stable.
#[local] Hint Extern 1 (stableAt _ _ (fail _) _) => use stable_fail : stable.
#[local] Hint Extern 1 (stableAt _ _ (panic _) _) => use stable_panic : stable.
#[local] Hint Extern 1 (stableAt _ _ (lift _) _) => use stable_lift : stable.
#[local] Hint Extern 1 (stableAt _ _ (check _) _) => use stable_check : stable.
#[local] Hint Extern 1 (stableAt _ _ get _) => use stable_get : stable.

(** One step along the shape of a computation. *)
Ltac stable_step :=
  lazymatch goal with
  | |- stable _ _ _ => intro
  | |- stableAt _ _ (bind get _) _ => apply stableAt_get_bind; cbv beta
  | |- stableAt _ _ (bind _ _) _ => use stableAt_bind; [| intros ? ?]
  | |- stableAt _ _ (if ?b then _ else _) _ => destruct b eqn:?
  | |- stableAt _ _ (match ?x with _ => _ end) _ => destruct x eqn:?
  | |- stableAt _ _ (forM_ _ _) _ => use stable_forM_; intros ? ?
  | |- stableAt _ _ (Walk _ _ _) _ => use stable_Walk; intros ? ? ? ?
  | |- stableAt _ _ (attempt _) _ => use stable_attempt; intros ?
  | |- stableAt _ _ (ignoreErr _) _ => use stable_ignoreErr; intros ?
  | |- stableAt _ _ (wrap _ _) _ => use stable_wrap; intros ?
  | |- stableAt _ _ (instead _ _) _ => use stable_instead; intros ?
  end.

Ltac stable_auto := repeat stable_step; eauto with stable.

(** ** What the packaging keeps *)

Section Packaging.
Context (R : State -> State -> Prop) `{!Frame R} (E : Env).

Lemma stable_print (text : string) : stable id R (modify (emit (Printed text))).
Proof. use stable_modify. intros s. apply frame_emit. now left. Qed.

Lemma stable_runCmd (dir : string) (argv : list string) :
  stable id R (modify (emit (RunCmd dir argv))).
Proof. use stable_modify. intros s. apply frame_emit. now left. Qed.

Lemma stable_echo (cmd : string) : stable id R (modify (emit (Echoed cmd))).
Proof. use stable_modify. intros s. apply frame_emit. now left. Qed.

Lemma stableAt_Create (path : string) (s : State) :
  buildN (conf s) = false -> stableAt id R (Create E path) s.
Proof.
  intros Hwet. unfold stableAt, Create, bind, check, id.
  destruct (createErr E path); simpl; [reflexivity |].
  apply frame_emit. now right.
Qed.

Lemma stableAt_MkdirAll (path : string) (s : State) :
  buildN (conf s) = false -> stableAt id R (MkdirAll E path) s.
Proof.
  intros Hwet. unfold stableAt, MkdirAll, bind, check, id.
  destruct (mkdirAllErr E path); simpl; [reflexivity |].
  apply frame_emit. now right.
Qed.

Lemma stable_javaSources (srcDir : string) : stable id R (javaSources E srcDir).
Proof.
  intros s. unfold stableAt, javaSources, id.
  destruct (buildN (conf s)); simpl; [reflexivity |].
  destruct (Walk E srcDir (buildJarWalkFn srcDir) []) as [[a|e|why] l]; reflexivity.
Qed.

Lemma stable_jarwcreate (name : string) : stable jst R (jarwcreate E name).
Proof.
  intros j. unfold stableAt, jarwcreate.
  assert (Hprint : R (jst j)
            (jst (if buildV (conf (jst j))
                  then jarEmit (Printed ("jar: " +:+ name +:+ nl)) j else j))).
  { destruct (buildV (conf (jst j))); [| reflexivity]. apply frame_emit. now left. }
  destruct (zipCreateErr E _ name); exact Hprint.
Qed.

Lemma stable_jarWrite (data : string) : stable jst R (jarWrite E data).
Proof.
  intros j. unfold stableAt, jarWrite.
  destruct (zipWriteErr E (jarw j) data); reflexivity.
Qed.

Lemma stable_jarClose : stable jst R (jarClose E).
Proof.
  intros j. unfold stableAt, jarClose.
  destruct (zipCloseErr E (jarw j)); reflexivity.
Qed.

#[local] Hint Extern 1 (stableAt _ _ (jarwcreate _ _) _) => apply stable_jarwcreate : stable.
#[local] Hint Extern 1 (stableAt _ _ (jarWrite _ _) _) => apply stable_jarWrite : stable.
#[local] Hint Extern 1 (stableAt _ _ (jarClose _) _) => apply stable_jarClose : stable.

Lemma stable_writeJarBody (dir : string) : stable jst R (writeJarBody E dir).
Proof. unfold writeJarBody, writeJarWalkFn. stable_auto. Qed.

Lemma stableB_writeJar (w : sink) (dir : string) : stableB R (writeJar E w dir).
Proof.
  intros s. unfold writeJar. destruct (buildN (conf s)); simpl; [reflexivity |].
  pose proof (stable_writeJarBody dir {| jst := s; jarw := NewWriter w |}) as H.
  unfold stableAt in H.
  destruct (writeJarBody E dir _) as [r j]. exact H.
Qed.

Lemma stableB_before {A} (m : M State A) (k : A -> State -> Built) :
  stable id R m -> (forall a, stableB R (k a)) -> stableB R (before m k).
Proof.
  intros Hm Hk s. specialize (Hm s). unfold stableAt, before, id in *.
  destruct (m s) as [[a|e|why] s1]; simpl in *; [| exact Hm | exact Hm].
  etransitivity; [exact Hm | apply Hk].
Qed.

Lemma stableB_buildJar (w : sink) (srcDir : string) : stableB R (buildJar E w srcDir).
Proof.
  apply stableB_before; [| intros dst; apply stableB_writeJar].
  use stable_bind; [apply stable_javaSources | intros srcFiles].
  intros s. apply stableAt_get_bind.
  use stableAt_bind; [|].
  - destruct (buildN (conf s)) eqn:Hn; [use stable_ret | now apply stableAt_MkdirAll].
  - intros _. use stable_bind; [use stable_lift | intros bClspath].
    use stable_bind; [apply stable_runCmd | intros _].
    use stable_bind; [use stable_check | intros _].
    use stable_bind; [| intros _; use stable_ret].
    destruct (buildX (conf s)); [apply stable_echo | use stable_ret].
Qed.

Lemma stableB_buildSrcJar (androidDir : string) : stableB R (buildSrcJar E androidDir).
Proof.
  apply stableB_before; [| intros out; apply stableB_writeJar].
  intros s. apply stableAt_get_bind.
  destruct (buildN (conf s)) eqn:Hn; [use stable_ret |].
  use stableAt_bind; [now apply stableAt_Create | intros _; use stable_ret].
Qed.

Lemma stable_aarwcreate (name : string) : stable ast R (aarwcreate E name).
Proof.
  intros a. unfold stableAt, aarwcreate.
  assert (Hprint : R (ast a)
            (ast (if buildV (conf (ast a))
                  then aarEmit (Printed ("aar: " +:+ name +:+ nl)) a else a))).
  { destruct (buildV (conf (ast a))); [| reflexivity]. apply frame_emit. now left. }
  destruct (zipCreateErr E _ name); exact Hprint.
Qed.

Lemma stable_aarWrite (data : string) : stable ast R (aarWrite E data).
Proof.
  intros a. unfold stableAt, aarWrite.
  destruct (zipWriteErr E (aarw a) data); reflexivity.
Qed.

Lemma stable_aarClose : stable ast R (aarClose E).
Proof.
  intros a. unfold stableAt, aarClose.
  destruct (zipCloseErr E (aarw a)); reflexivity.
Qed.

Lemma stable_setFiles (m : gmap string string) : stable ast R (modify (setFiles m)).
Proof. use stable_modify. reflexivity. Qed.

Lemma stable_inEntry (b : State -> Built) : stableB R b -> stable ast R (inEntry b).
Proof.
  intros Hb a. specialize (Hb (ast a)). unfold stableAt, inEntry.
  destruct (b (ast a)) as [[r s] jar]. exact Hb.
Qed.

#[local] Hint Extern 1 (stableAt _ _ (aarwcreate _ _) _) => apply stable_aarwcreate : stable.
#[local] Hint Extern 1 (stableAt _ _ (aarWrite _ _) _) => apply stable_aarWrite : stable.
#[local] Hint Extern 1 (stableAt _ _ (aarClose _) _) => apply stable_aarClose : stable.
#[local] Hint Extern 1 (stableAt _ _ (modify (setFiles _)) _) => apply stable_setFiles : stable.
#[local] Hint Extern 1 (stableAt _ _ (first _) _) =>
  unfold first; stable_auto : stable.

Lemma stable_mergeAssets (pkgs : list Build.Package) : stable ast R (mergeAssets E pkgs).
Proof. unfold mergeAssets, mergePackage, assetWalkFn. stable_auto. Qed.

Lemma stable_aarHead (androidDir : string) (pkgs : list Build.Package) :
  stable ast R (aarHead E androidDir pkgs).
Proof.
  unfold aarHead. stable_auto. apply stable_inEntry, stableB_buildJar.
Qed.

Lemma stable_aarTail (androidDir : string) (androidArchs : list string) :
  stable ast R (aarTail E androidDir androidArchs).
Proof. unfold aarTail, addArch, addLib. stable_auto. Qed.

Context `{!Defaulting R}.

Lemma stable_aarOutput (pkgs : list Build.Package) : stable id R (aarOutput E pkgs).
Proof.
  intros s. unfold aarOutput. apply stableAt_get_bind.
  use stableAt_bind; [|].
  - destruct (String.eqb_spec (buildO (conf s)) "") as [Hunset|_]; [| use stable_ret].
    destruct pkgs as [|p rest]; [use stable_panic |].
    apply (frame_default s _ Hunset).
  - intros _ s1. apply stableAt_get_bind.
    destruct (negb _); [use stable_fail |].
    destruct (buildN (conf s1)) eqn:Hn; [use stable_ret |].
    use stableAt_bind; [now apply stableAt_Create | intros _; use stable_ret].
Qed.

Lemma stableB_buildAAR (androidDir : string) (pkgs : list Build.Package)
    (androidArchs : list string) :
  stableB R (buildAAR E androidDir pkgs androidArchs).
Proof.
  apply stableB_before; [apply stable_aarOutput |]. intros out s.
  assert (H : stable ast R (buildAARBody E androidDir pkgs androidArchs)).
  { use stable_bind; [apply stable_aarHead | intros _].
    use stable_bind; [apply stable_mergeAssets | intros _; apply stable_aarTail]. }
  specialize (H {| ast := s; aarw := NewWriter out; files := ∅ |}).
  unfold stableAt in H.
  destruct (buildAARBody _ _ _ _ _) as [r a]. exact H.
Qed.

End Packaging.

(** The whole of [goAndroidBind], for the relations that hold across every
    event: it makes files whether the run is dry or not. *)
Section Whole.
Context (R : State -> State -> Prop) `{!Frame R} `{!Defaulting R} `{!Loose R} (E : Env).

Lemma stable_emit (ev : event) : stable id R (modify (emit ev)).
Proof. use stable_modify. intros s. apply frame_loose. Qed.

Lemma stable_CreateAny (path : string) : stable id R (Create E path).
Proof.
  use stable_bind; [use stable_check | intros _; apply stable_emit].
Qed.

#[local] Hint Extern 1 (stableAt _ _ (modify (emit _)) _) => apply stable_emit : stable.
#[local] Hint Extern 1 (stableAt _ _ (Create _ _) _) => apply stable_CreateAny : stable.

Lemma stable_built (b : State -> Built) : stableB R b -> stable id R (built b).
Proof. intros Hb s. apply Hb. Qed.

Lemma stable_GenerateJavaSupport (dir : string) (meta : Bind.NativeMeta)
    (javaDir : string) (writer : string -> M State sink) :
  (forall fpath, stable id R (writer fpath)) ->
  stable id R (Bind.GenerateJavaSupport E dir meta javaDir writer).
Proof.
  intros Hwriter. unfold Bind.GenerateJavaSupport, Bind.writeTo.
  stable_auto; apply Hwriter.
Qed.

Lemma stable_goAndroidBind (pkgs : list Build.Package) (androidArchs : list string) :
  stable id R (goAndroidBind E pkgs androidArchs).
Proof.
  unfold goAndroidBind, bindArch, copyLib, index. stable_auto.
  - apply stable_GenerateJavaSupport. intros fpath. stable_auto.
  - now apply stable_built, stableB_buildAAR.
  - now apply stable_built, stableB_buildSrcJar.
Qed.

End Whole.

(** *** The relations kept *)

#[local] Instance sameConfig_frame : Frame sameConfig.
Proof.
  split.
  - split; [intros s; reflexivity |].
    intros a b c Hab Hbc. unfold sameConfig in *. congruence.
  - intros s ev _. reflexivity.
Qed.

#[local] Instance keepsConfig_frame : Frame keepsConfig.
Proof.
  split.
  - split.
    + intros s. unfold keepsConfig. tauto.
    + intros a b c (H1 & H2 & H3 & H4 & H5 & H6 & H7) (K1 & K2 & K3 & K4 & K5 & K6 & K7).
      unfold keepsConfig. repeat split; try congruence.
      intros Hset. rewrite K7; [now apply H7 | rewrite (H7 Hset); exact Hset].
  - intros s ev _. unfold keepsConfig. simpl. tauto.
Qed.

#[local] Instance keepsConfig_defaulting : Defaulting keepsConfig.
Proof.
  intros s o Hunset. unfold keepsConfig. simpl. repeat split; try reflexivity.
  intros Hset. now destruct Hset.
Qed.

#[local] Instance keepsConfig_loose : Loose keepsConfig.
Proof. intros s ev. unfold keepsConfig. simpl. tauto. Qed.

Lemma touched_quiet (t : list event) (ev : event) :
  quiet ev = true -> touched (t ++ [ev]) = touched t.
Proof.
  intros Hq. unfold touched. rewrite List.filter_app. simpl. rewrite Hq. simpl.
  apply app_nil_r.
Qed.

#[local] Instance staysDry_frame : Frame staysDry.
Proof.
  split.
  - split.
    + intros s Hdry. auto.
    + intros a b c Hab Hbc Hdry. destruct (Hab Hdry) as [Hb Htb].
      destruct (Hbc Hb) as [Hc Htc]. split; [exact Hc | congruence].
  - intros s ev [Hq|Hwet] Hdry; [| congruence].
    split; [exact Hdry |]. simpl. now apply touched_quiet.
Qed.

#[local] Instance staysDry_defaulting : Defaulting staysDry.
Proof. intros s o _ Hdry. split; [exact Hdry | reflexivity]. Qed.

(** ** The destination of the archive writer does not change *)

Section Sink.
Context (E : Env).

Lemma sink_aarwcreate (name : string) : stable aarSink eq (aarwcreate E name).
Proof.
  intros a. unfold stableAt, aarwcreate, aarSink.
  destruct (buildV (conf (ast a))); destruct (zipCreateErr E _ name); reflexivity.
Qed.

Lemma sink_aarWrite (data : string) : stable aarSink eq (aarWrite E data).
Proof.
  intros a. unfold stableAt, aarWrite, aarSink.
  destruct (zipWriteErr E (aarw a) data); reflexivity.
Qed.

Lemma sink_aarClose : stable aarSink eq (aarClose E).
Proof.
  intros a. unfold stableAt, aarClose, aarSink.
  destruct (zipCloseErr E (aarw a)); reflexivity.
Qed.

Lemma sink_setFiles (m : gmap string string) : stable aarSink eq (modify (setFiles m)).
Proof. intros a. reflexivity. Qed.

Lemma sink_inEntry (b : State -> Built) : stable aarSink eq (inEntry b).
Proof.
  intros a. unfold stableAt, inEntry, aarSink.
  destruct (b (ast a)) as [[r s] [jw|]]; reflexivity.
Qed.

#[local] Hint Extern 1 (stableAt _ _ (aarwcreate _ _) _) => apply sink_aarwcreate : stable.
#[local] Hint Extern 1 (stableAt _ _ (aarWrite _ _) _) => apply sink_aarWrite : stable.
#[local] Hint Extern 1 (stableAt _ _ (aarClose _) _) => apply sink_aarClose : stable.
#[local] Hint Extern 1 (stableAt _ _ (modify (setFiles _)) _) => apply sink_setFiles : stable.
#[local] Hint Extern 1 (stableAt _ _ (inEntry _) _) => apply sink_inEntry : stable.
#[local] Hint Extern 1 (stableAt _ _ (first _) _) => unfold first; stable_auto : stable.

Lemma sink_buildAARBody (androidDir : string) (pkgs : list Build.Package)
    (androidArchs : list string) :
  stable aarSink eq (buildAARBody E androidDir pkgs androidArchs).
Proof.
  unfold buildAARBody, aarHead, mergeAssets, mergePackage, assetWalkFn, aarTail,
    addArch, addLib.
  stable_auto.
Qed.

(** The archive writer [buildAAR] gives back writes to what [aarOutput]
    opened. *)
Lemma buildAAR_sink (androidDir : string) (pkgs : list Build.Package)
    (androidArchs : list string) (s s' : State) (r : result unit) (zw : zipWriter) :
  buildAAR E androidDir pkgs androidArchs s = (r, s', Some zw) ->
  exists s1, aarOutput E pkgs s = (Ok (zout zw), s1).
Proof.
  unfold buildAAR, before. destruct (aarOutput E pkgs s) as [[out|e|why] s1];
    [| discriminate | discriminate].
  pose proof (sink_buildAARBody androidDir pkgs androidArchs
                {| ast := s1; aarw := NewWriter out; files := ∅ |}) as Hsink.
  unfold stableAt, aarSink in Hsink. simpl in Hsink.
  destruct (buildAARBody _ _ _ _ _) as [r' a]. simpl in Hsink.
  intros [= _ _ <-]. exists s1. now rewrite <- Hsink.
Qed.

Lemma aarOutput_dry (pkgs : list Build.Package) (s s1 : State) (out : sink) :
  buildN (conf s) = true -> aarOutput E pkgs s = (Ok out, s1) -> out = Discard.
Proof.
  intros Hdry. unfold aarOutput, bind, get.
  destruct (String.eqb (buildO (conf s)) "").
  - destruct pkgs as [|p rest]; simpl; [discriminate |].
    destruct (negb _); simpl; [discriminate |].
    rewrite Hdry. now intros [= <- _].
  - simpl. destruct (negb _); simpl; [discriminate |].
    rewrite Hdry. now intros [= <- _].
Qed.

End Sink.

(** ** The dry run *)

Lemma buildJar_dry_bootClasspath (E : Env) (w : sink) (srcDir : string) (s : State)
    (e : error) :
  buildN (conf s) = true -> bootClasspath E = Err e ->
  buildJar E w srcDir s = (Err e, s, None).
Proof.
  intros Hdry Hboot. unfold buildJar, before, bind, javaSources, get, lift.
  rewrite Hdry. simpl. rewrite Hdry, Hboot. reflexivity.
Qed.

Lemma aarwcreate_accepted (E : Env) (name : string) (a : Aar) :
  (forall zw name', zipCreateErr E zw name' = None) ->
  exists a', aarwcreate E name a = (Ok tt, a') /\ conf (ast a') = conf (ast a).
Proof.
  intros Hcreate. unfold aarwcreate. rewrite Hcreate.
  eexists. split; [reflexivity |]. now destruct (buildV (conf (ast a))).
Qed.

Lemma aarWrite_ignored (E : Env) (data : string) (a : Aar) :
  exists a', ignoreErr (aarWrite E data) a = (Ok tt, a') /\ ast a' = ast a.
Proof.
  unfold ignoreErr, attempt, bind, aarWrite, ret.
  destruct (zipWriteErr E (aarw a) data); eexists; split; reflexivity.
Qed.

(** In a dry run an error of the boot class path comes out of [buildAAR],
    when the output name is accepted and the archive writer, which writes
    to [ioutil.Discard], takes every entry. *)
Lemma buildAAR_dry_bootClasspath (E : Env) (androidDir : string) (p : Build.Package)
    (rest : list Build.Package) (androidArchs : list string) (s : State) (e : error) :
  buildN (conf s) = true ->
  Strings.HasSuffix (buildO (conf s)) ".aar" = true ->
  (forall zw name, zipCreateErr E zw name = None) ->
  bootClasspath E = Err e ->
  fst (fst (buildAAR E androidDir (p :: rest) androidArchs s)) = Err e.
Proof.
  intros Hdry Hsuffix Hcreate Hboot.
  assert (Hout : aarOutput E (p :: rest) s = (Ok Discard, s)).
  { unfold aarOutput, bind, get.
    destruct (String.eqb_spec (buildO (conf s)) "") as [Hunset|_].
    - rewrite Hunset in Hsuffix. discriminate.
    - unfold ret. now rewrite Hsuffix, Hdry. }
  unfold buildAAR, before. rewrite Hout. unfold buildAARBody, aarHead.
  set (a0 := {| ast := s; aarw := NewWriter Discard; files := ∅ |}).
  destruct (aarwcreate_accepted E "AndroidManifest.xml" a0 Hcreate) as (a1 & H1 & Hc1).
  destruct (aarWrite_ignored E (manifest E (Build.Name p)) a1) as (a2 & H2 & Hc2).
  destruct (aarwcreate_accepted E "proguard.txt" a2 Hcreate) as (a3 & H3 & Hc3).
  destruct (aarWrite_ignored E ("-keep class go.** { *; }" +:+ nl) a3) as (a4 & H4 & Hc4).
  destruct (aarwcreate_accepted E "classes.jar" a4 Hcreate) as (a5 & H5 & Hc5).
  assert (Hdry5 : buildN (conf (ast a5)) = true).
  { rewrite Hc5, Hc4, Hc3, Hc2, Hc1. exact Hdry. }
  rewrite (bind_Err _ _ a0 e
             {| ast := ast a5; aarw := aarw a5; files := files a5 |}); [reflexivity |].
  rewrite (bind_Ok _ _ _ _ _ H1). unfold first at 1.
  rewrite (bind_Ok _ _ a1 p a1 eq_refl).
  rewrite (bind_Ok _ _ _ _ _ H2), (bind_Ok _ _ _ _ _ H3), (bind_Ok _ _ _ _ _ H4),
          (bind_Ok _ _ _ _ _ H5).
  unfold inEntry. now rewrite (buildJar_dry_bootClasspath E _ _ _ e Hdry5 Hboot).
Qed.

(** X18. In a dry run [buildAAR], [buildSrcJar], [buildJar] and [writeJar]
    make no file, no directory and no write to a file, whatever their
    outcome: the archive writer of [buildAAR] writes to [ioutil.Discard],
    and [buildSrcJar] and [writeJar] return at once without a writer. What
    is handed to [runCmd] and what is printed is not counted here:
    [buildJar] hands the [javac] command to [runCmd] in a dry run too. The
    configuration is checked all the same: [buildJar] asks for the boot
    class path and returns its error, which [buildAAR] returns in turn, and
    [buildAAR] rejects an output name without the suffix [.aar]. *)
Theorem dry_run_writes_nothing (E : Env) (androidDir srcDir : string)
    (pkgs : list Build.Package) (androidArchs : list string) (w : sink) (s : State) :
  buildN (conf s) = true ->
  (forall r s' zw,
     buildAAR E androidDir pkgs androidArchs s = (r, s', zw) ->
     created (trace s') = created (trace s)
     /\ touched (trace s') = touched (trace s)
     /\ forall aarw, zw = Some aarw -> zout aarw = Discard)
  /\ buildSrcJar E androidDir s = (Ok tt, s, None)
  /\ writeJar E w srcDir s = (Ok tt, s, None)
  /\ touched (trace (snd (fst (buildJar E w srcDir s)))) = touched (trace s)
  /\ (forall e, bootClasspath E = Err e -> buildJar E w srcDir s = (Err e, s, None))
  /\ (forall e p rest,
        bootClasspath E = Err e ->
        pkgs = p :: rest ->
        Strings.HasSuffix (buildO (conf s)) ".aar" = true ->
        (forall zw name, zipCreateErr E zw name = None) ->
        fst (fst (buildAAR E androidDir pkgs androidArchs s)) = Err e)
  /\ (buildO (conf s) <> "" ->
      Strings.HasSuffix (buildO (conf s)) ".aar" = false ->
      buildAAR E androidDir pkgs androidArchs s =
      (Err (Errorf ("output file name " +:+ Quote E (buildO (conf s))
                    +:+ " does not end in '.aar'")), s, None)).
Proof.
  intros Hdry. repeat split.
  - pose proof (stableB_buildAAR staysDry E androidDir pkgs androidArchs s Hdry) as [_ Ht].
    rewrite H in Ht. simpl in Ht.
    apply (f_equal created) in Ht. revert Ht. clear.
    assert (Hc : forall t, created (touched t) = created t).
    { induction t as [|[] t IH]; simpl; congruence. }
    now rewrite !Hc.
  - pose proof (stableB_buildAAR staysDry E androidDir pkgs androidArchs s Hdry) as [_ Ht].
    now rewrite H in Ht.
  - intros aarw ->. apply buildAAR_sink in H as [s1 Hout].
    now apply (aarOutput_dry E pkgs s s1).
  - unfold buildSrcJar, before, bind, get, writeJar. rewrite Hdry. simpl.
    now rewrite Hdry.
  - unfold writeJar. now rewrite Hdry.
  - now apply (stableB_buildJar staysDry E w srcDir s).
  - intros e. now apply buildJar_dry_bootClasspath.
  - intros e p rest Hboot -> Hsuffix Hcreate. now apply buildAAR_dry_bootClasspath.
  - intros Hset Hsuffix. unfold buildAAR, before. now rewrite aarOutput_bad_suffix.
Qed.

Lemma dry_run_writes_nothing_witness :
  buildSrcJar (Sample.disjoint Sample.never) "/tmp/work/android"
    (Sample.start "out.aar" true) = (Ok tt, Sample.start "out.aar" true, None).
Proof.
  apply (dry_run_writes_nothing (Sample.disjoint Sample.never) "/tmp/work/android"
           "/tmp/work/javac-output" [Sample.pkgA; Sample.pkgB] ["arm"] Discard
           (Sample.start "out.aar" true)).
  reflexivity.
Defined.

(** ** The configuration *)

(** C6, amended. No function of the packaging changes the dry-run flag,
    the verbose flag or any other variable of the configuration but the
    output path; [buildJar], [writeJar] and [buildSrcJar] leave the output
    path as it is too; [buildAAR], and [goAndroidBind] which calls it, leave
    an output path that is set as it is, and [buildAAR] sets one that is not
    set to the name of the first package followed by [.aar]. *)
Theorem packaging_keeps_config (E : Env) (androidDir srcDir : string)
    (pkgs : list Build.Package) (androidArchs : list string) (w : sink) (s : State) :
  keepsConfig s (snd (fst (buildAAR E androidDir pkgs androidArchs s)))
  /\ (forall p rest,
        buildO (conf s) = "" -> pkgs = p :: rest ->
        buildO (conf (snd (fst (buildAAR E androidDir pkgs androidArchs s))))
        = Build.Name p +:+ ".aar")
  /\ conf (snd (fst (buildJar E w srcDir s))) = conf s
  /\ conf (snd (fst (writeJar E w srcDir s))) = conf s
  /\ conf (snd (fst (buildSrcJar E androidDir s))) = conf s
  /\ keepsConfig s (snd (goAndroidBind E pkgs androidArchs s)).
Proof.
  split; [| split; [| split; [| split; [| split]]]].
  - exact (stableB_buildAAR keepsConfig E androidDir pkgs androidArchs s).
  - intros p rest Hunset ->. rewrite (buildAAR_default _ _ _ _ _ _ Hunset).
    pose proof (stableB_buildAAR keepsConfig E androidDir (p :: rest) androidArchs
                  (setBuildO (Build.Name p +:+ ".aar") s)) as (_ & _ & _ & _ & _ & _ & Hkeep).
    apply Hkeep. simpl. apply append_not_empty. discriminate.
  - exact (stableB_buildJar sameConfig E w srcDir s).
  - exact (stableB_writeJar sameConfig E w srcDir s).
  - exact (stableB_buildSrcJar sameConfig E androidDir s).
  - exact (stable_goAndroidBind keepsConfig E pkgs androidArchs s).
Qed.

(** ** The archive writer: writeJar *)

Lemma mapLast_snoc {A} (f : A -> A) (l : list A) (x : A) :
  mapLast f (l ++ [x]) = l ++ [f x].
Proof.
  induction l as [|y l IH]; [reflexivity |].
  simpl. rewrite IH. destruct (l ++ [x]) eqn:Hl; [| reflexivity].
  now destruct l.
Qed.

Lemma write_new_entry (name data : string) (zw : zipWriter) :
  writeEntry data (addEntry name zw) = withEntries [(name, Bytes data)] zw.
Proof.
  unfold writeEntry, addEntry, withEntries. simpl. now rewrite mapLast_snoc.
Qed.

Lemma withEntries_app (es1 es2 : list (string * content)) (zw : zipWriter) :
  withEntries es2 (withEntries es1 zw) = withEntries (es1 ++ es2) zw.
Proof. unfold withEntries. simpl. now rewrite app_assoc. Qed.

Lemma withEntries_nil (zw : zipWriter) : withEntries [] zw = zw.
Proof. destruct zw. unfold withEntries. simpl. now rewrite app_nil_r. Qed.


Section WriteJar.
Context (E : Env) (dir : string).
Hypothesis Hcreate : forall zw name, zipCreateErr E zw name = None.
Hypothesis Hwrite : forall zw data, zipWriteErr E zw data = None.

(** The walk of a readable tree adds the entries of its regular files and
    changes nothing else of the writer. *)
Lemma writeJar_visits (n : node) :
  forall (rel : string) (j : Jar),
    readable n = true ->
    exists s',
      forM_ (fun v => writeJarWalkFn E dir (fst (fst v)) (snd (fst v)) (snd v))
            (visits (dir +:+ "/" +:+ rel) n) j
      = (Ok tt, {| jst := s'; jarw := withEntries (fileEntries (filesAt rel n)) (jarw j) |}).
Proof using Hcreate Hwrite.
  induction n as [data|errno|entries IH|errno|errno|errno|target IHtarget] using node_induction;
    intros rel j Hread; try discriminate.
  - cbn [visits forM_ fst snd]. unfold bind at 1. unfold writeJarWalkFn.
    cbn [IsDir]. cbv iota. rewrite sliceFrom_child.
    unfold bind, jarwcreate, check, lift, jarWrite, ret. cbn [openErr readAll].
    rewrite Hcreate. cbn [jst jarw]. rewrite Hwrite, write_new_entry.
    destruct (buildV (conf (jst j))); eexists; reflexivity.
  - cbn [visits forM_ fst snd]. unfold bind at 1. unfold writeJarWalkFn at 1.
    cbn [IsDir]. cbv iota. unfold ret at 1.
    simpl in Hread. cbn [filesAt]. revert j Hread.
    induction IH as [|entry entries Hentry _ IHentries]; intros j Hread.
    + simpl. exists (jst j). rewrite withEntries_nil. now destruct j.
    + simpl in Hread. apply andb_true_iff in Hread as [Hhere Hrest].
      cbn [flat_map]. rewrite forM_app.
      destruct (Hentry (rel +:+ "/" +:+ fst entry) j Hhere) as [s1 Hrun].
      rewrite !append_assoc. rewrite Hrun.
      destruct (IHentries
                  {| jst := s1;
                     jarw := withEntries
                               (fileEntries (filesAt (rel +:+ "/" +:+ fst entry) (snd entry)))
                               (jarw j) |} Hrest) as [s2 Hrun2].
      rewrite Hrun2. exists s2. cbn [jarw]. unfold fileEntries.
      now rewrite withEntries_app, map_app.
Qed.

(** The same for the entries of the root. *)
Lemma writeJar_root (entries : list (string * node)) :
  forall (j : Jar),
    forallb (fun entry => readable (snd entry)) entries = true ->
    exists s',
      forM_ (fun v => writeJarWalkFn E dir (fst (fst v)) (snd (fst v)) (snd v))
            (flat_map (fun entry => visits (dir +:+ "/" +:+ fst entry) (snd entry)) entries) j
      = (Ok tt, {| jst := s'; jarw := withEntries (fileEntries (filesUnder entries)) (jarw j) |}).
Proof using Hcreate Hwrite.
  induction entries as [|entry entries IH]; intros j Hread.
  - simpl. exists (jst j). rewrite withEntries_nil. now destruct j.
  - simpl in Hread. apply andb_true_iff in Hread as [Hhere Hrest].
    cbn [flat_map]. rewrite forM_app.
    destruct (writeJar_visits (snd entry) (fst entry) j Hhere) as [s1 Hrun].
    rewrite Hrun.
    destruct (IH {| jst := s1;
                    jarw := withEntries (fileEntries (filesAt (fst entry) (snd entry)))
                              (jarw j) |} Hrest) as [s2 Hrun2].
    rewrite Hrun2. exists s2. cbn [jarw]. unfold filesUnder, fileEntries.
    cbn [flat_map]. now rewrite withEntries_app, map_app.
Qed.

Hypothesis Hclose : forall zw, zipCloseErr E zw = None.

Lemma writeJarBody_entries (entries : list (string * node)) (j : Jar) :
  fs E dir = Dir entries ->
  readable (Dir entries) = true ->
  exists s',
    writeJarBody E dir j =
    (Ok tt,
     {| jst := s';
        jarw := closeWriter
                  (withEntries
                     (("META-INF/MANIFEST.MF", Bytes (manifestHeader E))
                        :: fileEntries (filesUnder entries)) (jarw j)) |}).
Proof using Hcreate Hwrite Hclose.
  intros Hdir Hread. unfold writeJarBody, Walk. rewrite Hdir.
  cbn [visits forM_ fst snd].
  unfold ignoreErr, attempt, bind, jarwcreate, jarWrite, jarClose, ret.
  rewrite Hcreate. cbn [jst jarw]. rewrite Hwrite, write_new_entry.
  unfold writeJarWalkFn at 1. cbn [IsDir]. cbv iota. unfold ret. cbv beta iota.
  match goal with
  | |- context [forM_ _ _ ?j1] =>
      destruct (writeJar_root entries j1 Hread) as [s1 Hrun]; rewrite Hrun
  end.
  cbn [jst jarw]. rewrite Hclose, withEntries_app.
  exists s1. destruct (buildV (conf (jst j))); reflexivity.
Qed.

End WriteJar.





(** ** The merge of the assets *)

Lemma place_app (l1 l2 : list Asset) (a : Aar) :
  place (l1 ++ l2) a =
  match place l1 a with
  | (Ok _, a1) => place l2 a1
  | other => other
  end.
Proof.
  revert a. induction l1 as [|x l1 IH]; intros a; simpl; [reflexivity |].
  destruct (files a !! entryName x); [reflexivity | apply IH].
Qed.

Section Merge.
Context (E : Env).
Hypothesis Hcreate : forall zw name, zipCreateErr E zw name = None.
Hypothesis Hwrite : forall zw data, zipWriteErr E zw data = None.

(** The walk of a readable tree of assets is the pass over its regular
    files. *)
Lemma assets_visits (pkg : Build.Package) (assetsDir : string) (n : node) :
  forall (rel : string) (a : Aar),
    readable n = true ->
    forM_ (fun v => assetWalkFn E pkg assetsDir (fst (fst v)) (snd (fst v)) (snd v))
          (visits (assetsDir +:+ "/" +:+ rel) n) a
    = place (map (assetOf pkg) (filesAt rel n)) a.
Proof using Hcreate Hwrite.
  induction n as [data|errno|entries IH|errno|errno|errno|target IHtarget] using node_induction;
    intros rel a Hread; try discriminate.
  - cbn [visits forM_ fst snd filesAt map place assetOf entryName owner].
    unfold bind at 1. unfold assetWalkFn. cbn [IsDir]. cbv iota.
    rewrite sliceFrom_child.
    unfold bind, check, get, modify, attempt, aarwcreate, lift, aarWrite, ret, fail.
    cbn [openErr readAll].
    destruct (files a !! ("assets/" +:+ rel)) as [orig|]; [reflexivity |].
    unfold addAsset. cbn [ast aarw files setFiles entryName owner bytes fst snd].
    destruct (buildV (conf (ast a))); cbn [aarEmit ast aarw files setAarw];
      rewrite Hcreate; cbn [ast aarw files setAarw setFiles];
      rewrite Hwrite, write_new_entry; reflexivity.
  - cbn [visits forM_ fst snd]. unfold bind at 1. unfold assetWalkFn at 1.
    cbn [IsDir]. cbv iota. unfold ret at 1.
    simpl in Hread. cbn [filesAt]. revert a Hread.
    induction IH as [|entry entries Hentry _ IHentries]; intros a Hread.
    + reflexivity.
    + simpl in Hread. apply andb_true_iff in Hread as [Hhere Hrest].
      cbn [flat_map]. rewrite forM_app, map_app, place_app, !append_assoc.
      rewrite (Hentry (rel +:+ "/" +:+ fst entry) a Hhere).
      destruct (place _ a) as [[[]|e|why] a1]; [| reflexivity | reflexivity].
      now apply IHentries.
Qed.

Lemma assets_root (pkg : Build.Package) (assetsDir : string)
    (entries : list (string * node)) :
  forall (a : Aar),
    forallb (fun entry => readable (snd entry)) entries = true ->
    forM_ (fun v => assetWalkFn E pkg assetsDir (fst (fst v)) (snd (fst v)) (snd v))
          (flat_map (fun entry => visits (assetsDir +:+ "/" +:+ fst entry) (snd entry))
             entries) a
    = place (map (assetOf pkg) (filesUnder entries)) a.
Proof using Hcreate Hwrite.
  induction entries as [|entry entries IH]; intros a Hread; [reflexivity |].
  simpl in Hread. apply andb_true_iff in Hread as [Hhere Hrest].
  unfold filesUnder. cbn [flat_map]. rewrite forM_app, map_app, place_app.
  rewrite (assets_visits pkg assetsDir (snd entry) (fst entry) a Hhere).
  destruct (place _ a) as [[[]|e|why] a1]; [| reflexivity | reflexivity].
  now apply IH.
Qed.

Lemma mergePackage_place (pkg : Build.Package) (a : Aar) :
  healthy E pkg = true -> mergePackage E pkg a = place (assetsOf E pkg) a.
Proof using Hcreate Hwrite.
  unfold healthy, mergePackage, assetsOf, Walk.
  destruct (fs E (Filepath.Join [Build.Dir pkg; "assets"]))
    as [data|errno|entries|errno|errno|errno|target] eqn:Hfs;
    intros Hhealthy; try discriminate; try reflexivity.
  - cbn [statErr IsDir]. unfold bind at 1, ret at 1.
    cbn [visits forM_ fst snd]. unfold bind at 1. unfold assetWalkFn at 1.
    cbn [IsDir]. cbv iota. unfold ret at 1.
    now apply assets_root.
  - destruct errno; try discriminate. reflexivity.
Qed.

Lemma mergePackages_place (pkgs : list Build.Package) (a : Aar) :
  (forall pkg, In pkg pkgs -> healthy E pkg = true) ->
  forM_ (mergePackage E) pkgs a = place (allAssets E pkgs) a.
Proof using Hcreate Hwrite.
  revert a. induction pkgs as [|pkg pkgs IH]; intros a Hhealthy; [reflexivity |].
  cbn [forM_]. unfold allAssets. cbn [flat_map]. rewrite place_app.
  unfold bind. rewrite mergePackage_place by (apply Hhealthy; now left).
  destruct (place _ a) as [[[]|e|why] a1]; [| reflexivity | reflexivity].
  apply IH. intros pkg' Hin. apply Hhealthy. now right.
Qed.

(** For packages whose assets can be read and an archive writer that takes
    every entry, the loop of [buildAAR] over the packages is the one pass
    over their assets. *)
Lemma mergeAssets_place (pkgs : list Build.Package) (a : Aar) :
  (forall pkg, In pkg pkgs -> healthy E pkg = true) ->
  mergeAssets E pkgs a = place (allAssets E pkgs) (setFiles ∅ a).
Proof using Hcreate Hwrite.
  intros Hhealthy. unfold mergeAssets, bind, modify.
  now apply mergePackages_place.
Qed.

End Merge.

(** *** The one pass *)

Lemma addAll_aarw (l : list Asset) (a : Aar) :
  aarw (addAll l a) = withEntries (map assetEntry l) (aarw a).
Proof.
  revert a. induction l as [|x l IH]; intros a; simpl.
  - now rewrite withEntries_nil.
  - unfold addAll in *. simpl. rewrite IH. simpl. now rewrite withEntries_app.
Qed.

Lemma addAll_other (l : list Asset) (a : Aar) (name : string) :
  ~ In name (map entryName l) -> files (addAll l a) !! name = files a !! name.
Proof.
  revert a. induction l as [|x l IH]; intros a Hnot; [reflexivity |].
  unfold addAll in *. simpl. rewrite IH by (intros Hin; apply Hnot; now right).
  simpl. apply lookup_insert_ne. intros Heq. apply Hnot. now left.
Qed.

Lemma addAll_owner (l : list Asset) (a : Aar) (x : Asset) :
  List.NoDup (map entryName l) -> In x l ->
  files (addAll l a) !! entryName x = Some (owner x).
Proof.
  revert a. induction l as [|y l IH]; intros a Hnodup Hin; [destruct Hin |].
  simpl in Hnodup. apply List.NoDup_cons_iff in Hnodup as [Hfresh Hnodup].
  unfold addAll in *. simpl. destruct Hin as [->|Hin]; [| now apply IH].
  change (files (addAll l (addAsset x a)) !! entryName x = Some (owner x)).
  rewrite addAll_other by exact Hfresh. simpl. apply lookup_insert_eq.
Qed.


(** Assets with names that differ from each other and are free are all
    claimed and copied, and the pass goes on after them. *)
Lemma place_fresh (l rest : list Asset) (a : Aar) :
  List.NoDup (map entryName l) ->
  (forall x, In x l -> files a !! entryName x = None) ->
  place (l ++ rest) a = place rest (addAll l a).
Proof.
  revert a. induction l as [|y l IH]; intros a Hnodup Hfree; [reflexivity |].
  simpl in Hnodup. apply List.NoDup_cons_iff in Hnodup as [Hfresh Hnodup].
  simpl. rewrite (Hfree y) by now left.
  apply IH; [exact Hnodup |].
  intros x Hin. simpl. rewrite lookup_insert_ne; [apply Hfree; now right |].
  intros Heq. apply Hfresh. rewrite Heq. now apply in_map.
Qed.


(** C2, amended. The check for conflicts and the copy go together, in one
    pass. For packages whose assets are plain and can be read (a tree of
    regular files and directories that open and list, without symbolic
    links; a missing [assets] directory, or a file in its place, is passed
    over) and an archive writer that takes every entry and every write:
    when [buildAAR] has made its archive writer and written the entries
    that come before the assets, and the assets in the order of the walk
    are [pre], then [x], then [post], the names in [pre] differ from each
    other, and [x] has the name of an asset [y] of [pre], then the loop over
    the packages returns the conflict between [x] and [y], [buildAAR]
    returns this error, and the archive, which writes to what it wrote to,
    holds, after what it held, one entry for each asset of [pre] with its
    bytes; nothing of [x] or of [post] is in it, and it is not closed. *)
Theorem merge_conflict_after_copies (E : Env) (androidDir : string)
    (pkgs : list Build.Package) (androidArchs : list string) (s s1 : State)
    (out : sink) (a : Aar) (pre post : list Asset) (x y : Asset) :
  (forall pkg, In pkg pkgs -> healthy E pkg = true) ->
  (forall zw name, zipCreateErr E zw name = None) ->
  (forall zw data, zipWriteErr E zw data = None) ->
  aarOutput E pkgs s = (Ok out, s1) ->
  aarHead E androidDir pkgs {| ast := s1; aarw := NewWriter out; files := ∅ |}
    = (Ok tt, a) ->
  allAssets E pkgs = pre ++ x :: post ->
  List.NoDup (map entryName pre) ->
  In y pre ->
  entryName y = entryName x ->
  exists a',
    mergeAssets E pkgs a = (Err (conflictError (owner x) (entryName x) (owner y)), a')
    /\ buildAAR E androidDir pkgs androidArchs s
       = (Err (conflictError (owner x) (entryName x) (owner y)), ast a', Some (aarw a'))
    /\ zout (aarw a') = zout (aarw a)
    /\ zclosed (aarw a') = zclosed (aarw a)
    /\ zentries (aarw a') = zentries (aarw a) ++ map assetEntry pre.
Proof.
  intros Hhealthy Hcreate Hwrite Hout Hhead Hassets Hnodup Hin Hname.
  assert (Hmerge : mergeAssets E pkgs a =
                   (Err (conflictError (owner x) (entryName x) (owner y)),
                    addAll pre (setFiles ∅ a))).
  { rewrite (mergeAssets_place E Hcreate Hwrite pkgs a Hhealthy), Hassets.
    rewrite place_fresh; [| exact Hnodup | intros z _; apply lookup_empty].
    simpl. rewrite <- Hname, (addAll_owner pre _ y Hnodup Hin). reflexivity. }
  exists (addAll pre (setFiles ∅ a)). split; [exact Hmerge |]. split.
  - unfold buildAAR, before. rewrite Hout. unfold buildAARBody.
    rewrite (bind_Ok _ _ _ _ _ Hhead).
    rewrite (bind_Err _ (fun _ => aarTail E androidDir androidArchs) _ _ _ Hmerge).
    reflexivity.
  - rewrite addAll_aarw. repeat split.
Qed.

Lemma merge_conflict_after_copies_witness :
  exists a',
    buildAAR Sample.twoIcons "/tmp/work/android" [Sample.pkgA; Sample.pkgB] ["arm"]
      (Sample.start "" false)
    = (Err (conflictError "example.com/b" "assets/icon.png" "example.com/a"),
       ast a', Some (aarw a'))
    /\ zentries (aarw a')
       = zentries (aarw Sample.twoIconsHead) ++ [("assets/icon.png", Bytes "PNG-A")].
Proof.
  destruct (merge_conflict_after_copies Sample.twoIcons "/tmp/work/android"
              [Sample.pkgA; Sample.pkgB] ["arm"] (Sample.start "" false)
              (ast Sample.twoIconsStart) (ToFile "a.aar") Sample.twoIconsHead
              [assetOf Sample.pkgA ("icon.png", "PNG-A")] []
              (assetOf Sample.pkgB ("icon.png", "PNG-B"))
              (assetOf Sample.pkgA ("icon.png", "PNG-A")))
    as (a' & _ & Hrun & _ & _ & Hentries).
  - intros pkg [<-|[<-|[]]]; reflexivity.
  - reflexivity.
  - reflexivity.
  - vm_compute. reflexivity.
  - vm_compute. reflexivity.
  - reflexivity.
  - repeat constructor. intros [].
  - now left.
  - reflexivity.
  - exists a'. split; [exact Hrun | exact Hentries].
Defined.



(** ** The auxiliary libraries of goAndroidBind *)

Lemma copyLib_absent (E : Env) (dir jniDir lib : string) (s : State) (e : error) :
  openErr (Filepath.Join [dir; "lib" +:+ lib +:+ ".so"])
    (fs E (Filepath.Join [dir; "lib" +:+ lib +:+ ".so"])) = Some e ->
  copyLib E dir jniDir lib s = (Err e, s).
Proof.
  intros Hopen. unfold copyLib, bind, check. now rewrite Hopen.
Qed.

Lemma copyLib_opened (E : Env) (dir jniDir lib : string) (s s' : State) :
  copyLib E dir jniDir lib s = (Ok tt, s') ->
  openErr (Filepath.Join [dir; "lib" +:+ lib +:+ ".so"])
    (fs E (Filepath.Join [dir; "lib" +:+ lib +:+ ".so"])) = None.
Proof.
  unfold copyLib. intros H.
  apply bind_inv_Ok in H as ([] & s1 & Hopen & _).
  now apply check_inv_Ok in Hopen as [Hopen _].
Qed.

(** Peels the steps of a successful run until the loop over the
    architectures is the next one. *)
Ltac to_arch_loop H :=
  lazymatch type of H with
  | bind (forM_ (bindArch _ _ _ _ _ _ _) _) _ _ = _ => idtac
  | bind _ _ _ = _ => apply bind_inv_Ok in H as (? & ? & _ & H); to_arch_loop H
  end.

(** C10. The list of auxiliary libraries is the configuration string split
    at the commas, so for the empty string it is the list of one empty name;
    [goAndroidBind] then opens, for an architecture, the file [lib.so] of
    its library directory, and returns the error of [os.Open] when the file
    is not there; a run of [goAndroidBind] that succeeds has opened [lib.so]
    for every architecture. With no [lib.so] in the library directory of the
    one architecture the run fails with the error of that [open]. *)
Theorem empty_nativeLibs_needs_lib_so (E : Env) (pkgs : list Build.Package)
    (androidArchs : list string) (s : State) :
  nativeLibs (conf s) = "" ->
  Strings.Split (nativeLibs (conf s)) "," = [""]
  /\ (forall mainFile androidDir jpkgSrc paths androidArgs arch s1 e,
        goInstall E paths (envFunc E jpkgSrc arch) androidArgs = None ->
        goBuild E mainFile (envFunc E jpkgSrc arch)
          ["-buildmode=c-shared";
           "-o=" +:+ Filepath.Join [Filepath.Join [androidDir; "src/main/jniLibs";
                                                    toolchainAbi E arch];
                                    "libgojni.so"]] = None ->
        openErr (Filepath.Join [libDir E arch; "lib.so"])
          (fs E (Filepath.Join [libDir E arch; "lib.so"])) = Some e ->
        bindArch E mainFile androidDir jpkgSrc paths androidArgs
          {| Bind.Libs := Strings.Split (nativeLibs (conf s)) "," |} arch s1
        = (Err e, s1))
  /\ (forall s',
        goAndroidBind E pkgs androidArchs s = (Ok tt, s') ->
        forall arch, In arch androidArchs ->
          openErr (Filepath.Join [libDir E arch; "lib.so"])
            (fs E (Filepath.Join [libDir E arch; "lib.so"])) = None)
  /\ fst (goAndroidBind (Sample.disjoint Sample.never) [Sample.pkgA; Sample.pkgB] ["arm"]
            (Sample.start "out.aar" false))
     = Err (PathError "open" "/prebuilt/arm/lib.so" ENOENT).
Proof.
  intros Hlibs. rewrite Hlibs. split; [reflexivity |]. split; [| split].
  - intros mainFile androidDir jpkgSrc paths androidArgs arch s1 e Hinstall Hbuild Hopen.
    unfold bindArch, bind, check. rewrite Hinstall. unfold ret. cbv beta iota.
    rewrite Hbuild. cbv beta iota. cbn [forM_ Bind.Libs Strings.Split].
    unfold bind. now rewrite (copyLib_absent E _ _ "" s1 e Hopen).
  - intros s' Hrun arch Hin. unfold goAndroidBind in Hrun.
    destruct (String.eqb (Getenv E "ANDROID_HOME") ""); [discriminate |].
    apply bind_inv_Ok in Hrun as (s0 & s1 & Hget & Hrun).
    injection Hget as <- <-. rewrite Hlibs in Hrun.
    to_arch_loop Hrun.
    apply bind_inv_Ok in Hrun as ([] & sK & Hloop & _).
    destruct (forM_inv_Ok _ _ _ _ Hloop arch Hin) as (s2 & s3 & Harch).
    unfold bindArch in Harch.
    apply bind_inv_Ok in Harch as (? & ? & _ & Harch).
    apply bind_inv_Ok in Harch as (? & ? & _ & Harch).
    cbn [forM_ Bind.Libs Strings.Split] in Harch.
    apply bind_inv_Ok in Harch as ([] & s4 & Hcopy & _).
    now apply copyLib_opened in Hcopy.
  - vm_compute. reflexivity.
Qed.

Lemma empty_nativeLibs_needs_lib_so_witness :
  Strings.Split (nativeLibs (conf (Sample.start "out.aar" false))) "," = [""].
Proof.
  apply (empty_nativeLibs_needs_lib_so (Sample.disjoint Sample.never)
           [Sample.pkgA; Sample.pkgB] ["arm"] (Sample.start "out.aar" false)).
  reflexivity.
Defined.

(** ** More lemmas on strings *)

Lemma list_ascii_append (a b : string) :
  list_ascii_of_string (a +:+ b) = list_ascii_of_string a ++ list_ascii_of_string b.
Proof.
  induction a as [|c a IH]; [reflexivity |]. rewrite append_cons. simpl. now rewrite IH.
Qed.

Lemma string_of_app (l1 l2 : list ascii) :
  string_of_list_ascii (l1 ++ l2) = string_of_list_ascii l1 +:+ string_of_list_ascii l2.
Proof.
  induction l1 as [|c l1 IH]; [reflexivity |]. simpl. now rewrite append_cons, IH.
Qed.

Lemma rev_append (a b : string) :
  Strings.rev (a +:+ b) = Strings.rev b +:+ Strings.rev a.
Proof.
  unfold Strings.rev. now rewrite list_ascii_append, rev_app_distr, string_of_app.
Qed.

Lemma forallb_rev' {A} (f : A -> bool) (l : list A) :
  forallb f (List.rev l) = forallb f l.
Proof.
  induction l as [|x l IH]; [reflexivity |]. simpl.
  rewrite forallb_app, IH. simpl. rewrite andb_true_r. apply andb_comm.
Qed.

Lemma extScan_step (c : ascii) (r acc : string) :
  extByte c = true ->
  Filepath.extScan (String c r) acc = Filepath.extScan r (String c acc).
Proof.
  destruct c as [[] [] [] [] [] [] [] []]; intros H; try reflexivity; discriminate H.
Qed.

Lemma extScan_bytes (l : list ascii) (rest acc : string) :
  forallb extByte l = true ->
  Filepath.extScan (string_of_list_ascii l +:+ String "." rest) acc
  = String "." (string_of_list_ascii (List.rev l) +:+ acc).
Proof.
  revert acc. induction l as [|c l IH]; intros acc Hl; [reflexivity |].
  simpl in Hl. apply andb_true_iff in Hl as [Hc Hl].
  cbn [string_of_list_ascii]. rewrite append_cons, extScan_step by exact Hc.
  rewrite IH by exact Hl. cbn [List.rev].
  now rewrite string_of_app, append_assoc.
Qed.

(** The extension of a path that ends in a dot and bytes that are neither
    dots nor slashes is that dot and those bytes, whatever comes before. *)
Lemma Ext_append (base x : string) :
  extBytes x = true -> Filepath.Ext (base +:+ String "." x) = String "." x.
Proof.
  intros Hx. unfold Filepath.Ext. rewrite rev_append.
  change (String "." x) with ("." +:+ x) at 1. rewrite rev_append.
  change (Strings.rev ".") with ".". rewrite append_assoc.
  change ("." +:+ Strings.rev base) with (String "." (Strings.rev base)).
  unfold Strings.rev at 1. rewrite extScan_bytes.
  - rewrite rev_involutive, string_of_list_ascii_of_string. now rewrite append_nil_r.
  - unfold extBytes in Hx. now rewrite forallb_rev'.
Qed.

Lemma sliceTo_append (a b : string) :
  Strings.sliceTo (String.length a) (a +:+ b) = a.
Proof.
  unfold Strings.sliceTo. induction a as [|c a IH]; [now destruct b |].
  rewrite append_cons. simpl. now rewrite IH.
Qed.

(** A string that has a suffix is something followed by the suffix. *)
Lemma HasSuffix_inv (s suffix : string) :
  Strings.HasSuffix s suffix = true -> exists base, s = base +:+ suffix.
Proof.
  unfold Strings.HasSuffix. intros H. apply andb_true_iff in H as [Hlen Heq].
  apply Nat.leb_le in Hlen. apply String.eqb_eq in Heq.
  remember (String.length s - String.length suffix)%nat as n eqn:Hn.
  assert (Hm : String.length suffix = (String.length s - n)%nat) by lia.
  assert (Hle : (n <= String.length s)%nat) by lia.
  rewrite Hm in Heq. clear Hn Hm Hlen.
  exists (substring 0 n s). rewrite <- Heq. clear Heq.
  revert n Hle. induction s as [|c s IH]; intros n Hle.
  - simpl in Hle. assert (n = 0%nat) as -> by lia. reflexivity.
  - destruct n as [|n].
    + simpl. now rewrite substring_all.
    + simpl in Hle. cbn [substring String.length Nat.sub]. rewrite append_cons.
      f_equal. apply IH. lia.
Qed.

(** ** More on the platform resolver *)

Lemma pickPlatform_keeps (d : string) (l : list (string * node)) (best : string * Z) :
  (forall x m, In x l -> qualifying d x = Some m -> (m <= snd best)%Z) ->
  fold_left (pickPlatform d) l best = best.
Proof.
  revert best. induction l as [|x l IH]; intros best Hle; [reflexivity |].
  simpl. rewrite pickPlatform_qualifying.
  destruct (qualifying d x) as [m|] eqn:Hq.
  - assert (Hm : (m <= snd best)%Z) by (apply (Hle x); [now left | exact Hq]).
    apply Z.ltb_ge in Hm. rewrite Hm. apply IH.
    intros y k Hin. apply Hle. now right.
  - apply IH. intros y k Hin. apply Hle. now right.
Qed.

(** X1. Among the entries of the highest version that qualifies,
    [androidAPIPath] returns the directory of the one listed first: an entry
    replaces the one held only when its version is strictly higher. Two
    names can encode one version ([android-21] and [android-021]). *)
Theorem androidAPIPath_first_of_highest (E : Env) (l1 l2 : list (string * node))
    (fi : string * node) (n : Z) :
  let d := Filepath.Join [Getenv E "ANDROID_HOME"; "platforms"] in
  Getenv E "ANDROID_HOME" <> "" ->
  openErr d (fs E d) = None ->
  Readdir (fs E d) = Ok (l1 ++ fi :: l2) ->
  qualifying d fi = Some n ->
  (forall x m, In x l1 -> qualifying d x = Some m -> (m < n)%Z) ->
  (forall x m, In x l2 -> qualifying d x = Some m -> (m <= n)%Z) ->
  androidAPIPath E = Ok (Filepath.Join [d; fst fi]).
Proof.
  intros d Hsdk Hopen Hread Hq Hbefore Hafter.
  pose proof (qualifying_min _ _ _ Hq) as Hmin. unfold minAndroidAPI in Hmin.
  unfold androidAPIPath. apply String.eqb_neq in Hsdk. rewrite Hsdk.
  fold d. rewrite Hopen, Hread. cbv zeta.
  rewrite fold_left_app. cbn [fold_left].
  pose proof (bestOf_all d l1) as Hbest.
  destruct (fold_left (pickPlatform d) l1 ("", 0%Z)) as [p1 n1].
  assert (Hlt : (n1 < n)%Z).
  { destruct Hbest as [[[= _ ->] _]|(x & Hin & Hqx & _)]; [lia |].
    now apply (Hbefore x). }
  rewrite pickPlatform_qualifying, Hq. cbn [snd].
  apply Z.ltb_lt in Hlt. rewrite Hlt.
  rewrite pickPlatform_keeps by exact Hafter. cbn [fst snd].
  destruct (Z.eqb_spec n 0); [lia | reflexivity].
Qed.

Lemma androidAPIPath_first_of_highest_witness :
  androidAPIPath Sample.sdkTies = Ok "/sdk/platforms/android-021".
Proof.
  apply (androidAPIPath_first_of_highest Sample.sdkTies
           [Sample.platform "android-19"] [Sample.platform "android-21"]
           (Sample.platform "android-021") 21%Z).
  - discriminate.
  - reflexivity.
  - reflexivity.
  - reflexivity.
  - intros x m [<-|[]] [= <-]. lia.
  - intros x m [<-|[]] [= <-]. lia.
Defined.

(** ** The name of the sources archive *)

(** X2. [buildSrcJar] names its file after the output path: when the run is not
    dry and the output path is [base], a dot, and an extension without dot
    or slash, the file it makes is [base-sources.jar], beside the output;
    when [os.Create] refuses the file it returns that error and leaves the
    state as it was, and otherwise it is [writeJar] on that file and the
    Java sources of the Android project. *)
Theorem buildSrcJar_name (E : Env) (androidDir base x : string) (s : State) :
  buildN (conf s) = false ->
  buildO (conf s) = base +:+ String "." x ->
  extBytes x = true ->
  buildSrcJar E androidDir s =
  match createErr E (base +:+ "-sources.jar") with
  | Some e => (Err e, s, None)
  | None =>
      writeJar E (ToFile (base +:+ "-sources.jar"))
        (Filepath.Join [androidDir; "src/main/java"])
        (emit (Created (base +:+ "-sources.jar")) s)
  end.
Proof.
  intros Hwet Hout Hx. unfold buildSrcJar, before, bind, get. rewrite Hwet, Hout.
  rewrite (Ext_append base x Hx), length_append.
  replace (String.length base + String.length (String "." x) - String.length (String "." x))%nat
    with (String.length base) by lia.
  rewrite sliceTo_append. unfold Create, bind, check, modify.
  destruct (createErr E (base +:+ "-sources.jar")); reflexivity.
Qed.

Lemma buildSrcJar_name_witness :
  buildSrcJar Sample.twoIcons "/tmp/work/android" (Sample.start "out.aar" false) =
  writeJar Sample.twoIcons (ToFile "out-sources.jar") "/tmp/work/android/src/main/java"
    (emit (Created "out-sources.jar") (Sample.start "out.aar" false)).
Proof.
  apply (buildSrcJar_name Sample.twoIcons "/tmp/work/android" "out" "aar"
           (Sample.start "out.aar" false)); reflexivity.
Defined.

(** ** When the merge of the assets succeeds *)

Lemma place_snoc_taken (l : list Asset) (x y : Asset) (a : Aar) :
  List.NoDup (map entryName l) ->
  (forall z, In z l -> files a !! entryName z = None) ->
  In y l -> entryName y = entryName x ->
  fst (place (l ++ [x]) a) = Err (conflictError (owner x) (entryName x) (owner y)).
Proof.
  intros Hnodup Hfree Hin Hname. rewrite place_fresh by assumption.
  simpl. rewrite <- Hname, (addAll_owner l a y Hnodup Hin). reflexivity.
Qed.

Lemma place_snoc_free (l : list Asset) (x : Asset) (a : Aar) :
  List.NoDup (map entryName l) ->
  (forall z, In z (l ++ [x]) -> files a !! entryName z = None) ->
  ~ In (entryName x) (map entryName l) ->
  fst (place (l ++ [x]) a) = Ok tt.
Proof.
  intros Hnodup Hfree Hnew.
  rewrite place_fresh; [| exact Hnodup | intros z Hz; apply Hfree, in_or_app; now left].
  simpl. rewrite addAll_other by exact Hnew.
  rewrite Hfree by (apply in_or_app; right; now left). reflexivity.
Qed.

(** The one pass over assets whose names are all free at the start: the
    names differ and it succeeds, or it stops with the conflict at the first
    asset whose name an earlier asset has. *)
Lemma place_cases (l : list Asset) (a : Aar) :
  (forall z, In z l -> files a !! entryName z = None) ->
  (List.NoDup (map entryName l) /\ fst (place l a) = Ok tt)
  \/ (exists pre x post y,
        l = pre ++ x :: post /\ List.NoDup (map entryName pre) /\ In y pre
        /\ entryName y = entryName x
        /\ fst (place l a) = Err (conflictError (owner x) (entryName x) (owner y))).
Proof.
  induction l as [|x l IH] using rev_ind; intros Hfree.
  - left. split; [constructor | reflexivity].
  - destruct IH as [[Hnodup Hok]|(pre & x' & post & y & -> & Hnodup & Hin & Hname & Herr)].
    + intros z Hz. apply Hfree, in_or_app. now left.
    + destruct (in_dec string_dec (entryName x) (map entryName l)) as [Hold|Hnew].
      * right. apply in_map_iff in Hold as (y & Hname & Hin).
        exists l, x, [], y. repeat split; try assumption.
        apply place_snoc_taken; try assumption.
        intros z Hz. apply Hfree, in_or_app. now left.
      * left. split; [| now apply place_snoc_free].
        rewrite map_app. apply List.NoDup_app; [exact Hnodup | |].
        -- repeat constructor. intros [].
        -- intros name Hin [<-|[]]. exact (Hnew Hin).
    + right. exists pre, x', (post ++ [x]), y. repeat split; try assumption.
      * now rewrite <- app_assoc.
      * rewrite place_app. destruct (place (pre ++ x' :: post) a) as [[[]|e|why] a1];
          simpl in *; try discriminate; exact Herr.
Qed.

Lemma nodup_no_earlier (pre post : list Asset) (x y : Asset) :
  List.NoDup (map entryName (pre ++ x :: post)) ->
  In y pre -> entryName y = entryName x -> False.
Proof.
  rewrite map_app. simpl. intros Hnodup Hin Hname.
  apply List.NoDup_remove_2 in Hnodup. apply Hnodup, in_or_app. left.
  rewrite <- Hname. now apply in_map.
Qed.

(** X3. For packages whose assets are plain and can be read (nothing, a
    file, or a tree of files and directories that open and list, without
    symbolic links, at the path of the assets) and an archive writer that
    takes every entry and every write, the merge of the assets succeeds
    exactly when the names of the assets of all the packages differ from
    each other; when it does not succeed, its result is the conflict between
    the first asset whose name came before and the earlier asset of that
    name, and nothing else: no other error, no panic. *)
Theorem merge_succeeds_iff_names_differ (E : Env) (pkgs : list Build.Package) (a : Aar) :
  (forall pkg, In pkg pkgs -> healthy E pkg = true) ->
  (forall zw name, zipCreateErr E zw name = None) ->
  (forall zw data, zipWriteErr E zw data = None) ->
  (fst (mergeAssets E pkgs a) = Ok tt
   <-> List.NoDup (map entryName (allAssets E pkgs)))
  /\ (fst (mergeAssets E pkgs a) = Ok tt
      \/ exists pre x post y,
           allAssets E pkgs = pre ++ x :: post
           /\ List.NoDup (map entryName pre) /\ In y pre
           /\ entryName y = entryName x
           /\ fst (mergeAssets E pkgs a)
              = Err (conflictError (owner x) (entryName x) (owner y))).
Proof.
  intros Hhealthy Hcreate Hwrite.
  rewrite (mergeAssets_place E Hcreate Hwrite pkgs a Hhealthy).
  destruct (place_cases (allAssets E pkgs) (setFiles ∅ a))
    as [[Hnodup Hok]|(pre & x & post & y & Hl & Hnodup & Hin & Hname & Herr)].
  - intros z _. apply lookup_empty.
  - split; [tauto | now left].
  - split.
    + split.
      * rewrite Herr. discriminate.
      * intros Hall. rewrite Hl in Hall.
        destruct (nodup_no_earlier pre post x y Hall Hin Hname).
    + right. now exists pre, x, post, y.
Qed.

Lemma merge_succeeds_iff_names_differ_witness :
  fst (mergeAssets Sample.twoIcons [Sample.pkgA; Sample.pkgB] Sample.twoIconsHead)
  = Err (conflictError "example.com/b" "assets/icon.png" "example.com/a").
Proof.
  destruct (merge_succeeds_iff_names_differ Sample.twoIcons [Sample.pkgA; Sample.pkgB]
              Sample.twoIconsHead) as [_ [Hok|(pre & x & post & y & _ & _ & _ & _ & Herr)]].
  - intros pkg [<-|[<-|[]]]; reflexivity.
  - reflexivity.
  - reflexivity.
  - vm_compute in Hok. discriminate Hok.
  - vm_compute. reflexivity.
Defined.

(** ** An archive is closed exactly when its function succeeds *)

Section Closes.
Context {S : Type} (closed : S -> bool).

Lemma closesOnOk_bind {A} (m : M S A) (k : A -> M S unit) :
  stable closed eq m -> (forall x, closesOnOk closed (k x)) ->
  closesOnOk closed (bind m k).
Proof.
  intros Hm Hk s Hopen. specialize (Hm s). unfold stableAt in Hm. unfold bind.
  destruct (m s) as [[x|e|why] s1]; simpl in *.
  - apply Hk. congruence.
  - split; [discriminate | congruence].
  - split; [discriminate | congruence].
Qed.

End Closes.

Section ClosedAar.
Context (E : Env).

Lemma closed_aarwcreate (name : string) : stable aarClosed eq (aarwcreate E name).
Proof.
  intros a. unfold stableAt, aarwcreate, aarClosed.
  destruct (buildV (conf (ast a))); destruct (zipCreateErr E _ name); reflexivity.
Qed.

Lemma closed_aarWrite (data : string) : stable aarClosed eq (aarWrite E data).
Proof.
  intros a. unfold stableAt, aarWrite, aarClosed.
  destruct (zipWriteErr E (aarw a) data); reflexivity.
Qed.

Lemma closed_setFiles (m : gmap string string) : stable aarClosed eq (modify (setFiles m)).
Proof. intros a. reflexivity. Qed.

Lemma closed_inEntry (b : State -> Built) : stable aarClosed eq (inEntry b).
Proof.
  intros a. unfold stableAt, inEntry, aarClosed.
  destruct (b (ast a)) as [[r s] [jw|]]; reflexivity.
Qed.

#[local] Hint Extern 1 (stableAt _ _ (aarwcreate _ _) _) => apply closed_aarwcreate : stable.
#[local] Hint Extern 1 (stableAt _ _ (aarWrite _ _) _) => apply closed_aarWrite : stable.
#[local] Hint Extern 1 (stableAt _ _ (modify (setFiles _)) _) => apply closed_setFiles : stable.
#[local] Hint Extern 1 (stableAt _ _ (inEntry _) _) => apply closed_inEntry : stable.
#[local] Hint Extern 1 (stableAt _ _ (first _) _) => unfold first; stable_auto : stable.

Lemma closesOnOk_aarClose : closesOnOk aarClosed (aarClose E).
Proof.
  intros a Hopen. unfold aarClose, aarClosed in *.
  destruct (zipCloseErr E (aarw a)); simpl.
  - split; [discriminate | congruence].
  - split; reflexivity.
Qed.

Lemma closesOnOk_buildAARBody (androidDir : string) (pkgs : list Build.Package)
    (androidArchs : list string) :
  closesOnOk aarClosed (buildAARBody E androidDir pkgs androidArchs).
Proof.
  unfold buildAARBody, aarTail.
  apply closesOnOk_bind; [unfold aarHead; stable_auto | intros _].
  apply closesOnOk_bind;
    [unfold mergeAssets, mergePackage, assetWalkFn; stable_auto | intros _].
  apply closesOnOk_bind; [unfold addArch, addLib; stable_auto | intros _].
  apply closesOnOk_bind; [stable_auto | intros _].
  apply closesOnOk_bind; [stable_auto | intros _].
  apply closesOnOk_aarClose.
Qed.

End ClosedAar.

Section ClosedJar.
Context (E : Env).

Lemma closed_jarwcreate (name : string) : stable jarClosed eq (jarwcreate E name).
Proof.
  intros j. unfold stableAt, jarwcreate, jarClosed.
  destruct (buildV (conf (jst j))); destruct (zipCreateErr E _ name); reflexivity.
Qed.

Lemma closed_jarWrite (data : string) : stable jarClosed eq (jarWrite E data).
Proof.
  intros j. unfold stableAt, jarWrite, jarClosed.
  destruct (zipWriteErr E (jarw j) data); reflexivity.
Qed.

#[local] Hint Extern 1 (stableAt _ _ (jarwcreate _ _) _) => apply closed_jarwcreate : stable.
#[local] Hint Extern 1 (stableAt _ _ (jarWrite _ _) _) => apply closed_jarWrite : stable.

Lemma closesOnOk_writeJarBody (dir : string) : closesOnOk jarClosed (writeJarBody E dir).
Proof.
  unfold writeJarBody.
  apply closesOnOk_bind; [stable_auto | intros _].
  apply closesOnOk_bind; [stable_auto | intros _].
  apply closesOnOk_bind; [unfold writeJarWalkFn; stable_auto | intros _].
  intros j Hopen. unfold jarClose, jarClosed in *.
  destruct (zipCloseErr E (jarw j)); simpl.
  - split; [discriminate | congruence].
  - split; reflexivity.
Qed.

Lemma writeJar_closes (w : sink) (dir : string) (s : State) :
  fst (fst (writeJar E w dir s)) = Ok tt
  <-> buildN (conf s) = true
      \/ exists zw, snd (writeJar E w dir s) = Some zw /\ zclosed zw = true.
Proof.
  unfold writeJar. destruct (buildN (conf s)) eqn:Hn; simpl.
  - split; [now left | reflexivity].
  - pose proof (closesOnOk_writeJarBody dir {| jst := s; jarw := NewWriter w |} eq_refl)
      as Hbody.
    destruct (writeJarBody E dir _) as [r j]. simpl in *. unfold jarClosed in Hbody.
    split.
    + intros Hok. right. exists (jarw j). split; [reflexivity | now apply Hbody].
    + intros [Hdry|(zw & [= <-] & Hclosed)]; [discriminate | now apply Hbody].
Qed.

End ClosedJar.

(** X4. [buildAAR] succeeds exactly when it has made its archive writer and
    closed it: every error and every panic, before the writer exists or
    after, leaves no writer or a writer that was not closed, and a closed
    writer is never followed by an error. *)
Theorem buildAAR_closed_iff_ok (E : Env) (androidDir : string)
    (pkgs : list Build.Package) (androidArchs : list string) (s : State) :
  fst (fst (buildAAR E androidDir pkgs androidArchs s)) = Ok tt
  <-> exists zw, snd (buildAAR E androidDir pkgs androidArchs s) = Some zw
                 /\ zclosed zw = true.
Proof.
  unfold buildAAR, before.
  destruct (aarOutput E pkgs s) as [[out|e|why] s1]; simpl.
  - pose proof (closesOnOk_buildAARBody E androidDir pkgs androidArchs
                  {| ast := s1; aarw := NewWriter out; files := ∅ |} eq_refl) as Hbody.
    destruct (buildAARBody E androidDir pkgs androidArchs _) as [r a]. simpl in *.
    unfold aarClosed in Hbody. split.
    + intros Hok. exists (aarw a). split; [reflexivity | now apply Hbody].
    + intros (zw & [= <-] & Hclosed). now apply Hbody.
  - split; [discriminate | intros (zw & Hnone & _); discriminate].
  - split; [discriminate | intros (zw & Hnone & _); discriminate].
Qed.

(** X5. [writeJar] and [buildSrcJar] succeed exactly when the run is dry, in
    which case they make no archive writer, or they have made their writer
    and closed it. *)
Theorem jar_closed_iff_ok (E : Env) (w : sink) (dir androidDir : string) (s : State) :
  (fst (fst (writeJar E w dir s)) = Ok tt
   <-> buildN (conf s) = true
       \/ exists zw, snd (writeJar E w dir s) = Some zw /\ zclosed zw = true)
  /\ (fst (fst (buildSrcJar E androidDir s)) = Ok tt
      <-> buildN (conf s) = true
          \/ exists zw, snd (buildSrcJar E androidDir s) = Some zw /\ zclosed zw = true).
Proof.
  split; [apply writeJar_closes |].
  unfold buildSrcJar, before, bind, get.
  destruct (buildN (conf s)) eqn:Hn.
  - unfold ret. rewrite writeJar_closes. tauto.
  - unfold Create, bind, check, modify.
    destruct (createErr E _); simpl.
    + split; [discriminate | intros [Hdry|(zw & Hnone & _)]; discriminate].
    + rewrite writeJar_closes. simpl. rewrite Hn. tauto.
Qed.

(** ** The entries of the archive that buildAAR makes *)

Lemma map_fst_mapLast {A B} (f : A * B -> A * B) (l : list (A * B)) :
  (forall e, fst (f e) = fst e) -> map fst (mapLast f l) = map fst l.
Proof.
  intros Hf. induction l as [|x [|y l] IH]; [reflexivity | |].
  - simpl. now rewrite Hf.
  - change (mapLast f (x :: y :: l)) with (x :: mapLast f (y :: l)).
    cbn [map]. now rewrite IH.
Qed.

Lemma names_addEntry (name : string) (zw : zipWriter) :
  entryNames (addEntry name zw) = entryNames zw ++ [name].
Proof. unfold entryNames, addEntry. simpl. now rewrite map_app. Qed.

Lemma names_writeEntry (data : string) (zw : zipWriter) :
  entryNames (writeEntry data zw) = entryNames zw.
Proof. unfold entryNames, writeEntry. simpl. now apply map_fst_mapLast. Qed.

Lemma names_embed (inner : option zipWriter) (zw : zipWriter) :
  entryNames (embed inner zw) = entryNames zw.
Proof.
  destruct inner as [jw|]; [| reflexivity].
  unfold entryNames, embed. simpl. now apply map_fst_mapLast.
Qed.

#[local] Instance growsBy_preorder (P : string -> Prop) : PreOrder (growsBy P).
Proof.
  split.
  - intros names. exists []. split; [now rewrite app_nil_r | constructor].
  - intros a b c (m1 & -> & H1) (m2 & -> & H2). exists (m1 ++ m2).
    split; [now rewrite app_assoc | now apply Forall_app].
Qed.

Lemma growsBy_one (P : string -> Prop) (names : list string) (name : string) :
  P name -> growsBy P names (names ++ [name]).
Proof. intros H. exists [name]. split; [reflexivity | now repeat constructor]. Qed.

(** What a step that succeeded, or did not, has left of a view that it
    keeps. *)
Lemma kept {S V A} (view : S -> V) (m : M S A) (s s' : S) (r : result A) :
  stable view eq m -> m s = (r, s') -> view s' = view s.
Proof.
  intros Hm H. specialize (Hm s). unfold stableAt in Hm. now rewrite H in Hm.
Qed.

Section Names.
Context (E : Env) (P : string -> Prop).

Lemma names_aarwcreate (name : string) :
  P name -> stable aarNames (growsBy P) (aarwcreate E name).
Proof.
  intros HP a. unfold stableAt, aarwcreate, aarNames.
  destruct (buildV (conf (ast a))); destruct (zipCreateErr E _ name); simpl;
    try reflexivity; rewrite names_addEntry; now apply growsBy_one.
Qed.

Lemma names_aarWrite (data : string) : stable aarNames (growsBy P) (aarWrite E data).
Proof.
  intros a. unfold stableAt, aarWrite, aarNames.
  destruct (zipWriteErr E (aarw a) data); simpl; [reflexivity |].
  rewrite names_writeEntry. reflexivity.
Qed.

Lemma names_setFiles (m : gmap string string) :
  stable aarNames (growsBy P) (modify (setFiles m)).
Proof. intros a. unfold stableAt. simpl. reflexivity. Qed.

End Names.

Section Layout.
Context (E : Env).

Lemma aarwcreate_names (name : string) (a a' : Aar) :
  aarwcreate E name a = (Ok tt, a') -> aarNames a' = aarNames a ++ [name].
Proof.
  unfold aarwcreate, aarNames.
  destruct (buildV (conf (ast a))); destruct (zipCreateErr E _ name);
    intros [= <-]; simpl; apply names_addEntry.
Qed.

Lemma same_aarWrite (data : string) : stable aarNames eq (aarWrite E data).
Proof.
  intros a. unfold stableAt, aarWrite, aarNames.
  destruct (zipWriteErr E (aarw a) data); simpl; [reflexivity |].
  now rewrite names_writeEntry.
Qed.

Lemma same_inEntry (b : State -> Built) : stable aarNames eq (inEntry b).
Proof.
  intros a. unfold stableAt, inEntry, aarNames.
  destruct (b (ast a)) as [[r s] jar]. simpl. now rewrite names_embed.
Qed.

Lemma same_aarClose : stable aarNames eq (aarClose E).
Proof.
  intros a. unfold stableAt, aarClose, aarNames.
  destruct (zipCloseErr E (aarw a)); reflexivity.
Qed.

#[local] Hint Extern 1 (stableAt _ eq (aarWrite _ _) _) => apply same_aarWrite : stable.

Lemma aarHead_names (androidDir : string) (pkgs : list Build.Package) (a a' : Aar) :
  aarHead E androidDir pkgs a = (Ok tt, a') ->
  aarNames a' = aarNames a ++ ["AndroidManifest.xml"; "proguard.txt"; "classes.jar"].
Proof.
  unfold aarHead. intros H.
  apply bind_inv_Ok in H as ([] & a1 & H1 & H). apply aarwcreate_names in H1.
  apply bind_inv_Ok in H as (p & a2 & H2 & H).
  assert (a2 = a1) as -> by (destruct pkgs; [discriminate | now injection H2]).
  apply bind_inv_Ok in H as ([] & a3 & H3 & H).
  apply (kept aarNames) in H3; [| stable_auto].
  apply bind_inv_Ok in H as ([] & a4 & H4 & H). apply aarwcreate_names in H4.
  apply bind_inv_Ok in H as ([] & a5 & H5 & H).
  apply (kept aarNames) in H5; [| stable_auto].
  apply bind_inv_Ok in H as ([] & a6 & H6 & H). apply aarwcreate_names in H6.
  apply (kept aarNames) in H; [| apply same_inEntry].
  rewrite H, H6, H5, H4, H3, H1, <- !app_assoc. reflexivity.
Qed.

Lemma mergeAssets_names (pkgs : list Build.Package) :
  stable aarNames (growsBy isAsset) (mergeAssets E pkgs).
Proof.
  unfold mergeAssets, mergePackage, assetWalkFn.
  stable_auto; try apply names_setFiles; try apply names_aarWrite.
  apply names_aarwcreate. apply prefix_append.
Qed.

Lemma addLib_names (abi libDir : string) (f : string * node) (a a' : Aar) :
  addLib E abi libDir f a = (Ok tt, a') -> aarNames a' = aarNames a ++ [libEntry abi f].
Proof.
  unfold addLib. intros H.
  apply bind_inv_Ok in H as ([] & a1 & H1 & H). apply aarwcreate_names in H1.
  apply (kept aarNames) in H; [| stable_auto]. now rewrite H, H1.
Qed.

Lemma addLibs_names (abi libDir : string) (libs : list (string * node)) (a a' : Aar) :
  forM_ (addLib E abi libDir) libs a = (Ok tt, a') ->
  aarNames a' = aarNames a ++ map (libEntry abi) libs.
Proof.
  revert a. induction libs as [|f libs IH]; intros a H.
  - injection H as <-. now rewrite app_nil_r.
  - simpl in H. apply bind_inv_Ok in H as ([] & a1 & H1 & H).
    apply addLib_names in H1. apply IH in H. rewrite H, H1, <- app_assoc. reflexivity.
Qed.

Lemma addArch_names (androidDir arch : string) (a a' : Aar) :
  addArch E androidDir arch a = (Ok tt, a') ->
  aarNames a' = aarNames a ++ libEntries E androidDir arch
  /\ exists libs, ReadDir (jniLibs E androidDir arch) (fs E (jniLibs E androidDir arch))
                  = Ok libs.
Proof.
  unfold addArch, libEntries, jniLibs. intros H.
  apply bind_inv_Ok in H as (libs & a1 & H1 & H). unfold lift in H1.
  destruct (ReadDir _ _) as [libs'|e|why]; try discriminate.
  injection H1 as -> ->. apply addLibs_names in H. split; [exact H | now exists libs].
Qed.

Lemma addArchs_names (androidDir : string) (androidArchs : list string) (a a' : Aar) :
  forM_ (addArch E androidDir) androidArchs a = (Ok tt, a') ->
  aarNames a' = aarNames a ++ flat_map (libEntries E androidDir) androidArchs
  /\ forall arch, In arch androidArchs ->
       exists libs, ReadDir (jniLibs E androidDir arch) (fs E (jniLibs E androidDir arch))
                    = Ok libs.
Proof.
  revert a. induction androidArchs as [|arch archs IH]; intros a H.
  - injection H as <-. split; [now rewrite app_nil_r | intros arch []].
  - simpl in H. apply bind_inv_Ok in H as ([] & a1 & H1 & H).
    apply addArch_names in H1 as [H1 Hread]. apply IH in H as [H Hrest]. split.
    + rewrite H, H1, <- app_assoc. reflexivity.
    + intros arch' [<-|Hin]; [exact Hread | now apply Hrest].
Qed.

Lemma aarTail_names (androidDir : string) (androidArchs : list string) (a a' : Aar) :
  aarTail E androidDir androidArchs a = (Ok tt, a') ->
  aarNames a' = aarNames a ++ flat_map (libEntries E androidDir) androidArchs
                ++ ["R.txt"; "res/"]
  /\ forall arch, In arch androidArchs ->
       exists libs, ReadDir (jniLibs E androidDir arch) (fs E (jniLibs E androidDir arch))
                    = Ok libs.
Proof.
  unfold aarTail. intros H.
  apply bind_inv_Ok in H as ([] & a1 & H1 & H). apply addArchs_names in H1 as [H1 Hread].
  apply bind_inv_Ok in H as ([] & a2 & H2 & H). apply aarwcreate_names in H2.
  apply bind_inv_Ok in H as ([] & a3 & H3 & H). apply aarwcreate_names in H3.
  apply (kept aarNames) in H; [| apply same_aarClose].
  split; [| exact Hread]. rewrite H, H3, H2, H1, <- !app_assoc. reflexivity.
Qed.

End Layout.

Lemma place_all (l : list Asset) (a a' : Aar) :
  (forall z, In z l -> files a !! entryName z = None) ->
  place l a = (Ok tt, a') -> a' = addAll l a.
Proof.
  intros Hfree H.
  destruct (place_cases l a Hfree) as [[Hnodup _]|(pre & x & post & y & _ & _ & _ & _ & Herr)].
  - rewrite <- (app_nil_r l) in H. rewrite place_fresh in H by assumption.
    now injection H.
  - rewrite H in Herr. discriminate.
Qed.

Lemma addAll_names (l : list Asset) (a : Aar) :
  aarNames (addAll l a) = aarNames a ++ map entryName l.
Proof.
  unfold aarNames, entryNames. rewrite addAll_aarw. simpl.
  now rewrite map_app, map_map.
Qed.

(** X6. The archive of a [buildAAR] that succeeded has, in this order: the
    manifest, the rules, the classes; entries below [assets/]; for each
    architecture in turn, one entry [jni/<abi>/<file>] for each file of its
    library directory, which could be listed; and [R.txt] and [res/] at the
    end. For packages whose assets can be read and an archive writer that
    takes every entry, the entries below [assets/] are the assets of the
    packages, in the order of the packages and of the walk. *)
Theorem buildAAR_layout (E : Env) (androidDir : string) (pkgs : list Build.Package)
    (androidArchs : list string) (s : State) :
  fst (fst (buildAAR E androidDir pkgs androidArchs s)) = Ok tt ->
  exists zw assets,
    snd (buildAAR E androidDir pkgs androidArchs s) = Some zw
    /\ entryNames zw
       = ["AndroidManifest.xml"; "proguard.txt"; "classes.jar"]
         ++ assets ++ flat_map (libEntries E androidDir) androidArchs
         ++ ["R.txt"; "res/"]
    /\ Forall isAsset assets
    /\ (forall arch, In arch androidArchs ->
          exists libs,
            ReadDir (jniLibs E androidDir arch) (fs E (jniLibs E androidDir arch))
            = Ok libs)
    /\ ((forall pkg, In pkg pkgs -> healthy E pkg = true) ->
        (forall w name, zipCreateErr E w name = None) ->
        (forall w data, zipWriteErr E w data = None) ->
        assets = map entryName (allAssets E pkgs)).
Proof.
  unfold buildAAR, before.
  destruct (aarOutput E pkgs s) as [[out|e|why] s1]; [| discriminate | discriminate].
  set (a0 := {| ast := s1; aarw := NewWriter out; files := ∅ |}).
  destruct (buildAARBody E androidDir pkgs androidArchs a0) as [r a] eqn:Hbody.
  simpl. intros ->. unfold buildAARBody in Hbody.
  apply bind_inv_Ok in Hbody as ([] & a1 & Hhead & Hbody).
  apply bind_inv_Ok in Hbody as ([] & a2 & Hmerge & Htail).
  apply aarHead_names in Hhead. apply aarTail_names in Htail as [Htail Hread].
  pose proof (mergeAssets_names E pkgs a1) as Hgrows. unfold stableAt in Hgrows.
  rewrite Hmerge in Hgrows. destruct Hgrows as (assets & Hassets & Hall).
  simpl in Hassets. exists (aarw a), assets. split; [reflexivity |]. split; [| split; [| split]].
  - change (entryNames (aarw a)) with (aarNames a).
    rewrite Htail, Hassets, Hhead, <- !app_assoc. reflexivity.
  - exact Hall.
  - exact Hread.
  - intros Hhealthy Hcreate Hwrite.
    rewrite (mergeAssets_place E Hcreate Hwrite pkgs a1 Hhealthy) in Hmerge.
    apply place_all in Hmerge; [| intros z _; apply lookup_empty].
    rewrite Hmerge, addAll_names in Hassets.
    now apply app_inv_head in Hassets.
Qed.

Lemma buildAAR_layout_witness :
  exists zw,
    snd (buildAAR (Sample.disjoint Sample.never) "/tmp/work/android"
           [Sample.pkgA; Sample.pkgB] ["arm"] (Sample.start "out.aar" false)) = Some zw
    /\ entryNames zw
       = ["AndroidManifest.xml"; "proguard.txt"; "classes.jar";
          "assets/a.txt"; "assets/img/x.png"; "assets/b.txt";
          "jni/armeabi-v7a/libgojni.so"; "R.txt"; "res/"].
Proof.
  destruct (buildAAR_layout (Sample.disjoint Sample.never) "/tmp/work/android"
              [Sample.pkgA; Sample.pkgB] ["arm"] (Sample.start "out.aar" false))
    as (zw & assets & Hzw & Hnames & _ & _ & Hassets).
  - vm_compute. reflexivity.
  - exists zw. split; [exact Hzw |]. rewrite Hnames, Hassets.
    + vm_compute. reflexivity.
    + intros pkg [<-|[<-|[]]]; reflexivity.
    + reflexivity.
    + reflexivity.
Defined.

(** ** Empty lists of packages and of architectures *)

(** X7. [buildAAR] reads the first package for the default output name and for
    the manifest, so with no package it never succeeds: when the output
    path is not set it panics at once, with the state as it was and no
    archive writer; when the output path is accepted, the run is not dry and
    the file and the first entry can be made, it panics after it made the
    output file and the entry of the manifest, which stays empty. *)
Theorem buildAAR_no_packages (E : Env) (androidDir : string)
    (androidArchs : list string) (s : State) :
  fst (fst (buildAAR E androidDir [] androidArchs s)) <> Ok tt
  /\ (buildO (conf s) = "" ->
      buildAAR E androidDir [] androidArchs s = (Panic "index out of range", s, None))
  /\ (buildO (conf s) <> "" ->
      Strings.HasSuffix (buildO (conf s)) ".aar" = true ->
      buildN (conf s) = false ->
      createErr E (buildO (conf s)) = None ->
      zipCreateErr E (NewWriter (ToFile (buildO (conf s)))) "AndroidManifest.xml" = None ->
      exists s',
        buildAAR E androidDir [] androidArchs s
        = (Panic "index out of range", s',
           Some (addEntry "AndroidManifest.xml" (NewWriter (ToFile (buildO (conf s))))))
        /\ In (Created (buildO (conf s))) (trace s')).
Proof.
  split; [| split].
  - unfold buildAAR, before.
    destruct (aarOutput E [] s) as [[out|e|why] s1]; [| discriminate | discriminate].
    unfold buildAARBody, aarHead, bind at 1 2.
    destruct (aarwcreate E "AndroidManifest.xml" _) as [[[]|e|why] a1]; discriminate.
  - intros Hunset. unfold buildAAR, before, aarOutput, bind, get. now rewrite Hunset.
  - intros Hset Hsuffix Hwet Hcreate Hzip.
    unfold buildAAR, before. rewrite aarOutput_creates by assumption.
    unfold buildAARBody, aarHead, bind at 1 2. unfold aarwcreate.
    cbn [ast aarw conf emit].
    destruct (buildV (conf s)); cbn [aarEmit ast aarw]; rewrite Hzip;
      eexists; (split; [reflexivity |]); cbn [setAarw ast emit trace];
      first [ apply in_or_app; right; now left
            | apply in_or_app; left; apply in_or_app; right; now left ].
Qed.

(** X8. [goAndroidBind] reads the first architecture for the environment of
    [loadExportData], so with no architecture it never succeeds: once
    [ANDROID_HOME] is set and the source directory and the class wrappers
    are made, it panics, with the state as it was. *)
Theorem goAndroidBind_no_architectures (E : Env) (pkgs : list Build.Package) (s : State) :
  fst (goAndroidBind E pkgs [] s) <> Ok tt
  /\ (Getenv E "ANDROID_HOME" <> "" ->
      mkdir E (Filepath.Join [tmpdir (conf s); "gomobile_bind"]) = None ->
      GenClasses E pkgs (Filepath.Join [tmpdir (conf s); "gomobile_bind"])
        (Filepath.Join [tmpdir (conf s); "gen"]) = None ->
      goAndroidBind E pkgs [] s = (Panic "index out of range", s)).
Proof.
  unfold goAndroidBind. split.
  - destruct (String.eqb (Getenv E "ANDROID_HOME") ""); [discriminate |].
    unfold bind at 1, get at 1. unfold bind at 1.
    destruct (check (mkdir E _) s) as [[[]|e|why] s1]; [| discriminate | discriminate].
    unfold bind at 1.
    destruct (check (GenClasses E pkgs _ _) s1) as [[[]|e|why] s2];
      [| discriminate | discriminate].
    discriminate.
  - intros Hsdk Hmkdir Hgen. apply String.eqb_neq in Hsdk. rewrite Hsdk.
    unfold bind at 1, get at 1. unfold bind at 1. rewrite Hmkdir.
    unfold check at 1, ret at 1. unfold bind at 1. rewrite Hgen. reflexivity.
Qed.

(** ** The auxiliary libraries, in general *)

Lemma Split_commaFree (name : string) :
  commaFree name = true -> Strings.Split name "," = [name].
Proof.
  unfold commaFree. induction name as [|c name IH]; [reflexivity |].
  simpl. intros H. apply andb_true_iff in H as [Hc Hname].
  apply negb_true_iff in Hc. rewrite Hc, (IH Hname). reflexivity.
Qed.

Lemma Split_comma (name rest : string) :
  commaFree name = true ->
  Strings.Split (name +:+ String "," rest) "," = name :: Strings.Split rest ",".
Proof.
  unfold commaFree. induction name as [|c name IH]; [reflexivity |].
  intros H. cbn [list_ascii_of_string forallb] in H.
  apply andb_true_iff in H as [Hc Hname].
  apply negb_true_iff in Hc. rewrite append_cons. cbn [Strings.Split].
  rewrite Hc, (IH Hname). reflexivity.
Qed.

(** Names without commas, joined by commas, are split into the names. *)
Lemma Split_concat (names : list string) :
  names <> [] -> Forall (fun name => commaFree name = true) names ->
  Strings.Split (String.concat "," names) "," = names.
Proof.
  induction names as [|name [|name' names] IH]; intros Hne Hall.
  - now destruct Hne.
  - simpl. apply Split_commaFree. now inversion Hall.
  - inversion Hall as [|? ? Hname Hrest]; subst.
    change (String.concat "," (name :: name' :: names))
      with (name +:+ "," +:+ String.concat "," (name' :: names)).
    change ("," +:+ String.concat "," (name' :: names))
      with (String "," (String.concat "," (name' :: names))).
    rewrite Split_comma by exact Hname. f_equal. now apply IH.
Qed.

#[local] Instance traceGrows_frame : Frame traceGrows.
Proof.
  split.
  - split.
    + intros s. exists []. now rewrite app_nil_r.
    + intros a b c [t1 H1] [t2 H2]. exists (t1 ++ t2). now rewrite H2, H1, app_assoc.
  - intros s ev _. now exists [ev].
Qed.

#[local] Instance traceGrows_defaulting : Defaulting traceGrows.
Proof. intros s o _. exists []. simpl. now rewrite app_nil_r. Qed.

#[local] Instance traceGrows_loose : Loose traceGrows.
Proof. intros s ev. now exists [ev]. Qed.

Lemma traceGrows_In (s s' : State) (ev : event) :
  traceGrows s s' -> In ev (trace s) -> In ev (trace s').
Proof. intros [more ->] Hin. apply in_or_app. now left. Qed.

(** What a computation that keeps a relation has done between two
    states. *)
Lemma keptR {S A} (R : S -> S -> Prop) (m : M S A) (s s' : S) (r : result A) :
  stable id R m -> m s = (r, s') -> R s s'.
Proof.
  intros Hm H. specialize (Hm s). unfold stableAt, id in Hm. now rewrite H in Hm.
Qed.

(** A turn of a loop that succeeded, between the state the loop started in
    and the state it ended in. *)
Lemma forM_inv_between {S A} (R : S -> S -> Prop) `{!PreOrder R}
    (f : A -> M S unit) (l : list A) (s s' : S) :
  (forall x, stable id R (f x)) ->
  forM_ f l s = (Ok tt, s') ->
  forall x, In x l -> exists s1 s2, f x s1 = (Ok tt, s2) /\ R s s1 /\ R s2 s'.
Proof.
  intros Hf. revert s. induction l as [|y l IH]; intros s H x Hin; [destruct Hin |].
  simpl in H. apply bind_inv_Ok in H as ([] & s1 & Hy & Hrest).
  destruct Hin as [<-|Hin].
  - exists s, s1. split; [exact Hy |]. split; [reflexivity |].
    apply (keptR R (forM_ f l) s1 s' (Ok tt)); [| exact Hrest].
    now apply stable_forM_.
  - destruct (IH s1 Hrest x Hin) as (s2 & s3 & Hx & H12 & H3).
    exists s2, s3. split; [exact Hx |]. split; [| exact H3].
    transitivity s1; [| exact H12]. exact (keptR R (f y) s s1 (Ok tt) (Hf y) Hy).
Qed.

#[local] Hint Extern 1 (stableAt _ _ (modify (emit _)) _) => use stable_emit : stable.
#[local] Hint Extern 1 (stableAt _ _ (Create _ _) _) => use stable_CreateAny : stable.

Section Libraries.
Context (E : Env).

Lemma grows_copyLib (dir jniDir lib : string) :
  stable id traceGrows (copyLib E dir jniDir lib).
Proof. unfold copyLib. stable_auto. Qed.

Lemma grows_bindArch (mainFile androidDir jpkgSrc : string)
    (paths androidArgs : list string) (nativeMeta : Bind.NativeMeta) (arch : string) :
  stable id traceGrows
    (bindArch E mainFile androidDir jpkgSrc paths androidArgs nativeMeta arch).
Proof. unfold bindArch. stable_auto. apply grows_copyLib. Qed.

(** A copy of a library that succeeded has opened and read the library and
    made and written its copy. *)
Lemma copyLib_done (dir jniDir lib : string) (s s' : State) :
  copyLib E dir jniDir lib s = (Ok tt, s') ->
  let src := Filepath.Join [dir; "lib" +:+ lib +:+ ".so"] in
  let dst := Filepath.Join [jniDir; "lib" +:+ lib +:+ ".so"] in
  openErr src (fs E src) = None
  /\ exists data, readAll src (fs E src) = Ok data
                  /\ trace s' = trace s ++ [Created dst; Wrote dst data].
Proof.
  intros H src dst. unfold copyLib in H. fold src dst in H.
  apply bind_inv_Ok in H as ([] & s1 & Hopen & H).
  apply check_inv_Ok in Hopen as [Hopen ->]. split; [exact Hopen |].
  apply bind_inv_Ok in H as ([] & s2 & Hcreate & H).
  unfold Create in Hcreate. apply bind_inv_Ok in Hcreate as ([] & s3 & Hc & Hemit).
  apply check_inv_Ok in Hc as [_ ->]. injection Hemit as <-.
  apply bind_inv_Ok in H as (data & s4 & Hread & H).
  unfold lift in Hread. destruct (readAll src (fs E src)) as [data'|e|why]; try discriminate.
  injection Hread as -> <-. exists data. split; [reflexivity |].
  apply bind_inv_Ok in H as ([] & s5 & Hcopy & H).
  apply check_inv_Ok in Hcopy as [_ ->]. injection H as <-.
  simpl. now rewrite <- app_assoc.
Qed.

End Libraries.

(** The steps of [goAndroidBind] after the loop over the architectures take
    nothing back from the trace. *)
Ltac grows_tail :=
  stable_auto;
  [ apply stable_GenerateJavaSupport; try (apply _); intros ?; stable_auto
  | apply stable_built, stableB_buildAAR; apply _
  | apply stable_built, stableB_buildSrcJar; apply _ ].

(** X9. The list of auxiliary libraries is the configuration string split at
    the commas: when the string is names without commas joined by commas, a
    run of [goAndroidBind] that succeeds has, for every architecture and
    every name, opened and read [lib<name>.so] in the library directory of
    the architecture, and made and written its copy in the directory of the
    Android project for the libraries of that architecture. *)
Theorem auxiliary_libraries_copied (E : Env) (pkgs : list Build.Package)
    (androidArchs names : list string) (s s' : State) :
  nativeLibs (conf s) = String.concat "," names ->
  names <> [] ->
  Forall (fun name => commaFree name = true) names ->
  goAndroidBind E pkgs androidArchs s = (Ok tt, s') ->
  forall arch name, In arch androidArchs -> In name names ->
    let src := Filepath.Join [libDir E arch; "lib" +:+ name +:+ ".so"] in
    let dst := Filepath.Join [jniLibs E (Filepath.Join [tmpdir (conf s); "android"]) arch;
                              "lib" +:+ name +:+ ".so"] in
    openErr src (fs E src) = None
    /\ exists data, readAll src (fs E src) = Ok data
                    /\ In (Created dst) (trace s') /\ In (Wrote dst data) (trace s').
Proof.
  intros Hlibs Hne Hfree Hrun arch name Harch Hname src dst.
  unfold goAndroidBind in Hrun.
  destruct (String.eqb (Getenv E "ANDROID_HOME") ""); [discriminate |].
  apply bind_inv_Ok in Hrun as (s0 & s1 & Hget & Hrun).
  injection Hget as <- <-. rewrite Hlibs, (Split_concat names Hne Hfree) in Hrun.
  to_arch_loop Hrun.
  apply bind_inv_Ok in Hrun as ([] & sK & Hloop & Hrest).
  apply (keptR traceGrows) in Hrest; [| grows_tail].
  destruct (forM_inv_between traceGrows _ _ _ _ (grows_bindArch E _ _ _ _ _ _) Hloop
              arch Harch) as (s2 & s3 & Hturn & _ & H3).
  unfold bindArch in Hturn.
  apply bind_inv_Ok in Hturn as (? & ? & _ & Hturn).
  apply bind_inv_Ok in Hturn as (? & s4 & _ & Hturn).
  cbn [Bind.Libs] in Hturn.
  destruct (forM_inv_between traceGrows _ _ _ _ (grows_copyLib E _ _) Hturn
              name Hname) as (s5 & s6 & Hcopy & _ & H6).
  apply copyLib_done in Hcopy as (Hopen & data & Hread & Htrace).
  split; [exact Hopen |]. exists data. split; [exact Hread |].
  assert (Hgrows : traceGrows s6 s') by (etransitivity; [exact H6 |]; etransitivity; eassumption).
  split; apply (traceGrows_In s6 s' _ Hgrows); rewrite Htrace; apply in_or_app; right.
  - now left.
  - right. now left.
Qed.

Lemma auxiliary_libraries_copied_witness :
  In (Wrote "/tmp/work/android/src/main/jniLibs/armeabi-v7a/libbar.so" "BAR")
     (trace (snd (goAndroidBind Sample.twoLibs [Sample.pkgA; Sample.pkgB] ["arm"]
                    Sample.startLibs))).
Proof.
  destruct (auxiliary_libraries_copied Sample.twoLibs [Sample.pkgA; Sample.pkgB] ["arm"]
              ["foo"; "bar"] Sample.startLibs
              (snd (goAndroidBind Sample.twoLibs [Sample.pkgA; Sample.pkgB] ["arm"]
                      Sample.startLibs))
              eq_refl) with (arch := "arm") (name := "bar")
    as (_ & data & Hread & _ & Hwrote).
  - discriminate.
  - repeat constructor.
  - vm_compute. reflexivity.
  - now left.
  - right. now left.
  - vm_compute in Hread. injection Hread as <-. exact Hwrote.
Defined.

(** ** The Java support files *)

Lemma created_app (t1 t2 : list event) : created (t1 ++ t2) = created t1 ++ created t2.
Proof. unfold created. apply flat_map_app. Qed.

(** One turn of the loop of [GenerateJavaSupport] with the writer of
    [goAndroidBind]. *)
Lemma support_turn (E : Env) (meta : Bind.NativeMeta) (dir javaFile : string)
    (s : State) :
  (w <- fileWriter E (Filepath.Join [dir; javaFile]) ;;
   text <- lift (executeTemplate E javaFile (Bind.Libs meta)) ;;
   Bind.writeTo w text) s
  = match createErr E (Filepath.Join [dir; javaFile]) with
    | Some e => (Err e, s)
    | None =>
        match executeTemplate E javaFile (Bind.Libs meta) with
        | Ok text =>
            (Ok tt, emit (Wrote (Filepath.Join [dir; javaFile]) text)
                      (emit (Created (Filepath.Join [dir; javaFile])) s))
        | Err e => (Err e, emit (Created (Filepath.Join [dir; javaFile])) s)
        | Panic why => (Panic why, emit (Created (Filepath.Join [dir; javaFile])) s)
        end
    end.
Proof.
  unfold fileWriter, Create, bind, check, modify, lift, ret.
  destruct (createErr E _); [reflexivity |]. simpl.
  destruct (executeTemplate E javaFile (Bind.Libs meta)); reflexivity.
Qed.

(** A run of [GenerateJavaSupport] that succeeded, with a writer that makes
    files. *)
Lemma GenerateJavaSupport_ok (E : Env) (mobilePkgDir dir : string)
    (meta : Bind.NativeMeta) (s s' : State) :
  Bind.GenerateJavaSupport E mobilePkgDir meta dir (fileWriter E) s = (Ok tt, s') ->
  exists seqText jniText,
    executeTemplate E "Seq.java" (Bind.Libs meta) = Ok seqText
    /\ executeTemplate E "LoadJNI.java" (Bind.Libs meta) = Ok jniText
    /\ trace s' = trace s ++ [Created (Filepath.Join [dir; "Seq.java"]);
                              Wrote (Filepath.Join [dir; "Seq.java"]) seqText;
                              Created (Filepath.Join [dir; "LoadJNI.java"]);
                              Wrote (Filepath.Join [dir; "LoadJNI.java"]) jniText].
Proof.
  unfold Bind.GenerateJavaSupport. cbn [forM_]. intros H.
  apply bind_inv_Ok in H as ([] & s1 & Hparse & H).
  apply check_inv_Ok in Hparse as [_ ->].
  apply bind_inv_Ok in H as ([] & s2 & Hseq & H).
  apply bind_inv_Ok in H as ([] & s3 & Hjni & H). injection H as <-.
  rewrite support_turn in Hseq, Hjni.
  destruct (createErr E (Filepath.Join [dir; "Seq.java"])); [discriminate |].
  destruct (executeTemplate E "Seq.java" _) as [seqText|e|why]; try discriminate.
  injection Hseq as <-.
  destruct (createErr E (Filepath.Join [dir; "LoadJNI.java"])); [discriminate |].
  destruct (executeTemplate E "LoadJNI.java" _) as [jniText|e|why]; try discriminate.
  injection Hjni as <-.
  exists seqText, jniText. split; [reflexivity |]. split; [reflexivity |].
  simpl. now rewrite <- !app_assoc.
Qed.

(** X10. [GenerateJavaSupport] with a writer that makes files: the templates are
    parsed before any file is made, so when they do not parse the state is
    as it was; a run that succeeds has made and written [Seq.java], then
    made and written [LoadJNI.java], each with the text of its template, and
    nothing else; and each file is made before its template is run, so when
    the template of [Seq.java] fails, [Seq.java] is there and is the only
    file made. *)
Theorem GenerateJavaSupport_files (E : Env) (mobilePkgDir dir : string)
    (meta : Bind.NativeMeta) (s : State) :
  let seqFile := Filepath.Join [dir; "Seq.java"] in
  let jniFile := Filepath.Join [dir; "LoadJNI.java"] in
  let out := Bind.GenerateJavaSupport E mobilePkgDir meta dir (fileWriter E) s in
  (forall e, parseFiles E (supportTemplates mobilePkgDir) = Some e -> out = (Err e, s))
  /\ (forall s', out = (Ok tt, s') ->
        exists seqText jniText,
          executeTemplate E "Seq.java" (Bind.Libs meta) = Ok seqText
          /\ executeTemplate E "LoadJNI.java" (Bind.Libs meta) = Ok jniText
          /\ trace s' = trace s ++ [Created seqFile; Wrote seqFile seqText;
                                    Created jniFile; Wrote jniFile jniText])
  /\ (forall e,
        parseFiles E (supportTemplates mobilePkgDir) = None ->
        createErr E seqFile = None ->
        executeTemplate E "Seq.java" (Bind.Libs meta) = Err e ->
        fst out = Err e /\ created (trace (snd out)) = created (trace s) ++ [seqFile]).
Proof.
  intros seqFile jniFile out. subst out. unfold Bind.GenerateJavaSupport.
  fold (supportTemplates mobilePkgDir). cbn [forM_].
  split; [| split].
  - intros e Hparse. unfold bind at 1. now rewrite Hparse.
  - intros s' H. now apply (GenerateJavaSupport_ok E mobilePkgDir).
  - intros e Hparse Hcreate Hseq.
    rewrite (bind_Ok _ _ s tt s) by now rewrite Hparse.
    rewrite (bind_Err _ _ s e (emit (Created seqFile) s)).
    + split; [reflexivity |]. cbn [snd emit trace]. rewrite created_app. reflexivity.
    + rewrite support_turn. fold seqFile. now rewrite Hcreate, Hseq.
Qed.

(** ** The archive of classes comes after the compiler *)

Lemma javaSources_state (E : Env) (srcDir : string) (s s1 : State)
    (r : result (list string)) :
  javaSources E srcDir s = (r, s1) -> s1 = s.
Proof.
  unfold javaSources. destruct (buildN (conf s)); [now intros [= _ <-] |].
  destruct (Walk E srcDir (buildJarWalkFn srcDir) []) as [[a|e|why] l]; now intros [= _ <-].
Qed.

(** X11. [buildJar] writes its archive only after [javac] has run and succeeded:
    when [buildJar] succeeds, and whenever it has made an archive writer,
    the sources were collected, the boot class path was found, and [javac]
    was run in the source directory, with the output directory
    [javac-output] of the work directory, source and target 1.7, that boot
    class path, the class path of the configuration if there is one, and
    the sources; the command is in the trace, and it returned no error. *)
Theorem buildJar_after_javac (E : Env) (w : sink) (srcDir : string) (s s' : State)
    (r : result unit) (zw : option zipWriter) :
  buildJar E w srcDir s = (r, s', zw) ->
  r = Ok tt \/ zw <> None ->
  exists srcFiles bClspath,
    javaSources E srcDir s = (Ok srcFiles, s)
    /\ bootClasspath E = Ok bClspath
    /\ let argv := "javac" :: javacArgs (Filepath.Join [tmpdir (conf s); "javac-output"])
                                bClspath (bindClasspath (conf s)) srcFiles in
       runCmd E srcDir argv = None /\ In (RunCmd srcDir argv) (trace s').
Proof.
  unfold buildJar, before. intros H Hdone.
  destruct (bind (javaSources E srcDir) _ s) as [[dst|e|why] s1] eqn:Hpre.
  - apply bind_inv_Ok in Hpre as (srcFiles & s0 & Hsrc & Hpre).
    pose proof (javaSources_state _ _ _ _ _ Hsrc) as ->.
    apply bind_inv_Ok in Hpre as (s0 & s2 & Hget & Hpre). injection Hget as <- <-.
    apply bind_inv_Ok in Hpre as ([] & s2 & _ & Hpre).
    apply bind_inv_Ok in Hpre as (b & s3 & Hboot & Hpre).
    unfold lift in Hboot. destruct (bootClasspath E) as [b'|e|why]; try discriminate.
    injection Hboot as -> <-.
    apply bind_inv_Ok in Hpre as ([] & s3 & Hemit & Hpre). injection Hemit as <-.
    apply bind_inv_Ok in Hpre as ([] & s4 & Hrun & Hpre).
    apply check_inv_Ok in Hrun as [Hrun ->].
    apply bind_inv_Ok in Hpre as ([] & s5 & Hecho & Hpre). injection Hpre as _ <-.
    exists srcFiles, b. split; [exact Hsrc |]. split; [reflexivity |]. split; [exact Hrun |].
    assert (Hgrows : traceGrows (emit (RunCmd srcDir
                ("javac" :: javacArgs (Filepath.Join [tmpdir (conf s); "javac-output"])
                              b (bindClasspath (conf s)) srcFiles)) s2) s').
    { transitivity s5.
      - apply (keptR traceGrows) in Hecho; [exact Hecho |].
        destruct (buildX (conf s)); stable_auto.
      - pose proof (stableB_writeJar traceGrows E w dst s5) as Hjar.
        rewrite H in Hjar. exact Hjar. }
    apply (traceGrows_In _ _ _ Hgrows). simpl. apply in_or_app. right. now left.
  - injection H as <- _ <-. destruct Hdone as [Hok|Hzw]; [discriminate | now destruct Hzw].
  - injection H as <- _ <-. destruct Hdone as [Hok|Hzw]; [discriminate | now destruct Hzw].
Qed.

Lemma buildJar_after_javac_witness :
  In (RunCmd "/tmp/work/android/src/main/java"
        ["javac"; "-d"; "/tmp/work/javac-output"; "-source"; "1.7"; "-target"; "1.7";
         "-bootclasspath"; "/sdk/platforms/android-21/android.jar"; "go/Seq.java"])
     (trace (snd (fst (buildJar (Sample.disjoint Sample.never) (ToEntry "classes.jar")
                         "/tmp/work/android/src/main/java"
                         (Sample.start "out.aar" false))))).
Proof.
  destruct (buildJar_after_javac (Sample.disjoint Sample.never) (ToEntry "classes.jar")
              "/tmp/work/android/src/main/java" (Sample.start "out.aar" false)
              (snd (fst (buildJar (Sample.disjoint Sample.never) (ToEntry "classes.jar")
                           "/tmp/work/android/src/main/java"
                           (Sample.start "out.aar" false))))
              (Ok tt)
              (snd (buildJar (Sample.disjoint Sample.never) (ToEntry "classes.jar")
                      "/tmp/work/android/src/main/java" (Sample.start "out.aar" false))))
    as (srcFiles & b & Hsrc & Hboot & _ & Hin).
  - vm_compute. reflexivity.
  - now left.
  - vm_compute in Hsrc. injection Hsrc as <-.
    vm_compute in Hboot. injection Hboot as <-. exact Hin.
Defined.

(** ** What a run of goAndroidBind that succeeds has made *)

#[local] Instance sameConfig_loose : Loose sameConfig.
Proof. intros s ev. reflexivity. Qed.

(** What [buildAAR] has settled when the archive writer is made. *)
Lemma aarOutput_ok (E : Env) (pkgs : list Build.Package) (s s1 : State) (out : sink) :
  aarOutput E pkgs s = (Ok out, s1) ->
  Strings.HasSuffix (buildO (conf s1)) ".aar" = true
  /\ buildN (conf s1) = buildN (conf s)
  /\ (buildN (conf s) = false -> In (Created (buildO (conf s1))) (trace s1))
  /\ (buildO (conf s) = "" ->
      exists p rest, pkgs = p :: rest /\ buildO (conf s1) = Build.Name p +:+ ".aar").
Proof.
  unfold aarOutput. intros H.
  apply bind_inv_Ok in H as (s0 & s2 & Hget & H). injection Hget as <- <-.
  apply bind_inv_Ok in H as ([] & s2 & Hdefault & H).
  apply bind_inv_Ok in H as (s0 & s3 & Hget & H). injection Hget as <- <-.
  assert (Hn : buildN (conf s2) = buildN (conf s)
               /\ trace s2 = trace s
               /\ (buildO (conf s) = "" ->
                   exists p rest, pkgs = p :: rest
                                  /\ buildO (conf s2) = Build.Name p +:+ ".aar")).
  { destruct (String.eqb_spec (buildO (conf s)) "") as [Hunset|Hset].
    - destruct pkgs as [|p rest]; [discriminate |].
      injection Hdefault as <-. repeat split. intros _. now exists p, rest.
    - injection Hdefault as <-. repeat split. intros Hunset. now destruct Hset. }
  destruct Hn as (Hn & Ht & Hdef).
  destruct (Strings.HasSuffix (buildO (conf s2)) ".aar") eqn:Hsuffix; [| discriminate].
  simpl in H. destruct (buildN (conf s2)) eqn:Hdry.
  - injection H as _ <-. rewrite Hsuffix, Hdry, <- Hn. repeat split; try assumption.
    intros Hwet. congruence.
  - apply bind_inv_Ok in H as ([] & s4 & Hcreate & H). injection H as _ <-.
    unfold Create in Hcreate. apply bind_inv_Ok in Hcreate as ([] & s5 & Hc & Hemit).
    apply check_inv_Ok in Hc as [_ ->]. injection Hemit as <-.
    cbn [emit conf trace]. rewrite Hsuffix, Hdry, <- Hn. repeat split; try assumption.
    intros _. apply in_or_app. right. now left.
Qed.

Lemma stable_buildAARBody (R : State -> State -> Prop) `{!Frame R} (E : Env)
    (androidDir : string) (pkgs : list Build.Package) (androidArchs : list string) :
  stable ast R (buildAARBody E androidDir pkgs androidArchs).
Proof.
  use stable_bind; [now apply stable_aarHead | intros _].
  use stable_bind; [now apply stable_mergeAssets | intros _; now apply stable_aarTail].
Qed.

(** What a [buildAAR] that succeeded leaves: an output path that ends in
    [.aar], and, unless the run is dry, the file of that path. *)
Lemma buildAAR_ok_output (E : Env) (androidDir : string) (pkgs : list Build.Package)
    (androidArchs : list string) (s s' : State) (zw : option zipWriter) :
  buildAAR E androidDir pkgs androidArchs s = (Ok tt, s', zw) ->
  Strings.HasSuffix (buildO (conf s')) ".aar" = true
  /\ buildN (conf s') = buildN (conf s)
  /\ (buildN (conf s) = false -> In (Created (buildO (conf s'))) (trace s'))
  /\ (buildO (conf s) = "" ->
      exists p rest, pkgs = p :: rest /\ buildO (conf s') = Build.Name p +:+ ".aar").
Proof.
  unfold buildAAR, before.
  destruct (aarOutput E pkgs s) as [[out|e|why] s1] eqn:Hout; [| discriminate | discriminate].
  apply aarOutput_ok in Hout as (Hsuffix & Hn & Hmade & Hdef).
  set (a0 := {| ast := s1; aarw := NewWriter out; files := ∅ |}).
  pose proof (stable_buildAARBody sameConfig E androidDir pkgs androidArchs a0) as Hconf.
  pose proof (stable_buildAARBody traceGrows E androidDir pkgs androidArchs a0) as Hgrows.
  unfold stableAt, sameConfig in Hconf, Hgrows.
  destruct (buildAARBody E androidDir pkgs androidArchs a0) as [r a].
  simpl in Hconf, Hgrows. intros [= _ <- _]. rewrite Hconf.
  repeat split; try assumption.
  intros Hwet. apply (traceGrows_In s1 (ast a) _ Hgrows). now apply Hmade.
Qed.

(** [buildSrcJar] on an output path that ends in [.aar], in a run that is
    not dry. *)
Lemma buildSrcJar_aar (E : Env) (androidDir base : string) (s : State) :
  buildN (conf s) = false ->
  buildO (conf s) = base +:+ ".aar" ->
  buildSrcJar E androidDir s =
  match createErr E (base +:+ "-sources.jar") with
  | Some e => (Err e, s, None)
  | None =>
      writeJar E (ToFile (base +:+ "-sources.jar"))
        (Filepath.Join [androidDir; "src/main/java"])
        (emit (Created (base +:+ "-sources.jar")) s)
  end.
Proof.
  intros Hwet Hout. unfold buildSrcJar, before, bind, get. rewrite Hwet, Hout.
  rewrite (Ext_append base "aar" eq_refl), length_append.
  replace (String.length base + String.length ".aar" - String.length ".aar")%nat
    with (String.length base) by lia.
  rewrite sliceTo_append. unfold Create, bind, check, modify.
  destruct (createErr E (base +:+ "-sources.jar")); reflexivity.
Qed.

Lemma keptB (R : State -> State -> Prop) (b : State -> Built) (s s' : State)
    (r : result unit) (zw : option zipWriter) :
  stableB R b -> b s = (r, s', zw) -> R s s'.
Proof. intros Hb H. specialize (Hb s). now rewrite H in Hb. Qed.

Lemma built_inv (b : State -> Built) (s s' : State) (r : result unit) :
  built b s = (r, s') -> exists zw, b s = (r, s', zw).
Proof.
  unfold built. destruct (b s) as [[r' s1] zw]. simpl. intros [= <- <-]. now exists zw.
Qed.

#[local] Hint Extern 1 (stableAt _ _ (index _ _) _) => unfold index; stable_auto : stable.
#[local] Hint Extern 1 (stableAt _ _ (bindArch _ _ _ _ _ _ _ _) _) =>
  unfold bindArch, copyLib; stable_auto : stable.

(** Peels the steps of a successful run that come before the Java support
    files, and keeps track of the configuration, which they leave as it
    was. *)
Ltac to_support H Hconf :=
  lazymatch type of H with
  | bind (Bind.GenerateJavaSupport _ _ _ _ _) _ _ = _ => idtac
  | bind _ _ _ = _ =>
      let Hstep := fresh "Hstep" in
      apply bind_inv_Ok in H as (? & ? & Hstep & H);
      apply (keptR sameConfig) in Hstep; [| solve [stable_auto]];
      unfold sameConfig in Hstep; apply (fun Hs => eq_trans Hs Hconf) in Hstep;
      clear Hconf; rename Hstep into Hconf;
      to_support H Hconf
  end.

(** X12. A run of [goAndroidBind] that succeeds leaves an output path that ends
    in [.aar]: the one of the configuration when that is set, and otherwise
    the name of the first package followed by [.aar]. Dry or not, it has
    made the two Java support files in the directory [go] of the Java
    sources of the Android project: the writer it hands to
    [GenerateJavaSupport] does not look at the flag. When the run is not
    dry it has made the archive at the output path and the archive of
    sources beside it, named as the output path with [-sources.jar] in the
    place of [.aar]. *)
Theorem goAndroidBind_outputs (E : Env) (pkgs : list Build.Package)
    (androidArchs : list string) (s s' : State) :
  goAndroidBind E pkgs androidArchs s = (Ok tt, s') ->
  let javaDir := Filepath.Join [Filepath.Join [tmpdir (conf s); "android"];
                                "src/main/java/go"] in
  exists base,
    buildO (conf s') = base +:+ ".aar"
    /\ (buildO (conf s) <> "" -> buildO (conf s') = buildO (conf s))
    /\ (buildO (conf s) = "" -> exists p rest, pkgs = p :: rest /\ base = Build.Name p)
    /\ In (Created (Filepath.Join [javaDir; "Seq.java"])) (trace s')
    /\ In (Created (Filepath.Join [javaDir; "LoadJNI.java"])) (trace s')
    /\ (buildN (conf s) = false ->
        In (Created (base +:+ ".aar")) (trace s')
        /\ In (Created (base +:+ "-sources.jar")) (trace s')).
Proof.
  intros Hrun javaDir.
  pose proof (keptR keepsConfig _ _ _ _ (stable_goAndroidBind keepsConfig E pkgs androidArchs)
                Hrun) as (_ & _ & _ & _ & _ & _ & Hkeep).
  unfold goAndroidBind in Hrun.
  destruct (String.eqb (Getenv E "ANDROID_HOME") ""); [discriminate |].
  apply bind_inv_Ok in Hrun as (s0 & s1 & Hget & Hrun). injection Hget as <- <-.
  assert (Hconf : conf s = conf s) by reflexivity.
  to_support Hrun Hconf.
  fold javaDir in Hrun.
  apply bind_inv_Ok in Hrun as ([] & sA & Hsupport & Hrun).
  apply bind_inv_Ok in Hrun as ([] & sB & Haar & Hsrc).
  change (fun fpath => Create E fpath ;;; ret (ToFile fpath)) with (fileWriter E) in Hsupport.
  pose proof Hsupport as HconfA.
  apply (keptR sameConfig) in HconfA;
    [| apply stable_GenerateJavaSupport; try (apply _); intros fpath;
       unfold fileWriter; stable_auto].
  unfold sameConfig in HconfA. rewrite Hconf in HconfA.
  apply GenerateJavaSupport_ok in Hsupport as (seqText & jniText & _ & _ & Hfiles).
  apply built_inv in Haar as (zw & Haar). apply built_inv in Hsrc as (zw' & Hsrc).
  pose proof (keptB traceGrows _ _ _ _ _ (stableB_buildAAR traceGrows E _ _ _) Haar)
    as HgrowsB.
  apply buildAAR_ok_output in Haar as (Hsuffix & Hn & Hmade & Hdefault).
  rewrite HconfA in Hn, Hmade, Hdefault.
  pose proof (keptB sameConfig _ _ _ _ _ (stableB_buildSrcJar sameConfig E _) Hsrc)
    as HconfS.
  pose proof (keptB traceGrows _ _ _ _ _ (stableB_buildSrcJar traceGrows E _) Hsrc)
    as HgrowsS.
  unfold sameConfig in HconfS.
  assert (Hbase : exists base,
             buildO (conf sB) = base +:+ ".aar"
             /\ (buildO (conf s) = "" -> exists p rest, pkgs = p :: rest /\ base = Build.Name p)).
  { destruct (String.eqb_spec (buildO (conf s)) "") as [Hunset|Hset].
    - destruct (Hdefault Hunset) as (p & rest & -> & Hname).
      exists (Build.Name p). split; [exact Hname |]. intros _. now exists p, rest.
    - destruct (HasSuffix_inv _ _ Hsuffix) as [base Hbase].
      exists base. split; [exact Hbase |]. intros Hunset. now destruct Hset. }
  destruct Hbase as (base & Hbase & Hfirst).
  exists base. split; [now rewrite HconfS |]. split; [exact Hkeep |].
  split; [exact Hfirst |]. split; [| split].
  - apply (traceGrows_In sB s' _ HgrowsS), (traceGrows_In sA sB _ HgrowsB).
    rewrite Hfiles. apply in_or_app. right. now left.
  - apply (traceGrows_In sB s' _ HgrowsS), (traceGrows_In sA sB _ HgrowsB).
    rewrite Hfiles. apply in_or_app. right. right. right. now left.
  - intros Hwet. rewrite Hwet in Hn. specialize (Hmade Hwet). split.
    + apply (traceGrows_In sB s' _ HgrowsS). now rewrite <- Hbase.
    + rewrite (buildSrcJar_aar E _ base sB Hn Hbase) in Hsrc.
      destruct (createErr E (base +:+ "-sources.jar")); [discriminate |].
      pose proof (keptB traceGrows _ _ _ _ _ (stableB_writeJar traceGrows E _ _) Hsrc)
        as HgrowsJ.
      apply (traceGrows_In _ s' _ HgrowsJ). simpl. apply in_or_app. right. now left.
Qed.

Lemma goAndroidBind_outputs_witness :
  exists base,
    buildO (conf (snd (goAndroidBind Sample.twoLibs [Sample.pkgA; Sample.pkgB] ["arm"]
                         Sample.startLibs))) = base +:+ ".aar"
    /\ In (Created (base +:+ "-sources.jar"))
          (trace (snd (goAndroidBind Sample.twoLibs [Sample.pkgA; Sample.pkgB] ["arm"]
                         Sample.startLibs))).
Proof.
  destruct (goAndroidBind_outputs Sample.twoLibs [Sample.pkgA; Sample.pkgB] ["arm"]
              Sample.startLibs
              (snd (goAndroidBind Sample.twoLibs [Sample.pkgA; Sample.pkgB] ["arm"]
                      Sample.startLibs)))
    as (base & Hout & _ & _ & _ & _ & Hwet).
  - vm_compute. reflexivity.
  - exists base. split; [exact Hout | now apply Hwet].
Defined.

(** ** What the archive of buildAAR holds *)

Section Contents.
Context (E : Env).
Hypothesis Hcreate : forall zw name, zipCreateErr E zw name = None.
Hypothesis Hwrite : forall zw data, zipWriteErr E zw data = None.

Lemma aarwcreate_run (name : string) (a a' : Aar) :
  aarwcreate E name a = (Ok tt, a') ->
  zentries (aarw a') = zentries (aarw a) ++ [(name, Bytes "")]
  /\ conf (ast a') = conf (ast a).
Proof.
  unfold aarwcreate.
  destruct (buildV (conf (ast a))); destruct (zipCreateErr E _ name);
    intros [= <-]; split; reflexivity.
Qed.

Lemma written (name data : string) (es : list (string * content)) (zw : zipWriter) :
  zentries zw = es ++ [(name, Bytes "")] ->
  zentries (writeEntry data zw) = es ++ [(name, Bytes data)].
Proof. intros H. unfold writeEntry. simpl. now rewrite H, mapLast_snoc. Qed.

Lemma aarWrite_run (data : string) (a a' : Aar) :
  aarWrite E data a = (Ok tt, a') ->
  zentries (aarw a') = zentries (writeEntry data (aarw a)) /\ ast a' = ast a.
Proof.
  unfold aarWrite. destruct (zipWriteErr E (aarw a) data); intros [= <-].
  split; reflexivity.
Qed.

(** An entry is made and bytes are written into it. *)
Lemma entry_with (name data : string) (a a1 a2 : Aar) :
  aarwcreate E name a = (Ok tt, a1) ->
  ignoreErr (aarWrite E data) a1 = (Ok tt, a2) ->
  zentries (aarw a2) = zentries (aarw a) ++ [(name, Bytes data)]
  /\ conf (ast a2) = conf (ast a).
Proof using Hwrite.
  intros H1 H2. apply aarwcreate_run in H1 as [Hes Hconf].
  unfold ignoreErr, attempt, bind, aarWrite, ret in H2. rewrite Hwrite in H2.
  injection H2 as <-. cbn [setAarw aarw ast]. split; [| exact Hconf].
  now apply written.
Qed.

Hypothesis Hclose : forall zw, zipCloseErr E zw = None.

(** The archive of classes that [buildJar] makes in a run that is not dry,
    from an output directory of the compiler that can be read. *)
Lemma buildJar_classes (w : sink) (srcDir : string) (classes : list (string * node))
    (s s' : State) (jar : option zipWriter) :
  buildN (conf s) = false ->
  fs E (Filepath.Join [tmpdir (conf s); "javac-output"]) = Dir classes ->
  readable (Dir classes) = true ->
  buildJar E w srcDir s = (Ok tt, s', jar) ->
  jar = Some {| zout := w; zentries := classEntries E classes; zclosed := true |}
  /\ conf s' = conf s.
Proof using Hcreate Hwrite Hclose.
  intros Hwet Hdir Hread H.
  pose proof (keptB sameConfig _ _ _ _ _ (stableB_buildJar sameConfig E w srcDir) H) as Hconf.
  split; [| exact Hconf]. unfold buildJar, before in H.
  destruct (bind (javaSources E srcDir) _ s) as [[dst|e|why] s1] eqn:Hpre;
    [| discriminate | discriminate].
  assert (Hconf1 : conf s1 = conf s).
  { apply (keptR sameConfig) in Hpre; [exact Hpre |].
    use stable_bind; [use stable_javaSources | intros srcFiles].
    unfold MkdirAll. stable_auto. }
  apply bind_inv_Ok in Hpre as (srcFiles & s0 & Hsrc & Hpre).
  pose proof (javaSources_state _ _ _ _ _ Hsrc) as ->.
  apply bind_inv_Ok in Hpre as (s0 & s2 & Hget & Hpre). injection Hget as <- <-.
  apply bind_inv_Ok in Hpre as ([] & s2 & _ & Hpre).
  apply bind_inv_Ok in Hpre as (b & s3 & _ & Hpre).
  apply bind_inv_Ok in Hpre as ([] & s4 & _ & Hpre).
  apply bind_inv_Ok in Hpre as ([] & s5 & _ & Hpre).
  apply bind_inv_Ok in Hpre as ([] & s6 & _ & Hpre). injection Hpre as Hdst _.
  change (Filepath.Join [tmpdir (conf s); "javac-output"] = dst) in Hdst. subst dst.
  unfold writeJar in H. rewrite Hconf1, Hwet in H.
  destruct (writeJarBody_entries E _ Hcreate Hwrite Hclose classes
              {| jst := s1; jarw := NewWriter w |} Hdir Hread) as [s2' Hrun].
  rewrite Hrun in H. injection H as _ <-. reflexivity.
Qed.

End Contents.

Section Archive.
Context (E : Env).
Hypothesis Hcreate : forall zw name, zipCreateErr E zw name = None.
Hypothesis Hwrite : forall zw data, zipWriteErr E zw data = None.
Hypothesis Hclose : forall zw, zipCloseErr E zw = None.

Lemma embed_classes (jw zw : zipWriter) (es : list (string * content)) :
  zentries zw = es ++ [("classes.jar", Bytes "")] ->
  zentries (embed (Some jw) zw) = es ++ [("classes.jar", Zip (zentries jw))].
Proof. intros H. unfold embed. simpl. now rewrite H, mapLast_snoc. Qed.

Lemma aarHead_contents (androidDir : string) (pkgs : list Build.Package)
    (classes : list (string * node)) (a a' : Aar) :
  buildN (conf (ast a)) = false ->
  fs E (Filepath.Join [tmpdir (conf (ast a)); "javac-output"]) = Dir classes ->
  readable (Dir classes) = true ->
  aarHead E androidDir pkgs a = (Ok tt, a') ->
  exists p rest,
    pkgs = p :: rest
    /\ zentries (aarw a')
       = zentries (aarw a)
         ++ [("AndroidManifest.xml", Bytes (manifest E (Build.Name p)));
             ("proguard.txt", Bytes ("-keep class go.** { *; }" +:+ nl));
             ("classes.jar", Zip (classEntries E classes))]
    /\ conf (ast a') = conf (ast a).
Proof using Hcreate Hwrite Hclose.
  intros Hwet Hdir Hread H. unfold aarHead in H.
  apply bind_inv_Ok in H as ([] & a1 & H1 & H).
  apply bind_inv_Ok in H as (p & a2 & H2 & H).
  destruct pkgs as [|p' rest]; [discriminate |]. injection H2 as -> ->.
  apply bind_inv_Ok in H as ([] & a3 & H3 & H).
  destruct (entry_with E Hwrite _ _ _ _ _ H1 H3) as [Hes3 Hconf3].
  apply bind_inv_Ok in H as ([] & a4 & H4 & H).
  apply bind_inv_Ok in H as ([] & a5 & H5 & H).
  destruct (entry_with E Hwrite _ _ _ _ _ H4 H5) as [Hes5 Hconf5].
  apply bind_inv_Ok in H as ([] & a6 & H6 & H).
  apply aarwcreate_run in H6 as [Hes6 Hconf6].
  assert (Hconf : conf (ast a6) = conf (ast a)) by congruence.
  unfold inEntry in H.
  destruct (buildJar E (ToEntry "classes.jar") _ (ast a6)) as [[r s2] jar] eqn:Hjar.
  injection H as -> <-.
  apply (buildJar_classes E Hcreate Hwrite Hclose _ _ classes) in Hjar as [-> Hconf2];
    [| congruence | now rewrite Hconf | exact Hread].
  exists p, rest. split; [reflexivity |]. cbn [aarw ast]. split; [| congruence].
  rewrite (embed_classes _ _ _ Hes6). cbn [zentries].
  rewrite Hes5, Hes3, <- !app_assoc. reflexivity.
Qed.

Lemma mergeAssets_contents (pkgs : list Build.Package) (a a' : Aar) :
  (forall pkg, In pkg pkgs -> healthy E pkg = true) ->
  mergeAssets E pkgs a = (Ok tt, a') ->
  zentries (aarw a') = zentries (aarw a) ++ map assetEntry (allAssets E pkgs).
Proof using Hcreate Hwrite.
  intros Hhealthy H. rewrite (mergeAssets_place E Hcreate Hwrite pkgs a Hhealthy) in H.
  apply place_all in H; [| intros z _; apply lookup_empty].
  rewrite H, addAll_aarw. reflexivity.
Qed.

Lemma addLib_contents (abi libDir : string) (f : string * node) (a a' : Aar) :
  buildN (conf (ast a)) = false ->
  addLib E abi libDir f a = (Ok tt, a') ->
  zentries (aarw a') = zentries (aarw a) ++ [libContent libDir abi f]
  /\ conf (ast a') = conf (ast a).
Proof.
  intros Hwet H. unfold addLib in H.
  apply bind_inv_Ok in H as ([] & a1 & H1 & H). apply aarwcreate_run in H1 as [Hes Hconf].
  apply bind_inv_Ok in H as (a0 & a2 & Hget & H). injection Hget as <- <-.
  rewrite Hconf, Hwet in H.
  apply bind_inv_Ok in H as ([] & a2 & Hopen & H). apply check_inv_Ok in Hopen as [_ ->].
  apply bind_inv_Ok in H as (data & a2 & Hread & H). unfold lift in Hread.
  unfold libContent.
  destruct (readAll _ (snd f)) as [data'|e|why]; try discriminate.
  injection Hread as -> <-. apply aarWrite_run in H as [Hes' Hast].
  rewrite Hes', Hast. split; [| exact Hconf]. now apply written.
Qed.

Lemma addLibs_contents (abi libDir : string) (libs : list (string * node)) (a a' : Aar) :
  buildN (conf (ast a)) = false ->
  forM_ (addLib E abi libDir) libs a = (Ok tt, a') ->
  zentries (aarw a') = zentries (aarw a) ++ map (libContent libDir abi) libs
  /\ conf (ast a') = conf (ast a).
Proof.
  revert a. induction libs as [|f libs IH]; intros a Hwet H.
  - injection H as <-. now rewrite app_nil_r.
  - simpl in H. apply bind_inv_Ok in H as ([] & a1 & H1 & H).
    apply addLib_contents in H1 as [H1 Hconf1]; [| exact Hwet].
    apply IH in H as [H Hconf]; [| congruence].
    split; [| congruence]. rewrite H, H1, <- app_assoc. reflexivity.
Qed.

Lemma addArchs_contents (androidDir : string) (androidArchs : list string) (a a' : Aar) :
  buildN (conf (ast a)) = false ->
  forM_ (addArch E androidDir) androidArchs a = (Ok tt, a') ->
  zentries (aarw a') = zentries (aarw a) ++ flat_map (libContents E androidDir) androidArchs
  /\ conf (ast a') = conf (ast a).
Proof.
  revert a. induction androidArchs as [|arch archs IH]; intros a Hwet H.
  - injection H as <-. now rewrite app_nil_r.
  - simpl in H. apply bind_inv_Ok in H as ([] & a1 & H1 & H).
    unfold addArch in H1. apply bind_inv_Ok in H1 as (libs & a0 & Hread & H1).
    unfold lift in Hread. fold (jniLibs E androidDir arch) in Hread, H1.
    cbn [flat_map]. unfold libContents at 1.
    destruct (ReadDir _ _) as [libs'|e|why]; try discriminate. injection Hread as -> <-.
    apply addLibs_contents in H1 as [H1 Hconf1]; [| exact Hwet].
    apply IH in H as [H Hconf]; [| congruence].
    split; [| congruence]. rewrite H, H1, <- app_assoc. reflexivity.
Qed.

Lemma aarTail_contents (androidDir : string) (androidArchs : list string) (a a' : Aar) :
  buildN (conf (ast a)) = false ->
  aarTail E androidDir androidArchs a = (Ok tt, a') ->
  zentries (aarw a')
  = zentries (aarw a) ++ flat_map (libContents E androidDir) androidArchs
    ++ [("R.txt", Bytes ""); ("res/", Bytes "")]
  /\ zclosed (aarw a') = true.
Proof.
  intros Hwet H. unfold aarTail in H.
  apply bind_inv_Ok in H as ([] & a1 & H1 & H).
  apply addArchs_contents in H1 as [H1 _]; [| exact Hwet].
  apply bind_inv_Ok in H as ([] & a2 & H2 & H). apply aarwcreate_run in H2 as [H2 _].
  apply bind_inv_Ok in H as ([] & a3 & H3 & H). apply aarwcreate_run in H3 as [H3 _].
  unfold aarClose in H. destruct (zipCloseErr E (aarw a3)); [discriminate |].
  injection H as <-. cbn [setAarw aarw closeWriter zentries zclosed].
  split; [| reflexivity]. rewrite H3, H2, H1, <- !app_assoc. reflexivity.
Qed.

End Archive.

(** X13. What the archive of [buildAAR] holds, entry by entry, when the run is
    not dry, no operation of the archive writer fails, the assets of the
    packages can be read and so can the output directory of the compiler: a
    [buildAAR] that succeeds leaves a closed archive with the manifest
    written for the first package, the rules that keep the classes of [go],
    the archive of classes (its manifest, then the files of the output
    directory of the compiler), one entry for each asset with its bytes,
    one entry for each file of the library directory of each architecture
    with its bytes, and the two placeholders [R.txt] and [res/], which are
    empty. *)
Theorem buildAAR_contents (E : Env) (androidDir : string) (pkgs : list Build.Package)
    (androidArchs : list string) (classes : list (string * node)) (s s' : State)
    (zw : zipWriter) :
  (forall w name, zipCreateErr E w name = None) ->
  (forall w data, zipWriteErr E w data = None) ->
  (forall w, zipCloseErr E w = None) ->
  (forall pkg, In pkg pkgs -> healthy E pkg = true) ->
  buildN (conf s) = false ->
  fs E (Filepath.Join [tmpdir (conf s); "javac-output"]) = Dir classes ->
  readable (Dir classes) = true ->
  buildAAR E androidDir pkgs androidArchs s = (Ok tt, s', Some zw) ->
  exists p rest,
    pkgs = p :: rest
    /\ zentries zw
       = [("AndroidManifest.xml", Bytes (manifest E (Build.Name p)));
          ("proguard.txt", Bytes ("-keep class go.** { *; }" +:+ nl));
          ("classes.jar", Zip (classEntries E classes))]
         ++ map assetEntry (allAssets E pkgs)
         ++ flat_map (libContents E androidDir) androidArchs
         ++ [("R.txt", Bytes ""); ("res/", Bytes "")]
    /\ zclosed zw = true.
Proof.
  intros Hcreate Hwrite Hclose Hhealthy Hwet Hdir Hread H. unfold buildAAR, before in H.
  destruct (aarOutput E pkgs s) as [[out|e|why] s1] eqn:Hout; [| discriminate | discriminate].
  pose proof (keptR keepsConfig _ _ _ _ (stable_aarOutput keepsConfig E pkgs) Hout)
    as (Hn & _ & _ & _ & _ & Htmp & _).
  set (a0 := {| ast := s1; aarw := NewWriter out; files := ∅ |}) in H.
  destruct (buildAARBody E androidDir pkgs androidArchs a0) as [r a] eqn:Hbody.
  injection H as -> _ <-. unfold buildAARBody in Hbody.
  apply bind_inv_Ok in Hbody as ([] & a1 & Hhead & Hbody).
  apply bind_inv_Ok in Hbody as ([] & a2 & Hmerge & Htail).
  apply (aarHead_contents E Hcreate Hwrite Hclose _ _ classes) in Hhead
    as (p & rest & Hpkgs & Hes1 & Hconf1);
    [| simpl; congruence | simpl; now rewrite Htmp | exact Hread].
  pose proof (stable_mergeAssets sameConfig E pkgs a1) as Hconf2.
  unfold stableAt, sameConfig in Hconf2. rewrite Hmerge in Hconf2. simpl in Hconf2.
  apply (mergeAssets_contents E Hcreate Hwrite) in Hmerge; [| exact Hhealthy].
  apply aarTail_contents in Htail as [Hes3 Hclosed]; [| simpl in *; congruence].
  exists p, rest. split; [exact Hpkgs |]. split; [| exact Hclosed].
  rewrite Hes3, Hmerge, Hes1. subst a0. cbn [aarw NewWriter zentries].
  rewrite app_nil_l, <- !app_assoc. reflexivity.
Qed.

Lemma buildAAR_contents_witness :
  zentries (Sample.disjointArchive)
  = [("AndroidManifest.xml", Bytes (manifest (Sample.disjoint Sample.never) "a"));
     ("proguard.txt", Bytes ("-keep class go.** { *; }" +:+ nl));
     ("classes.jar",
      Zip [("META-INF/MANIFEST.MF", Bytes (manifestHeader (Sample.disjoint Sample.never)));
           ("go/Seq.class", Bytes "CAFE")]);
     ("assets/a.txt", Bytes "AAA"); ("assets/img/x.png", Bytes "XXX");
     ("assets/b.txt", Bytes "BBB");
     ("jni/armeabi-v7a/libgojni.so", Bytes "ELF");
     ("R.txt", Bytes ""); ("res/", Bytes "")].
Proof.
  destruct (buildAAR_contents (Sample.disjoint Sample.never) "/tmp/work/android"
              [Sample.pkgA; Sample.pkgB] ["arm"] [("go", Dir [("Seq.class", File "CAFE")])]
              (Sample.start "out.aar" false)
              (snd (fst (buildAAR (Sample.disjoint Sample.never) "/tmp/work/android"
                           [Sample.pkgA; Sample.pkgB] ["arm"]
                           (Sample.start "out.aar" false))))
              Sample.disjointArchive)
    as (p & rest & Hpkgs & Hentries & _).
  - reflexivity.
  - reflexivity.
  - reflexivity.
  - intros pkg [<-|[<-|[]]]; reflexivity.
  - reflexivity.
  - reflexivity.
  - reflexivity.
  - vm_compute. reflexivity.
  - injection Hpkgs as <- _. rewrite Hentries. vm_compute. reflexivity.
Defined.

(** ** The build of each architecture *)

(** X14. A run of [goAndroidBind] that succeeds has, for every architecture,
    installed the packages and built the main package of the library as a
    C shared library into [libgojni.so] in the directory of the Android
    project for the libraries of that architecture, both in the environment
    of the architecture with one more variable, a [GOPATH] that begins with
    the directory of the generated class wrappers; the packages are passed
    by their import paths, with the flags [-gcflags=-shared] and
    [-ldflags=-shared]. *)
Theorem goAndroidBind_builds_every_arch (E : Env) (pkgs : list Build.Package)
    (androidArchs : list string) (s s' : State) :
  goAndroidBind E pkgs androidArchs s = (Ok tt, s') ->
  forall arch, In arch androidArchs ->
    let env := androidEnv E arch
               ++ ["GOPATH=" +:+ Filepath.Join [tmpdir (conf s); "gen"] +:+ ":"
                   +:+ Getenv E "GOPATH"] in
    goInstall E (map Build.ImportPath pkgs) env ["-gcflags=-shared"; "-ldflags=-shared"]
    = None
    /\ goBuild E (Filepath.Join [tmpdir (conf s); "androidlib/main.go"]) env
         ["-buildmode=c-shared";
          "-o=" +:+ Filepath.Join [jniLibs E (Filepath.Join [tmpdir (conf s); "android"]) arch;
                                   "libgojni.so"]]
       = None.
Proof.
  intros Hrun arch Harch env. unfold goAndroidBind in Hrun.
  destruct (String.eqb (Getenv E "ANDROID_HOME") ""); [discriminate |].
  apply bind_inv_Ok in Hrun as (s0 & s1 & Hget & Hrun). injection Hget as <- <-.
  to_arch_loop Hrun.
  apply bind_inv_Ok in Hrun as ([] & sK & Hloop & _).
  destruct (forM_inv_Ok _ _ _ _ Hloop arch Harch) as (s2 & s3 & Hturn).
  unfold bindArch in Hturn.
  apply bind_inv_Ok in Hturn as ([] & s4 & Hinstall & Hturn).
  apply check_inv_Ok in Hinstall as [Hinstall _].
  apply bind_inv_Ok in Hturn as ([] & s5 & Hbuild & _).
  apply check_inv_Ok in Hbuild as [Hbuild _].
  split; [exact Hinstall | exact Hbuild].
Qed.

Lemma goAndroidBind_builds_every_arch_witness :
  goBuild Sample.twoLibs "/tmp/work/androidlib/main.go" ["GOPATH=/tmp/work/gen:"]
    ["-buildmode=c-shared"; "-o=/tmp/work/android/src/main/jniLibs/armeabi-v7a/libgojni.so"]
  = None.
Proof.
  refine (proj2 (goAndroidBind_builds_every_arch Sample.twoLibs [Sample.pkgA; Sample.pkgB]
                   ["arm"] Sample.startLibs
                   (snd (goAndroidBind Sample.twoLibs [Sample.pkgA; Sample.pkgB] ["arm"]
                           Sample.startLibs)) _ "arm" _)).
  - vm_compute. reflexivity.
  - now left.
Defined.

(** ** What is printed *)

Lemma printedLines_app (t1 t2 : list event) :
  printedLines (t1 ++ t2) = printedLines t1 ++ printedLines t2.
Proof. unfold printedLines. apply flat_map_app. Qed.

Lemma echoedCmds_app (t1 t2 : list event) :
  echoedCmds (t1 ++ t2) = echoedCmds t1 ++ echoedCmds t2.
Proof. unfold echoedCmds. apply flat_map_app. Qed.

#[local] Instance quietRun_preorder : PreOrder quietRun.
Proof.
  split.
  - intros s. unfold quietRun. tauto.
  - intros a b c (Hv1 & Hx1 & Hp1 & He1) (Hv2 & Hx2 & Hp2 & He2).
    unfold quietRun. repeat split; try congruence.
    + intros Hv. rewrite Hp2 by congruence. now apply Hp1.
    + intros Hx. rewrite He2 by congruence. now apply He1.
Qed.

(** An event keeps the run quiet unless it is a line printed without [-v]
    or a command echoed without [-x]. *)
Lemma quiet_emit (ev : event) (s : State) :
  match ev with
  | Printed _ => buildV (conf s) = true
  | Echoed _ => buildX (conf s) = true
  | Created _ | Wrote _ _ | MadeDir _ | RunCmd _ _ => True
  end ->
  quietRun s (emit ev s).
Proof.
  intros Hev. unfold quietRun. cbn [emit conf trace].
  rewrite printedLines_app, echoedCmds_app.
  destruct ev; simpl; rewrite ?app_nil_r; repeat split; try reflexivity; congruence.
Qed.

Lemma quiet_setBuildO (o : string) (s : State) : quietRun s (setBuildO o s).
Proof. unfold quietRun. simpl. tauto. Qed.

Section Quiet.
Context (E : Env).

Lemma quiet_Create (path : string) : stable id quietRun (Create E path).
Proof.
  intros s. unfold stableAt, Create, bind, check, modify, id.
  destruct (createErr E path); simpl; [reflexivity | now apply quiet_emit].
Qed.

Lemma quiet_jarwcreate (name : string) : stable jst quietRun (jarwcreate E name).
Proof.
  intros j. unfold stableAt, jarwcreate.
  assert (Hprint : quietRun (jst j)
            (jst (if buildV (conf (jst j))
                  then jarEmit (Printed ("jar: " +:+ name +:+ nl)) j else j))).
  { destruct (buildV (conf (jst j))) eqn:Hv; [| reflexivity]. now apply quiet_emit. }
  destruct (zipCreateErr E _ name); exact Hprint.
Qed.

Lemma quiet_jarWrite (data : string) : stable jst quietRun (jarWrite E data).
Proof.
  intros j. unfold stableAt, jarWrite.
  destruct (zipWriteErr E (jarw j) data); reflexivity.
Qed.

Lemma quiet_jarClose : stable jst quietRun (jarClose E).
Proof.
  intros j. unfold stableAt, jarClose.
  destruct (zipCloseErr E (jarw j)); reflexivity.
Qed.

#[local] Hint Extern 1 (stableAt _ _ (jarwcreate _ _) _) => apply quiet_jarwcreate : stable.
#[local] Hint Extern 1 (stableAt _ _ (jarWrite _ _) _) => apply quiet_jarWrite : stable.
#[local] Hint Extern 1 (stableAt _ _ (jarClose _) _) => apply quiet_jarClose : stable.

Lemma quiet_writeJar (w : sink) (dir : string) : stableB quietRun (writeJar E w dir).
Proof.
  intros s. unfold writeJar. destruct (buildN (conf s)); simpl; [reflexivity |].
  assert (H : stable jst quietRun (writeJarBody E dir))
    by (unfold writeJarBody, writeJarWalkFn; stable_auto).
  specialize (H {| jst := s; jarw := NewWriter w |}). unfold stableAt in H.
  destruct (writeJarBody E dir _) as [r j]. exact H.
Qed.

Lemma quiet_before {A} (m : M State A) (k : A -> State -> Built) :
  stable id quietRun m -> (forall a, stableB quietRun (k a)) -> stableB quietRun (before m k).
Proof.
  intros Hm Hk s. specialize (Hm s). unfold stableAt, before, id in *.
  destruct (m s) as [[a|e|why] s1]; simpl in *; [| exact Hm | exact Hm].
  etransitivity; [exact Hm | apply Hk].
Qed.

Lemma quiet_buildJar (w : sink) (srcDir : string) : stableB quietRun (buildJar E w srcDir).
Proof.
  apply quiet_before; [| intros dst; apply quiet_writeJar].
  intros s. unfold stableAt, id, bind, get.
  destruct (javaSources E srcDir s) as [[srcFiles|e|why] s0] eqn:Hsrc;
    pose proof (javaSources_state _ _ _ _ _ Hsrc) as ->; simpl; try reflexivity.
  assert (Hdir : exists s1,
             snd ((if buildN (conf s) then ret tt
                   else MkdirAll E (Filepath.Join [tmpdir (conf s); "javac-output"])) s) = s1
             /\ quietRun s s1 /\ conf s1 = conf s).
  { eexists. split; [reflexivity |].
    destruct (buildN (conf s)); [split; reflexivity |].
    unfold MkdirAll, bind, check, modify. destruct (mkdirAllErr E _); simpl.
    - split; reflexivity.
    - split; [now apply quiet_emit | reflexivity]. }
  destruct Hdir as (s1 & Hs1 & Hq1 & Hconf1).
  destruct ((if buildN (conf s) then ret tt else MkdirAll E _) s) as [[[]|e|why] s1'];
    simpl in Hs1; subst s1'; simpl; try exact Hq1.
  unfold lift. destruct (bootClasspath E) as [b|e|why]; simpl; try exact Hq1.
  unfold modify, check.
  set (s2 := emit (RunCmd srcDir _) s1).
  assert (Hq2 : quietRun s s2).
  { etransitivity; [exact Hq1 |]. now apply quiet_emit. }
  destruct (runCmd E srcDir _); simpl; [exact Hq2 |].
  destruct (buildX (conf s)) eqn:Hx; simpl; [| exact Hq2].
  etransitivity; [exact Hq2 |]. apply quiet_emit. cbn [emit conf s2]. congruence.
Qed.

Lemma quiet_buildSrcJar (androidDir : string) :
  stableB quietRun (buildSrcJar E androidDir).
Proof.
  apply quiet_before; [| intros out; apply quiet_writeJar].
  intros s. apply stableAt_get_bind.
  destruct (buildN (conf s)); [use stable_ret |].
  use stableAt_bind; [apply quiet_Create | intros _; use stable_ret].
Qed.

Lemma quiet_aarOutput (pkgs : list Build.Package) : stable id quietRun (aarOutput E pkgs).
Proof.
  intros s. unfold aarOutput. apply stableAt_get_bind.
  use stableAt_bind; [|].
  - destruct (String.eqb (buildO (conf s)) ""); [| use stable_ret].
    destruct pkgs as [|p rest]; [use stable_panic |]. apply quiet_setBuildO.
  - intros _ s1. apply stableAt_get_bind.
    destruct (negb _); [use stable_fail |].
    destruct (buildN (conf s1)); [use stable_ret |].
    use stableAt_bind; [apply quiet_Create | intros _; use stable_ret].
Qed.

Lemma quiet_aarwcreate (name : string) : stable ast quietRun (aarwcreate E name).
Proof.
  intros a. unfold stableAt, aarwcreate.
  assert (Hprint : quietRun (ast a)
            (ast (if buildV (conf (ast a))
                  then aarEmit (Printed ("aar: " +:+ name +:+ nl)) a else a))).
  { destruct (buildV (conf (ast a))) eqn:Hv; [| reflexivity]. now apply quiet_emit. }
  destruct (zipCreateErr E _ name); exact Hprint.
Qed.

Lemma quiet_aarWrite (data : string) : stable ast quietRun (aarWrite E data).
Proof.
  intros a. unfold stableAt, aarWrite.
  destruct (zipWriteErr E (aarw a) data); reflexivity.
Qed.

Lemma quiet_aarClose : stable ast quietRun (aarClose E).
Proof.
  intros a. unfold stableAt, aarClose.
  destruct (zipCloseErr E (aarw a)); reflexivity.
Qed.

#[local] Hint Extern 1 (stableAt _ _ (aarwcreate _ _) _) => apply quiet_aarwcreate : stable.
#[local] Hint Extern 1 (stableAt _ _ (aarWrite _ _) _) => apply quiet_aarWrite : stable.
#[local] Hint Extern 1 (stableAt _ _ (aarClose _) _) => apply quiet_aarClose : stable.
#[local] Hint Extern 1 (stableAt _ _ (modify (setFiles _)) _) =>
  use stable_modify; reflexivity : stable.
#[local] Hint Extern 1 (stableAt _ _ (first _) _) => unfold first; stable_auto : stable.
#[local] Hint Extern 1 (stableAt _ _ (inEntry (buildJar _ _ _)) _) =>
  apply stable_inEntry, quiet_buildJar : stable.

Lemma quiet_buildAARBody (androidDir : string) (pkgs : list Build.Package)
    (androidArchs : list string) :
  stable ast quietRun (buildAARBody E androidDir pkgs androidArchs).
Proof.
  unfold buildAARBody, aarHead, mergeAssets, mergePackage, assetWalkFn, aarTail,
    addArch, addLib.
  stable_auto.
Qed.

Lemma quiet_buildAAR (androidDir : string) (pkgs : list Build.Package)
    (androidArchs : list string) :
  stableB quietRun (buildAAR E androidDir pkgs androidArchs).
Proof.
  apply quiet_before; [apply quiet_aarOutput |]. intros out s.
  pose proof (quiet_buildAARBody androidDir pkgs androidArchs
                {| ast := s; aarw := NewWriter out; files := ∅ |}) as H.
  unfold stableAt in H. destruct (buildAARBody _ _ _ _ _) as [r a]. exact H.
Qed.

End Quiet.

Lemma quiet_goAndroidBind (E : Env) (pkgs : list Build.Package)
    (androidArchs : list string) :
  stable id quietRun (goAndroidBind E pkgs androidArchs).
Proof.
  assert (Hemit : forall ev, match ev with Printed _ | Echoed _ => False | _ => True end ->
                             stable id quietRun (modify (emit ev))).
  { intros ev Hev s. apply quiet_emit. destruct ev; tauto. }
  assert (Hcreate : forall path, stable id quietRun (Create E path))
    by apply quiet_Create.
  unfold goAndroidBind, bindArch, copyLib, index, Bind.GenerateJavaSupport, Bind.writeTo.
  stable_auto; try apply Hcreate; try (apply Hemit; exact I).
  - apply stable_built, quiet_buildAAR.
  - apply stable_built, quiet_buildSrcJar.
Qed.

(** X15. Without [-v] nothing is printed and without [-x] no command is echoed,
    whatever the outcome: [goAndroidBind], [buildAAR], [buildSrcJar],
    [buildJar] and [writeJar] leave the two flags as they are, print a line
    on the standard error only when [-v] is set, and hand a command line to
    [printcmd] only when [-x] is set. *)
Theorem quiet_unless_asked (E : Env) (androidDir srcDir : string)
    (pkgs : list Build.Package) (androidArchs : list string) (w : sink) (s : State) :
  quietRun s (snd (goAndroidBind E pkgs androidArchs s))
  /\ quietRun s (snd (fst (buildAAR E androidDir pkgs androidArchs s)))
  /\ quietRun s (snd (fst (buildSrcJar E androidDir s)))
  /\ quietRun s (snd (fst (buildJar E w srcDir s)))
  /\ quietRun s (snd (fst (writeJar E w srcDir s))).
Proof.
  split; [apply quiet_goAndroidBind |].
  split; [apply quiet_buildAAR |].
  split; [apply quiet_buildSrcJar |].
  split; [apply quiet_buildJar | apply quiet_writeJar].
Qed.

(** *** With [-v], the entries are announced *)

#[local] Instance announced_preorder : PreOrder announced.
Proof.
  split.
  - intros v. split; [reflexivity |]. exists [], [].
    rewrite !app_nil_r. repeat split. intros _ name [].
  - intros a b c (Hv1 & n1 & e1 & Hn1 & He1 & Hin1) (Hv2 & n2 & e2 & Hn2 & He2 & Hin2).
    split; [congruence |]. exists (n1 ++ n2), (e1 ++ e2).
    rewrite Hn2, Hn1, He2, He1, !app_assoc. repeat split.
    intros Hv name Hin. apply in_app_or in Hin as [Hin|Hin]; apply in_or_app.
    + left. now apply Hin1.
    + right. apply Hin2; [congruence | exact Hin].
Qed.

Lemma announced_same (a a' : Aar) :
  aarNames a' = aarNames a -> ast a' = ast a -> announced (aarLog a) (aarLog a').
Proof. intros Hn Hs. unfold aarLog. rewrite Hn, Hs. reflexivity. Qed.

Section Announced.
Context (E : Env).

Lemma announced_aarwcreate (name : string) :
  stable aarLog announced (aarwcreate E name).
Proof.
  intros a. unfold stableAt, aarwcreate, aarLog, aarNames, announced.
  destruct (buildV (conf (ast a))) eqn:Hv; destruct (zipCreateErr E _ name);
    cbn [fst snd aarEmit setAarw ast aarw emit conf trace]; rewrite ?names_addEntry;
    (split; [reflexivity |]).
  - exists [], [aarLine name]. rewrite app_nil_r. repeat split. intros _ n [].
  - exists [name], [aarLine name]. repeat split. intros _ n [<-|[]]. now left.
  - exists [], []. rewrite !app_nil_r. repeat split. intros _ n [].
  - exists [name], []. rewrite app_nil_r. repeat split. congruence.
Qed.

Lemma announced_aarWrite (data : string) : stable aarLog announced (aarWrite E data).
Proof.
  intros a. unfold stableAt. apply announced_same.
  - apply (kept aarNames (aarWrite E data) a _ (fst (aarWrite E data a)));
      [apply same_aarWrite | now destruct (aarWrite E data a)].
  - unfold aarWrite. destruct (zipWriteErr E (aarw a) data); reflexivity.
Qed.

Lemma announced_aarClose : stable aarLog announced (aarClose E).
Proof.
  intros a. unfold stableAt. apply announced_same;
    unfold aarClose; destruct (zipCloseErr E (aarw a)); reflexivity.
Qed.

Lemma announced_inEntry (w : sink) (srcDir : string) :
  stable aarLog announced (inEntry (buildJar E w srcDir)).
Proof.
  intros a. unfold stableAt, inEntry, aarLog, aarNames.
  pose proof (quiet_buildJar E w srcDir (ast a)) as (Hv & _).
  pose proof (stableB_buildJar traceGrows E w srcDir (ast a)) as [events Hevents].
  destruct (buildJar E w srcDir (ast a)) as [[r s] jar].
  cbn [fst snd ast aarw] in *. rewrite names_embed.
  split; [exact Hv |]. exists [], events. rewrite app_nil_r. repeat split; [exact Hevents |].
  intros _ n [].
Qed.

#[local] Hint Extern 1 (stableAt _ _ (aarwcreate _ _) _) => apply announced_aarwcreate : stable.
#[local] Hint Extern 1 (stableAt _ _ (aarWrite _ _) _) => apply announced_aarWrite : stable.
#[local] Hint Extern 1 (stableAt _ _ (aarClose _) _) => apply announced_aarClose : stable.
#[local] Hint Extern 1 (stableAt _ _ (modify (setFiles _)) _) =>
  use stable_modify; reflexivity : stable.
#[local] Hint Extern 1 (stableAt _ _ (first _) _) => unfold first; stable_auto : stable.
#[local] Hint Extern 1 (stableAt _ _ (inEntry (buildJar _ _ _)) _) =>
  apply announced_inEntry : stable.

Lemma announced_buildAARBody (androidDir : string) (pkgs : list Build.Package)
    (androidArchs : list string) :
  stable aarLog announced (buildAARBody E androidDir pkgs androidArchs).
Proof.
  unfold buildAARBody, aarHead, mergeAssets, mergePackage, assetWalkFn, aarTail,
    addArch, addLib.
  stable_auto.
Qed.

End Announced.

(** X16. With [-v], every entry of the archive of [buildAAR] was announced on the
    standard error by a line [aar: <name>], whether [buildAAR] then
    succeeded or not. *)
Theorem verbose_lists_entries (E : Env) (androidDir : string) (pkgs : list Build.Package)
    (androidArchs : list string) (s s' : State) (r : result unit) (zw : zipWriter) :
  buildAAR E androidDir pkgs androidArchs s = (r, s', Some zw) ->
  buildV (conf s) = true ->
  forall name, In name (entryNames zw) -> In (aarLine name) (trace s').
Proof.
  unfold buildAAR, before. intros H Hv name Hin.
  destruct (aarOutput E pkgs s) as [[out|e|why] s1] eqn:Hout; [| discriminate | discriminate].
  pose proof (keptR quietRun _ _ _ _ (quiet_aarOutput E pkgs) Hout) as (Hv1 & _).
  pose proof (announced_buildAARBody E androidDir pkgs androidArchs
                {| ast := s1; aarw := NewWriter out; files := ∅ |})
    as (_ & names & events & Hnames & Hevents & Hall).
  destruct (buildAARBody E androidDir pkgs androidArchs _) as [r' a].
  injection H as _ <- <-. cbn [aarLog fst snd ast aarw] in *.
  rewrite Hevents. apply in_or_app. right. apply Hall; [congruence |].
  unfold aarNames in Hnames. cbn [aarw] in Hnames. rewrite Hnames in Hin. exact Hin.
Qed.

Lemma verbose_lists_entries_witness :
  In (aarLine "assets/img/x.png")
     (trace (snd (fst (buildAAR (Sample.disjoint Sample.never) "/tmp/work/android"
                         [Sample.pkgA; Sample.pkgB] ["arm"] Sample.startVerbose)))).
Proof.
  apply (verbose_lists_entries (Sample.disjoint Sample.never) "/tmp/work/android"
           [Sample.pkgA; Sample.pkgB] ["arm"] Sample.startVerbose _ (Ok tt)
           Sample.verboseArchive).
  - vm_compute. reflexivity.
  - reflexivity.
  - vm_compute. auto 10.
Defined.

(** ** Assets behind a symbolic link *)

Lemma sliceFrom_past (s : string) (n : nat) :
  Strings.sliceFrom (String.length s + S n) s = None.
Proof. induction s as [|c s IH]; [reflexivity | exact IH]. Qed.

Lemma resolve_statErr (op path : string) (target : node) (entries : list (string * node)) :
  resolve target = Dir entries -> statErr op path target = None.
Proof.
  induction target as [data|errno|es _|errno|errno|errno|t IH] using node_induction;
    simpl; intros H; try discriminate; try reflexivity. now apply IH.
Qed.

Lemma resolve_openErr (path : string) (target : node) (entries : list (string * node)) :
  resolve target = Dir entries -> openErr path target = None.
Proof.
  induction target as [data|errno|es _|errno|errno|errno|t IH] using node_induction;
    simpl; intros H; try discriminate; try reflexivity. now apply IH.
Qed.

(** The turn of the loop for a package whose [assets] are a symbolic link
    to a directory: [os.Stat] finds a directory, the walk visits the link
    as a file that is not a directory, the function opens it, and the slice
    of its path after the directory and the separator is out of range. *)
Lemma mergePackage_symlink (E : Env) (pkg : Build.Package) (target : node)
    (entries : list (string * node)) (a : Aar) :
  fs E (Filepath.Join [Build.Dir pkg; "assets"]) = Symlink target ->
  resolve target = Dir entries ->
  mergePackage E pkg a = (Panic "slice bounds out of range", a).
Proof.
  intros Hfs Hdir. unfold mergePackage, Walk. rewrite Hfs.
  cbn [statErr resolve visits forM_ fst snd].
  rewrite (resolve_statErr _ _ _ _ Hdir), Hdir. cbn [IsDir].
  unfold bind at 1, ret at 1. unfold bind at 1. unfold assetWalkFn.
  cbn [IsDir openErr]. rewrite (resolve_openErr _ _ _ Hdir).
  rewrite (sliceFrom_past _ 0). reflexivity.
Qed.

(** X17. When the [assets] of a package are a symbolic link to a directory,
    [buildAAR] panics: once the packages before it are merged, the loop over
    the packages ends with the run-time error of a slice out of range, with
    the archive as those packages left it, and [buildAAR] ends with it. The
    call that decides whether to walk follows the link, the walk does not. *)
Theorem assets_symlink_panics (E : Env) (androidDir : string)
    (pkgs1 pkgs2 : list Build.Package) (pkg : Build.Package)
    (androidArchs : list string) (target : node) (entries : list (string * node))
    (s s1 : State) (out : sink) (a a1 : Aar) :
  fs E (Filepath.Join [Build.Dir pkg; "assets"]) = Symlink target ->
  resolve target = Dir entries ->
  aarOutput E (pkgs1 ++ pkg :: pkgs2) s = (Ok out, s1) ->
  aarHead E androidDir (pkgs1 ++ pkg :: pkgs2)
    {| ast := s1; aarw := NewWriter out; files := ∅ |} = (Ok tt, a) ->
  forM_ (mergePackage E) pkgs1 (setFiles ∅ a) = (Ok tt, a1) ->
  mergeAssets E (pkgs1 ++ pkg :: pkgs2) a = (Panic "slice bounds out of range", a1)
  /\ buildAAR E androidDir (pkgs1 ++ pkg :: pkgs2) androidArchs s
     = (Panic "slice bounds out of range", ast a1, Some (aarw a1)).
Proof.
  intros Hfs Hdir Hout Hhead Hbefore.
  assert (Hmerge : mergeAssets E (pkgs1 ++ pkg :: pkgs2) a
                   = (Panic "slice bounds out of range", a1)).
  { unfold mergeAssets, bind, modify. rewrite forM_app, Hbefore. cbn [forM_].
    unfold bind. now rewrite (mergePackage_symlink E pkg target entries a1 Hfs Hdir). }
  split; [exact Hmerge |].
  unfold buildAAR, before. rewrite Hout. unfold buildAARBody.
  rewrite (bind_Ok _ _ _ _ _ Hhead). unfold bind. now rewrite Hmerge.
Qed.

Lemma assets_symlink_panics_witness :
  fst (fst (buildAAR Sample.linked "/tmp/work/android" [Sample.pkgA; Sample.pkgB] ["arm"]
              (Sample.start "out.aar" false)))
  = Panic "slice bounds out of range".
Proof.
  pose proof (assets_symlink_panics Sample.linked "/tmp/work/android" [Sample.pkgA] []
                Sample.pkgB ["arm"] (Dir [("b.txt", File "BBB")]) [("b.txt", File "BBB")]
                (Sample.start "out.aar" false)
                (emit (Created "out.aar") (Sample.start "out.aar" false))
                (ToFile "out.aar")
                (snd (aarHead Sample.linked "/tmp/work/android" [Sample.pkgA; Sample.pkgB]
                        {| ast := emit (Created "out.aar") (Sample.start "out.aar" false);
                           aarw := NewWriter (ToFile "out.aar"); files := ∅ |}))
                (snd (forM_ (mergePackage Sample.linked) [Sample.pkgA]
                        (setFiles ∅
                           (snd (aarHead Sample.linked "/tmp/work/android"
                                   [Sample.pkgA; Sample.pkgB]
                                   {| ast := emit (Created "out.aar")
                                               (Sample.start "out.aar" false);
                                      aarw := NewWriter (ToFile "out.aar");
                                      files := ∅ |})))))
                eq_refl eq_refl) as H.
  destruct H as [_ H].
  - vm_compute. reflexivity.
  - vm_compute. reflexivity.
  - vm_compute. reflexivity.
  - cbn [app] in H. now rewrite H.
Defined.

(** ** The dry run of goAndroidBind *)

(** C9 (the code departs from it). In a dry run [goAndroidBind] makes and
    writes files. The copy of an auxiliary library and the writer handed to
    [GenerateJavaSupport] do not look at the flag: in a dry run too, a copy
    that succeeds has made and written the library in the project, and a
    [GenerateJavaSupport] that succeeds has made and written [Seq.java] and
    [LoadJNI.java]; and a copy whose file cannot be made fails with the
    error of [os.Create]. The functions beside them do look at it: in a dry run
    [buildAAR] and [buildSrcJar] make no file, no directory and no write to
    a file. On a project with two auxiliary libraries a dry run of
    [goAndroidBind] succeeds, and what it did is: four files made and
    written, and the [javac] command handed to [runCmd]; the archive and
    the archive of sources are not made. *)
Theorem dry_run_goAndroidBind_writes_files :
  (forall (E : Env) (dir jniDir lib : string) (s s' : State),
     buildN (conf s) = true ->
     copyLib E dir jniDir lib s = (Ok tt, s') ->
     exists data,
       trace s' = trace s ++ [Created (Filepath.Join [jniDir; "lib" +:+ lib +:+ ".so"]);
                              Wrote (Filepath.Join [jniDir; "lib" +:+ lib +:+ ".so"]) data])
  /\ (forall (E : Env) (dir jniDir lib : string) (s : State) (e : error),
        buildN (conf s) = true ->
        openErr (Filepath.Join [dir; "lib" +:+ lib +:+ ".so"])
          (fs E (Filepath.Join [dir; "lib" +:+ lib +:+ ".so"])) = None ->
        createErr E (Filepath.Join [jniDir; "lib" +:+ lib +:+ ".so"]) = Some e ->
        copyLib E dir jniDir lib s = (Err e, s))
  /\ (forall (E : Env) (mobilePkgDir dir : string) (meta : Bind.NativeMeta) (s s' : State),
        buildN (conf s) = true ->
        Bind.GenerateJavaSupport E mobilePkgDir meta dir (fileWriter E) s = (Ok tt, s') ->
        exists seqText jniText,
          trace s' = trace s ++ [Created (Filepath.Join [dir; "Seq.java"]);
                                 Wrote (Filepath.Join [dir; "Seq.java"]) seqText;
                                 Created (Filepath.Join [dir; "LoadJNI.java"]);
                                 Wrote (Filepath.Join [dir; "LoadJNI.java"]) jniText])
  /\ (forall (E : Env) (androidDir : string) (pkgs : list Build.Package)
             (androidArchs : list string) (s : State),
        buildN (conf s) = true ->
        touched (trace (snd (fst (buildAAR E androidDir pkgs androidArchs s))))
        = touched (trace s)
        /\ touched (trace (snd (fst (buildSrcJar E androidDir s)))) = touched (trace s))
  /\ goAndroidBind Sample.twoLibs [Sample.pkgA; Sample.pkgB] ["arm"] Sample.dryLibs
     = (Ok tt,
        {| conf := conf Sample.dryLibs;
           trace :=
             [Created "/tmp/work/android/src/main/jniLibs/armeabi-v7a/libfoo.so";
              Wrote "/tmp/work/android/src/main/jniLibs/armeabi-v7a/libfoo.so" "FOO";
              Created "/tmp/work/android/src/main/jniLibs/armeabi-v7a/libbar.so";
              Wrote "/tmp/work/android/src/main/jniLibs/armeabi-v7a/libbar.so" "BAR";
              Created "/tmp/work/android/src/main/java/go/Seq.java";
              Wrote "/tmp/work/android/src/main/java/go/Seq.java" "Seq.java";
              Created "/tmp/work/android/src/main/java/go/LoadJNI.java";
              Wrote "/tmp/work/android/src/main/java/go/LoadJNI.java" "LoadJNI.java";
              RunCmd "/tmp/work/android/src/main/java"
                ["javac"; "-d"; "/tmp/work/javac-output"; "-source"; "1.7";
                 "-target"; "1.7"; "-bootclasspath";
                 "/sdk/platforms/android-21/android.jar"; "*.java"]] |}).
Proof.
  split; [| split; [| split; [| split]]].
  - intros E dir jniDir lib s s' _ Hcopy.
    apply copyLib_done in Hcopy as (_ & data & _ & Htrace). now exists data.
  - intros E dir jniDir lib s e _ Hopen Hcreate.
    unfold copyLib, Create, bind, check. now rewrite Hopen, Hcreate.
  - intros E mobilePkgDir dir meta s s' _ Hrun.
    apply GenerateJavaSupport_ok in Hrun as (seqText & jniText & _ & _ & Htrace).
    now exists seqText, jniText.
  - intros E androidDir pkgs androidArchs s Hdry. split.
    + apply (stableB_buildAAR staysDry E androidDir pkgs androidArchs s Hdry).
    + apply (stableB_buildSrcJar staysDry E androidDir s Hdry).
  - vm_compute. reflexivity.
Qed.
